(** * BatchIMG: the pipeline executor and the batch runner of [main.py]

    A shallow embedding of the non-GUI core of [main.py]: the helper
    functions ([insert_log], [format_size_1d], [is_float], [check],
    [check2]), the transform functions ([func_transform_*],
    [func_advanced_*]), the pipeline executor ([process]) and the batch
    runner ([start_processing], [start_processing_threads]).

    Conventions of the embedding.
    - Python [str] values are [string]s over ASCII; [int] is [Z]; [float]
      is IEEE 754 binary64, computed with [SpecFloat] (53 bits of mantissa,
      [emax = 1024], round to nearest even).
    - A Python call either returns or raises; what it did to the globals
      before raising stays done.  The monad [M] below is state passing with
      an [outcome] ([Return] or [Raise]) next to the state.
    - Pillow, [os], [tkinter.messagebox] and the part of [float()] that
      reads non-integer literals are not code of the program: they are the
      fields of the record [World].
    - The tkinter variables and entries the program reads are the fields of
      the record [Options]; a run reads one fixed [Options] value.
    - The world answers as a function of what it is asked: the listing of
      a directory and the outcome of decoding a file are the same whenever
      a batch asks.  A directory that changes while the batch runs is
      outside the model.
    - One batch runs alone on the log and on the counters.  How the
      launcher and a worker interleave on [THREAD_COUNT] is modelled apart,
      in [Dispatcher].  The label that shows [THREAD_COUNT] is left out. *)

From Stdlib Require Import String Ascii List ZArith Lia Bool SpecFloat DecimalString.
Import ListNotations.
Open Scope string_scope.
Open Scope Z_scope.

(* ===================================================================== *)
(** * Python values: strings, integers, floats, exceptions               *)
(* ===================================================================== *)

(** A call returns a value or raises an exception; the payload of [Raise]
    is [str(e)], the only part of the exception the program looks at. *)
Inductive outcome (A : Type) : Type :=
| Return (a : A)
| Raise (e : string).
Arguments Return {A} a.
Arguments Raise {A} e.

Definition is_raise {A} (r : outcome A) : bool :=
  match r with Raise _ => true | Return _ => false end.

(** The built-in functions and the [str] and [list] methods the program
    calls, under their Python names. *)
Module Py.

(** [c in s] for a one-character [c]. *)
Fixpoint contains (c : ascii) (s : string) : bool :=
  match s with
  | EmptyString => false
  | String d r => Ascii.eqb d c || contains c r
  end.

(** [s.split(sep)] for a one-character separator: never an empty list. *)
Fixpoint split (sep : ascii) (s : string) : list string :=
  match s with
  | EmptyString => [EmptyString]
  | String c r =>
      if Ascii.eqb c sep then EmptyString :: split sep r
      else match split sep r with
           | [] => [String c EmptyString]
           | hd :: tl => String c hd :: tl
           end
  end.

Definition isdigit (c : ascii) : bool :=
  let n := N_of_ascii c in (48 <=? n)%N && (n <=? 57)%N.

(** [str.isspace] on ASCII: tab to carriage return, the four separators
    0x1c to 0x1f, and the space.  The regular expression class [\s] is the
    same set. *)
Definition isspace (c : ascii) : bool :=
  let n := N_of_ascii c in
  ((9 <=? n)%N && (n <=? 13)%N) || ((28 <=? n)%N && (n <=? 32)%N).

Fixpoint all_chars (p : ascii -> bool) (s : string) : bool :=
  match s with
  | EmptyString => true
  | String c r => p c && all_chars p r
  end.

(** [s.isnumeric()] on ASCII: not empty and only digits. *)
Definition isnumeric (s : string) : bool :=
  match s with
  | EmptyString => false
  | _ => all_chars isdigit s
  end.

Fixpoint lstrip (s : string) : string :=
  match s with
  | EmptyString => EmptyString
  | String c r => if isspace c then lstrip r else s
  end.

Fixpoint rstrip (s : string) : string :=
  match s with
  | EmptyString => EmptyString
  | String c r =>
      match rstrip r with
      | EmptyString => if isspace c then EmptyString else String c EmptyString
      | r' => String c r'
      end
  end.

(** [s.strip()] *)
Definition strip (s : string) : string := rstrip (lstrip s).

Definition lower_char (c : ascii) : ascii :=
  let n := N_of_ascii c in
  if (65 <=? n)%N && (n <=? 90)%N then ascii_of_N (n + 32) else c.

(** [s.lower()] *)
Fixpoint lower (s : string) : string :=
  match s with
  | EmptyString => EmptyString
  | String c r => String (lower_char c) (lower r)
  end.

(** [str(n)] for an [int]. *)
Definition str (n : Z) : string := NilZero.string_of_int (Z.to_int n).

Definition digit_value (c : ascii) : Z := Z.of_N (N_of_ascii c) - 48.

(** The digits of an integer literal, most significant first; one
    underscore is allowed between two digits.  [after_digit] tells whether
    the character before was a digit. *)
Fixpoint int_digits (acc : Z) (after_digit : bool) (s : string) : option Z :=
  match s with
  | EmptyString => if after_digit then Some acc else None
  | String c r =>
      if isdigit c then int_digits (10 * acc + digit_value c) true r
      else if Ascii.eqb c "_" && after_digit
           then match r with
                | EmptyString => None
                | String d _ => if isdigit d then int_digits acc false r else None
                end
           else None
  end.

(** A base-10 integer literal as [int()] and [float()] read it: white
    space around it, an optional sign, digits.  The result is the sign and
    the magnitude. *)
Definition int_literal (s : string) : option (bool * Z) :=
  match strip s with
  | String "-" r => option_map (pair true) (int_digits 0 false r)
  | String "+" r => option_map (pair false) (int_digits 0 false r)
  | t => option_map (pair false) (int_digits 0 false t)
  end.

(** [int(s)].  The interpreter's optional limit on the number of digits
    ([sys.set_int_max_str_digits]) is not part of the model. *)
Definition int (s : string) : outcome Z :=
  match int_literal s with
  | Some (neg, m) => Return (if neg then - m else m)
  | None => Raise ("invalid literal for int() with base 10: '" ++ s ++ "'")
  end.

(** binary64 *)
Definition float := spec_float.
Definition prec : Z := 53.
Definition emax : Z := 1024.

(** The double nearest to an integer (ties to even). *)
Definition float_of_Z (z : Z) : float := binary_normalize prec emax z 0 false.

Definition fdiv (x y : float) : outcome float :=
  match y with
  | S754_zero _ => Raise "float division by zero"
  | _ => Return (SFdiv prec emax x y)
  end.

Definition fmul (x y : float) : float := SFmul prec emax x y.

(** An [int] operand of a float operation is converted first; an [int]
    beyond the doubles raises [OverflowError]. *)
Definition float_of_int (z : Z) : outcome float :=
  match float_of_Z z with
  | S754_infinity _ => Raise "int too large to convert to float"
  | f => Return f
  end.

(** [int(x)] for a float [x]: truncation toward zero. *)
Definition int_of_float (x : float) : outcome Z :=
  match x with
  | S754_zero _ => Return 0
  | S754_infinity _ => Raise "cannot convert float infinity to integer"
  | S754_nan => Raise "cannot convert float NaN to integer"
  | S754_finite s m e =>
      let a := match e with
               | Zneg k => Z.shiftr (Zpos m) (Zpos k)
               | _ => Z.shiftl (Zpos m) e
               end in
      Return (if s then - a else a)
  end.

Definition float_zero : float := S754_zero false.

(** [x > y] and [x >= y] on floats; a NaN compares false. *)
Definition fgt (x y : float) : bool := SFltb y x.
Definition fge (x y : float) : bool := SFleb y x.

(** [l.index(x)] on a list of strings. *)
Fixpoint index_from (i : Z) (x : string) (l : list string) : outcome Z :=
  match l with
  | [] => Raise ("'" ++ x ++ "' is not in list")
  | y :: r => if String.eqb y x then Return i else index_from (i + 1) x r
  end.

Definition index (x : string) (l : list string) : outcome Z := index_from 0 x l.

(** [l[i]]: a negative index counts from the end. *)
Definition getitem (l : list string) (i : Z) : outcome string :=
  let n := Z.of_nat (List.length l) in
  let j := if i <? 0 then i + n else i in
  if (0 <=? j) && (j <? n)
  then Return (nth (Z.to_nat j) l EmptyString)
  else Raise "list index out of range".

End Py.

(* ===================================================================== *)
(** * Regular expressions                                                *)
(* ===================================================================== *)

Module Regex.

(** The fragment of [re] syntax the two patterns of the program use. *)
Inductive regex : Type :=
| Void                            (* matches nothing *)
| Eps                             (* the empty string *)
| Class (p : ascii -> bool)       (* one character of a class *)
| Cat (r1 r2 : regex)
| Alt (r1 r2 : regex)
| Star (r : regex).

Definition Chr (c : ascii) : regex := Class (Ascii.eqb c).
Definition Plus (r : regex) : regex := Cat r (Star r).      (* r+ *)
Definition Opt (r : regex) : regex := Alt r Eps.            (* r? *)
Fixpoint Times (n : nat) (r : regex) : regex :=             (* r{n} *)
  match n with
  | O => Eps
  | S k => Cat r (Times k r)
  end.

Fixpoint nullable (r : regex) : bool :=
  match r with
  | Void => false
  | Eps => true
  | Class _ => false
  | Cat r1 r2 => nullable r1 && nullable r2
  | Alt r1 r2 => nullable r1 || nullable r2
  | Star _ => true
  end.

(** The derivative of [r] by the character [c]. *)
Fixpoint deriv (c : ascii) (r : regex) : regex :=
  match r with
  | Void => Void
  | Eps => Void
  | Class p => if p c then Eps else Void
  | Cat r1 r2 =>
      if nullable r1 then Alt (Cat (deriv c r1) r2) (deriv c r2)
      else Cat (deriv c r1) r2
  | Alt r1 r2 => Alt (deriv c r1) (deriv c r2)
  | Star r1 => Cat (deriv c r1) (Star r1)
  end.

(** [r] matches the whole of [s]. *)
Fixpoint fullmatch (r : regex) (s : string) : bool :=
  match s with
  | EmptyString => nullable r
  | String c t => fullmatch (deriv c r) t
  end.

(** [s] without its last character when that is a newline. *)
Fixpoint chop_newline (s : string) : option string :=
  match s with
  | EmptyString => None
  | String c EmptyString => if Ascii.eqb c "010" then Some EmptyString else None
  | String c t => option_map (String c) (chop_newline t)
  end.

(** [re.compile("^(?:r)$").match(s)]: [^] is the start of the string, [$]
    is its end or the position of a newline that ends it. *)
Definition re_match (r : regex) (s : string) : bool :=
  fullmatch r s
  || match chop_newline s with
     | Some t => fullmatch r t
     | None => false
     end.

(** What it means for a string to be in the language of a pattern. *)
Inductive lang : regex -> string -> Prop :=
| lang_eps : lang Eps EmptyString
| lang_class p c : p c = true -> lang (Class p) (String c EmptyString)
| lang_cat r1 r2 s1 s2 : lang r1 s1 -> lang r2 s2 -> lang (Cat r1 r2) (s1 ++ s2)
| lang_alt_l r1 r2 s : lang r1 s -> lang (Alt r1 r2) s
| lang_alt_r r1 r2 s : lang r2 s -> lang (Alt r1 r2) s
| lang_star_nil r : lang (Star r) EmptyString
| lang_star_cons r s1 s2 : lang r s1 -> lang (Star r) s2 -> lang (Star r) (s1 ++ s2).

(** Every character class of a pattern is inside the class [q]. *)
Fixpoint classes_within (q : ascii -> bool) (r : regex) : Prop :=
  match r with
  | Void | Eps => True
  | Class p => forall c, p c = true -> q c = true
  | Cat r1 r2 | Alt r1 r2 => classes_within q r1 /\ classes_within q r2
  | Star r1 => classes_within q r1
  end.

End Regex.
Export Regex.

(** [\d], [\s] *)
Definition d : regex := Class Py.isdigit.
Definition s_ : regex := Class Py.isspace.

(** [RESIZE_REGEX = re.compile("^(?:\d+%?x\d+%?|\d+%|\d+x\d+)$")] *)
Definition RESIZE_REGEX : regex :=
  Alt (Cat (Plus d) (Cat (Opt (Chr "%")) (Cat (Chr "x") (Cat (Plus d) (Opt (Chr "%"))))))
      (Alt (Cat (Plus d) (Chr "%"))
           (Cat (Plus d) (Cat (Chr "x") (Plus d)))).

(** [CROP_REGEX = re.compile("^(?:\d+%?)(?:,\s*\d+%?){3}$")] *)
Definition CROP_REGEX : regex :=
  Cat (Cat (Plus d) (Opt (Chr "%")))
      (Times 3 (Cat (Chr ",") (Cat (Star s_) (Cat (Plus d) (Opt (Chr "%")))))).

(* ===================================================================== *)
(** * The world outside the program                                      *)
(* ===================================================================== *)

(** A decoded image ([PIL.Image.Image]) with the attributes the program
    reads. *)
Record Image : Type := mkImage {
  filename : string;
  format : string;
  width : Z;
  height : Z;
  mode : string;
  pixels : list Z
}.

(** [ImageFilter.BLUR] ... [ImageFilter.SMOOTH_MORE] *)
Inductive ImageFilter : Type :=
| BLUR | CONTOUR | DETAIL | EDGE_ENHANCE | EDGE_ENHANCE_MORE
| EMBOSS | FIND_EDGES | SHARPEN | SMOOTH | SMOOTH_MORE.

(** [ImageEnhance.Color] ... [ImageEnhance.Sharpness] *)
Inductive ImageEnhance : Type := Color | Contrast | Brightness | Sharpness.

(** The attributes of [ImageStat.Stat(img)] the statistics block prints. *)
Inductive StatAttr : Type :=
| stat_count | stat_sum | stat_sum2 | stat_mean | stat_median
| stat_rms | stat_var | stat_stddev.

(** A keyword argument of [img.save]. *)
Inductive kwarg : Type :=
| KBool (b : bool)
| KInt (n : Z)
| KStr (v : string).

Record World : Type := mkWorld {
  (* float(): strings that are not integer literals; None is ValueError *)
  float_literal : string -> option Py.float;
  (* PIL *)
  Image_open : string -> outcome Image;
  ImageOps_contain : Image -> Z * Z -> Z -> outcome Image;
  ImageOps_cover : Image -> Z * Z -> Z -> outcome Image;
  ImageOps_fit : Image -> Z * Z -> Z -> outcome Image;
  ImageOps_pad : Image -> Z * Z -> Z -> outcome Image;
  Image_transpose : Image -> Z -> outcome Image;
  Image_crop : Image -> Z * Z * Z * Z -> outcome Image;
  ImageOps_scale : Image -> Py.float -> Z -> outcome Image;
  ImageOps_expand : Image -> Z -> string -> outcome Image;
  ImageOps_flip : Image -> outcome Image;
  ImageOps_mirror : Image -> outcome Image;
  ImageOps_equalize : Image -> outcome Image;
  ImageOps_grayscale : Image -> outcome Image;
  ImageOps_invert : Image -> outcome Image;
  ImageOps_posterize : Image -> Z -> outcome Image;
  ImageOps_solarize : Image -> Z -> outcome Image;
  Image_filter : Image -> ImageFilter -> outcome Image;
  ImageEnhance_enhance : ImageEnhance -> Image -> Py.float -> outcome Image;
  Image_convert : Image -> string -> outcome Image;
  (* str(img.getextrema()), str(ImageStat.Stat(img).<attr>) *)
  Image_getextrema : Image -> outcome string;
  ImageStat_Stat : StatAttr -> Image -> outcome string;
  Image_save : Image -> string -> list (string * kwarg) -> outcome unit;
  (* with open(path, "w") as file: file.write(text) *)
  file_write : string -> string -> outcome unit;
  (* os *)
  os_fsencode : string -> outcome string;
  os_path_exists : string -> bool;
  os_makedirs : string -> outcome unit;
  os_listdir : string -> outcome (list string);
  (* messagebox.askokcancel(title, message): the operator's answer *)
  messagebox_askokcancel : string -> string -> bool
}.

(** What the tkinter variables and entries hold when they are read. *)
Record Options : Type := mkOptions {
  general_input_entry : string;
  general_output_entry : string;
  general_overwrite : bool;
  FILL_COLOR : string;
  (* transform: transform *)
  transform_resize : bool;
  transform_resize_entry : string;
  transform_resize_resample : string;
  transform_resize_type : Z;
  transform_transpose : bool;
  transform_transpose_mode : string;
  transform_crop : bool;
  transform_crop_entry : string;
  transform_scale : bool;
  transform_scale_entry : string;
  transform_scale_resample : string;
  transform_expand : bool;
  transform_expand_entry : string;
  (* transform: operations *)
  transform_flip : bool;
  transform_mirror : bool;
  transform_equalize : bool;
  transform_grayscale : bool;
  transform_invert : bool;
  transform_posterize : bool;
  transform_posterize_entry : string;
  transform_solarize : bool;
  transform_solarize_entry : string;
  (* transform: filters *)
  transform_blur : bool;
  transform_contour : bool;
  transform_detail : bool;
  transform_edge_enhance : bool;
  transform_edge_enhance_more : bool;
  transform_emboss : bool;
  transform_find_edges : bool;
  transform_sharpen : bool;
  transform_smooth : bool;
  transform_smooth_more : bool;
  (* transform: enhancements *)
  transform_color : bool;
  transform_color_entry : string;
  transform_contrast : bool;
  transform_contrast_entry : string;
  transform_brightness : bool;
  transform_brightness_entry : string;
  transform_sharpness : bool;
  transform_sharpness_entry : string;
  (* advanced: conversion *)
  advanced_convert_filetype : bool;
  advanced_convert_filetype_option : string;
  advanced_convert_modes : bool;
  advanced_convert_modes_option : string;
  (* advanced: extension-specific options *)
  advanced_blp1 : bool;
  advanced_all_frames : bool;
  advanced_interlace_gif : bool;
  advanced_optimize : bool;
  advanced_progressive_jpeg : bool;
  advanced_lossless_webp : bool;
  advanced_jpg_quality : Z;
  advanced_webp_quality : Z;
  (* advanced: statistics *)
  advanced_stats : bool;
  advanced_extrema : bool;
  advanced_count : bool;
  advanced_sum : bool;
  advanced_sum2 : bool;
  advanced_mean : bool;
  advanced_median : bool;
  advanced_rms : bool;
  advanced_var : bool;
  advanced_stddev : bool
}.

(** What a batch writes under the destination directory. *)
Inductive content : Type :=
| ImageFile (img : Image) (kwargs : list (string * kwarg))
| TextFile (text : string).

(** The globals of the program and the effects a batch leaves behind:
    the log list box, the three counters, the files written (oldest
    first) and the number of confirmation dialogs shown. *)
Record State : Type := mkState {
  log : list string;
  ERR_COUNT : Z;
  IMG_COUNT : Z;
  THREAD_COUNT : Z;
  files : list (string * content);
  prompts : nat
}.

(* ===================================================================== *)
(** * State and exceptions                                               *)
(* ===================================================================== *)

Definition M (A : Type) : Type := State -> outcome A * State.

Definition ret {A} (a : A) : M A := fun s => (Return a, s).

Definition bind {A B} (m : M A) (f : A -> M B) : M B :=
  fun s =>
    match m s with
    | (Return a, s') => f a s'
    | (Raise e, s') => (Raise e, s')
    end.

(** A call into the world: it returns or raises, the globals stay. *)
Definition call {A} (r : outcome A) : M A := fun s => (r, s).

(** [try: m except Exception as e: h(str(e))] *)
Definition try_except {A} (m : M A) (h : string -> M A) : M A :=
  fun s =>
    match m s with
    | (Return a, s') => (Return a, s')
    | (Raise e, s') => h e s'
    end.

Declare Scope py_scope.
Delimit Scope py_scope with py.
Notation "x <- m ;; k" := (bind m (fun x => k))
  (at level 61, m at next level, right associativity) : py_scope.
Notation "m ;; k" := (bind m (fun _ => k))
  (at level 61, right associativity) : py_scope.
Notation "m >>= f" := (bind m f) (at level 58, left associativity) : py_scope.
Open Scope py_scope.

(** Sequencing of calls that touch no global. *)
Definition obind {A B} (r : outcome A) (f : A -> outcome B) : outcome B :=
  match r with
  | Return a => f a
  | Raise e => Raise e
  end.

Definition set_log (l : list string) (s : State) : State :=
  mkState l (ERR_COUNT s) (IMG_COUNT s) (THREAD_COUNT s) (files s) (prompts s).
Definition set_ERR_COUNT (n : Z) (s : State) : State :=
  mkState (log s) n (IMG_COUNT s) (THREAD_COUNT s) (files s) (prompts s).
Definition set_IMG_COUNT (n : Z) (s : State) : State :=
  mkState (log s) (ERR_COUNT s) n (THREAD_COUNT s) (files s) (prompts s).
Definition set_THREAD_COUNT (n : Z) (s : State) : State :=
  mkState (log s) (ERR_COUNT s) (IMG_COUNT s) n (files s) (prompts s).
Definition set_files (l : list (string * content)) (s : State) : State :=
  mkState (log s) (ERR_COUNT s) (IMG_COUNT s) (THREAD_COUNT s) l (prompts s).
Definition set_prompts (n : nat) (s : State) : State :=
  mkState (log s) (ERR_COUNT s) (IMG_COUNT s) (THREAD_COUNT s) (files s) n.

(** [insert_log(msg)]: one more line at the end of the list box. *)
Definition insert_log (msg : string) : M unit :=
  fun s => (Return tt, set_log (log s ++ [msg]) s).

(** [ERR_COUNT += 1], [IMG_COUNT += 1] *)
Definition incr_ERR_COUNT : M unit :=
  fun s => (Return tt, set_ERR_COUNT (ERR_COUNT s + 1) s).
Definition incr_IMG_COUNT : M unit :=
  fun s => (Return tt, set_IMG_COUNT (IMG_COUNT s + 1) s).

(** [Image.save] and [file.write] that return leave a file behind. *)
Definition put_file (path : string) (c : content) : M unit :=
  fun s => (Return tt, set_files (files s ++ [(path, c)]) s).

(** [RESAMPLING], [TRANSPOSE], [RESIZING] *)
Definition RESAMPLING : list string :=
  ["NEAREST"; "LANCZOS"; "BILINEAR"; "BICUBIC"; "BOX"; "HAMMING"].
Definition TRANSPOSE : list string :=
  ["FLIP_LEFT_RIGHT"; "FLIP_TOP_BOTTOM"; "ROTATE_90"; "ROTATE_180"; "ROTATE_270"].
Definition RESIZING : list string := ["Contain"; "Cover"; "Fit"; "Pad"].

Definition len {A} (l : list A) : Z := Z.of_nat (List.length l).

(** [l[i]] for a list of strings that is long enough by construction. *)
Definition item (l : list string) (i : nat) : string := nth i l EmptyString.

(* ===================================================================== *)
(** * [os.path]                                                          *)
(* ===================================================================== *)

(** [os.path] with the separator [/].  The program replaces [os.sep] by
    [/] in every path it builds, and the entries of a directory listing
    hold no separator, so these are the functions of [posixpath]. *)
Module os_path.

(** [s.rfind(c)]: the last position of [c] in [s], or [-1]; [i] is the
    position of the first character of [s]. *)
Fixpoint rfind_from (c : ascii) (i : Z) (s : string) : Z :=
  match s with
  | EmptyString => -1
  | String d r =>
      let k := rfind_from c (i + 1) r in
      if k >=? 0 then k else if Ascii.eqb d c then i else -1
  end.

Definition rfind (c : ascii) (s : string) : Z := rfind_from c 0 s.

(** [s[i:j]] and [s[i:]] for [0 <= i <= j]. *)
Definition slice (s : string) (i j : Z) : string :=
  String.substring (Z.to_nat i) (Z.to_nat (j - i)) s.
Definition slice_from (s : string) (i : Z) : string :=
  slice s i (Z.of_nat (String.length s)).

(** [os.path.basename(p)], which is also [os.path.split(p)[1]] *)
Definition basename (p : string) : string := slice_from p (rfind "/" p + 1).

(** [os.path.splitext(p)]: the extension starts at the last dot of the
    last component, unless only dots come before it there. *)
Definition splitext (p : string) : string * string :=
  let sepIndex := rfind "/" p in
  let dotIndex := rfind "." p in
  if (dotIndex >? sepIndex)
     && negb (Py.all_chars (Ascii.eqb ".") (slice p (sepIndex + 1) dotIndex))
  then (slice p 0 dotIndex, slice_from p dotIndex)
  else (p, EmptyString).

Definition endswith_sep (a : string) : bool :=
  match String.get (Nat.pred (String.length a)) a with
  | Some c => Ascii.eqb c "/"
  | None => false
  end.

(** [os.path.join(a, b)] *)
Definition join (a b : string) : string :=
  match b with
  | String "/" _ => b
  | _ => if (String.length a =? 0)%nat || endswith_sep a then a ++ b
         else a ++ "/" ++ b
  end.

End os_path.

(* ===================================================================== *)
(** * The program                                                        *)
(* ===================================================================== *)

Section Program.

Variable W : World.
Variable o : Options.

(** ** Helper functions *)

(** [float(string)] *)
Definition float (string : string) : outcome Py.float :=
  match Py.int_literal string with
  | Some (neg, 0) => Return (S754_zero neg)
  | Some (neg, m) => Return (Py.float_of_Z (if neg then - m else m))
  | None =>
      match float_literal W string with
      | Some x => Return x
      | None => Raise ("could not convert string to float: '" ++ string ++ "'")
      end
  end.

(** [format_size_1d(dim, size)]:
    [int(float(dim.split("%")[0]) / 100.0 * size) if '%' in dim else int(dim)] *)
Definition format_size_1d (dim : string) (size : Z) : outcome Z :=
  if Py.contains "%" dim then
    obind (float (item (Py.split "%" dim) 0)) (fun x =>
    obind (Py.fdiv x (Py.float_of_Z 100)) (fun q =>
    obind (Py.float_of_int size) (fun k =>
    Py.int_of_float (Py.fmul q k))))
  else Py.int dim.

(** [is_float(string)] *)
Definition is_float (string : string) : bool :=
  negb (is_raise (float string)).

(** [check(val, func, img)] *)
Definition check {A} (val : bool) (func : A -> M A) (img : A) : M A :=
  if val then
    try_except (func img)
      (fun e => insert_log ("[ERROR] " ++ e) ;; incr_ERR_COUNT ;; ret img)
  else ret img.

(** [check2(val, func, arg1, arg2)] *)
Definition check2 {A B} (val : bool) (func : A -> B -> M B) (arg1 : A) (arg2 : B) : M B :=
  if val then
    try_except (func arg1 arg2)
      (fun e => insert_log ("[ERROR] " ++ e) ;; incr_ERR_COUNT ;; ret arg2)
  else ret arg2.

(** ** Image modification functions *)

Definition WARN_resize_parameters : string :=
  "[WARN] Invalid resize parameter(s). No resizing performed.".

(** The end of [func_transform_resize], from [resize_method = ...] on:
    where the function arrives when no early [return] was taken. *)
Definition resize_apply (img : Image) (new_size : Z * Z) : M Image :=
  resize_method <- call (Py.index (transform_resize_resample o) RESAMPLING) ;;
  img' <- call (match transform_resize_type o with
                | 0 => ImageOps_contain W img new_size resize_method
                | 1 => ImageOps_cover W img new_size resize_method
                | 2 => ImageOps_fit W img new_size resize_method
                | 3 => ImageOps_pad W img new_size resize_method
                | _ => Return img
                end) ;;
  kind <- call (Py.getitem RESIZING (transform_resize_type o)) ;;
  insert_log ("[TRANSFORM] Resized image using " ++ transform_resize_resample o
              ++ " (" ++ kind ++ ", " ++ Py.str (width img') ++ "x"
              ++ Py.str (height img') ++ ").") ;;
  ret img'.

(** The block under [if len(greater_than) == 2:] ([above = true]) and the
    one under [elif len(less_than) == 2:] ([above = false]); [bound] is
    [greater_than[1]], respectively [less_than[1]]. *)
Definition resize_bounded (above : bool) (bound : string)
    (img : Image) (new_size : Z * Z) : M Image :=
  if re_match RESIZE_REGEX bound then
    let resize_input := Py.split "x" bound in
    if negb (len resize_input =? 2) then
      insert_log WARN_resize_parameters ;; ret img
    else if Py.isnumeric (item resize_input 0) && Py.isnumeric (item resize_input 1) then
      new_width <- call (Py.int (item resize_input 0)) ;;
      new_height <- call (Py.int (item resize_input 0)) ;;
      if above then
        if (width img <? new_width) || (height img <? new_height) then
          insert_log ("[INFO] Image dimension(s) less than " ++ Py.str new_width
                      ++ "x" ++ Py.str new_height ++ ". Skipping.") ;;
          ret img
        else resize_apply img new_size
      else
        if (width img >? new_width) || (height img >? new_height) then
          insert_log ("[INFO] Image dimension(s) greater than " ++ Py.str new_width
                      ++ "x" ++ Py.str new_height ++ ". Skipping.") ;;
          ret img
        else resize_apply img new_size
    else
      insert_log WARN_resize_parameters ;; ret img
  else
    insert_log WARN_resize_parameters ;; ret img.

(** [func_transform_resize(img)] *)
Definition func_transform_resize (img : Image) : M Image :=
  let input := transform_resize_entry o in
  let greater_than := Py.split ">" input in
  let less_than := Py.split "<" input in
  let new_size := if len greater_than =? 2 then item greater_than 0
                  else item less_than 0 in
  if re_match RESIZE_REGEX new_size then
    let size_input := Py.split "x" new_size in
    new_size <- call
      (if len size_input =? 2 then
         obind (format_size_1d (item size_input 0) (width img)) (fun a =>
         obind (format_size_1d (item size_input 1) (height img)) (fun b =>
         Return (a, b)))
       else
         obind (format_size_1d (item size_input 0) (width img)) (fun a =>
         obind (format_size_1d (item size_input 0) (height img)) (fun b =>
         Return (a, b)))) ;;
    if (fst new_size =? 0) || (snd new_size =? 0) then
      insert_log WARN_resize_parameters ;; ret img
    else if len greater_than =? 2 then
      resize_bounded true (item greater_than 1) img new_size
    else if len less_than =? 2 then
      resize_bounded false (item less_than 1) img new_size
    else resize_apply img new_size
  else
    insert_log "[WARN] Incorrect resize syntax. No resizing performed." ;;
    ret img.

(** [func_transform_transpose(img)] *)
Definition func_transform_transpose (img : Image) : M Image :=
  method <- call (Py.index (transform_transpose_mode o) TRANSPOSE) ;;
  img <- call (Image_transpose W img method) ;;
  insert_log ("[TRANSFORM] Transposed image using " ++ transform_transpose_mode o ++ ".") ;;
  ret img.

(** The four assignments of [func_transform_crop] that turn the fields
    of the entry into the box [(left, upper, right, lower)]. *)
Definition crop_box (img : Image) (coordinates : string) : outcome (Z * Z * Z * Z) :=
  match map Py.strip (Py.split "," coordinates) with
  | [s_left; s_upper; s_right; s_lower] =>
      obind (if Py.contains "%" s_left then format_size_1d s_left (width img)
             else Py.int s_left) (fun left' =>
      obind (if Py.contains "%" s_upper then format_size_1d s_upper (height img)
             else Py.int s_upper) (fun upper' =>
      obind (if Py.contains "%" s_right
             then obind (format_size_1d s_right (width img))
                        (fun r => Return (width img - r))
             else Py.int s_right) (fun right' =>
      obind (if Py.contains "%" s_lower
             then obind (format_size_1d s_lower (height img))
                        (fun r => Return (height img - r))
             else Py.int s_lower) (fun lower' =>
      Return (left', upper', right', lower')))))
  | l => Raise (if len l <? 4
                then "not enough values to unpack (expected 4, got "
                     ++ Py.str (len l) ++ ")"
                else "too many values to unpack (expected 4)")
  end.

(** The test [left < right and upper < lower and right != 0 and lower != 0]
    of [func_transform_crop]. *)
Definition crop_box_ok (box : Z * Z * Z * Z) : bool :=
  let '(left', upper', right', lower') := box in
  (left' <? right') && (upper' <? lower') && negb (right' =? 0) && negb (lower' =? 0).

Definition crop_box_str (box : Z * Z * Z * Z) : string :=
  let '(left', upper', right', lower') := box in
  "(" ++ Py.str left' ++ ", " ++ Py.str upper' ++ ", " ++ Py.str right' ++ ", "
  ++ Py.str lower' ++ ")".

(** [func_transform_crop(img)] *)
Definition func_transform_crop (img : Image) : M Image :=
  let coordinates := transform_crop_entry o in
  if re_match CROP_REGEX coordinates then
    box <- call (crop_box img coordinates) ;;
    if crop_box_ok box then
      img <- call (Image_crop W img box) ;;
      insert_log ("[TRANSFORM] Cropped image region " ++ crop_box_str box ++ ".") ;;
      ret img
    else
      insert_log "[WARN] Invalid cropping dimensions. No cropping performed." ;;
      ret img
  else
    insert_log "[WARN] Incorrect cropping syntax. No cropping performed." ;;
    ret img.

(** [is_float(factor) and float(factor) > 0] and its [>=] variant: the
    float when the test holds. *)
Definition float_above (strict : bool) (factor : string) : option Py.float :=
  match float factor with
  | Return x => if (if strict then Py.fgt x Py.float_zero else Py.fge x Py.float_zero)
                then Some x else None
  | Raise _ => None
  end.

(** [func_transform_scale(img)] *)
Definition func_transform_scale (img : Image) : M Image :=
  let factor := transform_scale_entry o in
  match float_above true factor with
  | Some x =>
      scale_method <- call (Py.index (transform_scale_resample o) RESAMPLING) ;;
      img <- call (ImageOps_scale W img x scale_method) ;;
      name <- call (Py.getitem RESAMPLING scale_method) ;;
      insert_log ("[TRANSFORM] Scaled image with factor " ++ factor
                  ++ " using " ++ name ++ ".") ;;
      ret img
  | None =>
      insert_log "[WARN] Invalid scaling factor. No scaling performed." ;;
      ret img
  end.

(** [func_transform_expand(img)] *)
Definition func_transform_expand (img : Image) : M Image :=
  let border := transform_expand_entry o in
  if Py.isnumeric border then
    n <- call (Py.int border) ;;
    img <- call (ImageOps_expand W img n (FILL_COLOR o)) ;;
    insert_log ("[TRANSFORM] Expanded image by " ++ border
                ++ " pixels with color " ++ FILL_COLOR o ++ ".") ;;
    ret img
  else
    insert_log "[WARN] Invalid border width. No expanding performed." ;;
    ret img.

(** The shape of the parameterless transforms: one library call, then
    one log line. *)
Definition apply_and_log (r : outcome Image) (msg : string) : M Image :=
  img <- call r ;;
  insert_log msg ;;
  ret img.

Definition func_transform_flip (img : Image) : M Image :=
  apply_and_log (ImageOps_flip W img) "[TRANSFORM] Flipped image.".

Definition func_transform_mirror (img : Image) : M Image :=
  apply_and_log (ImageOps_mirror W img) "[TRANSFORM] Mirrored image.".

Definition func_transform_equalize (img : Image) : M Image :=
  apply_and_log (ImageOps_equalize W img) "[TRANSFORM] Equalized image histogram.".

Definition func_transform_grayscale (img : Image) : M Image :=
  apply_and_log (ImageOps_grayscale W img) "[TRANSFORM] Grayscaled image.".

Definition func_transform_invert (img : Image) : M Image :=
  apply_and_log (ImageOps_invert W img) "[TRANSFORM] Inverted image.".

(** [func_transform_posterize(img)] *)
Definition func_transform_posterize (img : Image) : M Image :=
  let bits := transform_posterize_entry o in
  if Py.isnumeric bits then
    n <- call (Py.int bits) ;;
    if (n >? 0) && (n <? 9) then
      img <- call (ImageOps_posterize W img n) ;;
      insert_log ("[TRANSFORM] Posterized image, kept " ++ bits ++ " bit(s).") ;;
      ret img
    else
      insert_log "[WARN] Invalid posterize argument. Did not posterize image." ;;
      ret img
  else
    insert_log "[WARN] Invalid posterize argument. Did not posterize image." ;;
    ret img.

(** [func_transform_solarize(img)] *)
Definition func_transform_solarize (img : Image) : M Image :=
  let threshold := transform_solarize_entry o in
  if Py.isnumeric threshold then
    n <- call (Py.int threshold) ;;
    if n >=? 0 then
      img <- call (ImageOps_solarize W img n) ;;
      insert_log ("[TRANSFORM] Solarized image with threshold " ++ threshold ++ ".") ;;
      ret img
    else
      insert_log "[WARN] Invalid solarize argument. Did not solarize image." ;;
      ret img
  else
    insert_log "[WARN] Invalid solarize argument. Did not solarize image." ;;
    ret img.

Definition func_transform_blur (img : Image) : M Image :=
  apply_and_log (Image_filter W img BLUR) "[TRANSFORM] Applied blur to image.".

Definition func_transform_contour (img : Image) : M Image :=
  apply_and_log (Image_filter W img CONTOUR) "[TRANSFORM] Applied contour to image.".

Definition func_transform_detail (img : Image) : M Image :=
  apply_and_log (Image_filter W img DETAIL) "[TRANSFORM] Applied detail to image.".

Definition func_transform_edge_enhance (img : Image) : M Image :=
  apply_and_log (Image_filter W img EDGE_ENHANCE)
    "[TRANSFORM] Applied edge enhance to image.".

Definition func_transform_edge_enhance_more (img : Image) : M Image :=
  apply_and_log (Image_filter W img EDGE_ENHANCE_MORE)
    "[TRANSFORM] Applied more edge enhance to image.".

Definition func_transform_emboss (img : Image) : M Image :=
  apply_and_log (Image_filter W img EMBOSS) "[TRANSFORM] Applied emboss to image.".

Definition func_transform_find_edges (img : Image) : M Image :=
  apply_and_log (Image_filter W img FIND_EDGES) "[TRANSFORM] Applied edgefind to image.".

Definition func_transform_sharpen (img : Image) : M Image :=
  apply_and_log (Image_filter W img SHARPEN) "[TRANSFORM] Applied sharpen to image.".

Definition func_transform_smooth (img : Image) : M Image :=
  apply_and_log (Image_filter W img SMOOTH) "[TRANSFORM] Applied smoothing to image.".

Definition func_transform_smooth_more (img : Image) : M Image :=
  apply_and_log (Image_filter W img SMOOTH_MORE)
    "[TRANSFORM] Applied more smoothing to image.".

(** The shape of the four enhancement functions; [what] is the word of
    the log lines. *)
Definition enhance (which : ImageEnhance) (what factor : string) (img : Image) : M Image :=
  match float_above false factor with
  | Some x =>
      img <- call (ImageEnhance_enhance W which img x) ;;
      insert_log ("[TRANSFORM] Enhanced " ++ what ++ " of image with factor "
                  ++ factor ++ ".") ;;
      ret img
  | None =>
      insert_log ("[WARN] Invalid " ++ what ++ " factor. No enhancing performed.") ;;
      ret img
  end.

Definition func_transform_color (img : Image) : M Image :=
  enhance Color "color" (transform_color_entry o) img.

Definition func_transform_contrast (img : Image) : M Image :=
  enhance Contrast "contrast" (transform_contrast_entry o) img.

Definition func_transform_brightness (img : Image) : M Image :=
  enhance Brightness "brightness" (transform_brightness_entry o) img.

Definition func_transform_sharpness (img : Image) : M Image :=
  enhance Sharpness "sharpness" (transform_sharpness_entry o) img.

(** [func_advanced_convert_filetype(img_extension)] *)
Definition func_advanced_convert_filetype (img_extension : string) : M string :=
  let new_type := advanced_convert_filetype_option o in
  let img_extension := "." ++ Py.lower new_type in
  insert_log ("[ADVANCED] Converted image to filetype " ++ new_type ++ ".") ;;
  ret img_extension.

(** [func_advanced_convert_mode(img)] *)
Definition func_advanced_convert_mode (img : Image) : M Image :=
  let new_mode := advanced_convert_modes_option o in
  img <- call (Image_convert W img new_mode) ;;
  insert_log ("[ADVANCED] Converted image to mode " ++ new_mode ++ ".") ;;
  ret img.

(** ** The pipeline executor *)

Definition newline : string := String "010" EmptyString.

(** One line of the statistics block: when the box is ticked, the
    label, a colon, the value and a newline are added to [img_stats];
    otherwise the empty string is. *)
Definition stat_line (flag : bool) (label : string) (value : outcome string)
    (img_stats : string) : outcome string :=
  if flag then obind value (fun v => Return (img_stats ++ label ++ ":" ++ v ++ newline))
  else Return img_stats.

(** The block under [if advanced_stats.get():] in [process]. *)
Definition statistics (img : Image) (img_stats : string) : outcome string :=
  if advanced_stats o then
    obind (stat_line (advanced_extrema o) "extrema" (Image_getextrema W img) img_stats) (fun img_stats =>
    obind (stat_line (advanced_count o) "count" (ImageStat_Stat W stat_count img) img_stats) (fun img_stats =>
    obind (stat_line (advanced_sum o) "sum" (ImageStat_Stat W stat_sum img) img_stats) (fun img_stats =>
    obind (stat_line (advanced_sum2 o) "sum2" (ImageStat_Stat W stat_sum2 img) img_stats) (fun img_stats =>
    obind (stat_line (advanced_mean o) "mean" (ImageStat_Stat W stat_mean img) img_stats) (fun img_stats =>
    obind (stat_line (advanced_median o) "median" (ImageStat_Stat W stat_median img) img_stats) (fun img_stats =>
    obind (stat_line (advanced_rms o) "rms" (ImageStat_Stat W stat_rms img) img_stats) (fun img_stats =>
    obind (stat_line (advanced_var o) "var" (ImageStat_Stat W stat_var img) img_stats) (fun img_stats =>
    stat_line (advanced_stddev o) "stddev" (ImageStat_Stat W stat_stddev img) img_stats))))))))
  else Return img_stats.

(** [process(img)] *)
Definition process (img : Image) : M (Image * string * string * string) :=
  let img_name := fst (os_path.splitext (os_path.basename (filename img))) in
  let img_extension := snd (os_path.splitext (filename img)) in
  let img_name_full := os_path.basename (filename img) in
  let img_stats := EmptyString in
  insert_log ("[FILE] Processing " ++ img_name_full ++ " (" ++ format img ++ ", "
              ++ Py.str (width img) ++ "x" ++ Py.str (height img) ++ ", "
              ++ mode img ++ ")...") ;;
  (* transform: transform *)
  img <- check (transform_resize o) func_transform_resize img ;;
  img <- check (transform_transpose o) func_transform_transpose img ;;
  img <- check (transform_crop o) func_transform_crop img ;;
  img <- check (transform_scale o) func_transform_scale img ;;
  img <- check (transform_expand o) func_transform_expand img ;;
  (* transform: operations *)
  img <- check (transform_flip o) func_transform_flip img ;;
  img <- check (transform_mirror o) func_transform_mirror img ;;
  img <- check (transform_equalize o) func_transform_equalize img ;;
  img <- check (transform_grayscale o) func_transform_grayscale img ;;
  img <- check (transform_invert o) func_transform_invert img ;;
  img <- check (transform_posterize o) func_transform_posterize img ;;
  img <- check (transform_solarize o) func_transform_solarize img ;;
  (* transform: filters *)
  img <- check (transform_blur o) func_transform_blur img ;;
  img <- check (transform_contour o) func_transform_contour img ;;
  img <- check (transform_detail o) func_transform_detail img ;;
  img <- check (transform_edge_enhance o) func_transform_edge_enhance img ;;
  img <- check (transform_edge_enhance_more o) func_transform_edge_enhance_more img ;;
  img <- check (transform_emboss o) func_transform_emboss img ;;
  img <- check (transform_find_edges o) func_transform_find_edges img ;;
  img <- check (transform_sharpen o) func_transform_sharpen img ;;
  img <- check (transform_smooth o) func_transform_smooth img ;;
  img <- check (transform_smooth_more o) func_transform_smooth_more img ;;
  (* transform: enhancements *)
  img <- check (transform_color o) func_transform_color img ;;
  img <- check (transform_contrast o) func_transform_contrast img ;;
  img <- check (transform_brightness o) func_transform_brightness img ;;
  img <- check (transform_sharpness o) func_transform_sharpness img ;;
  (* advanced: conversion *)
  img_extension <- check (advanced_convert_filetype o)
                         func_advanced_convert_filetype img_extension ;;
  img <- check (advanced_convert_modes o) func_advanced_convert_mode img ;;
  (* advanced: statistics *)
  img_stats <- call (statistics img img_stats) ;;
  (* finished image processing *)
  insert_log ("[FILE] Successfully processed " ++ img_name_full ++ ".") ;;
  ret (img, img_name, img_extension, img_stats).

(** ** The batch runner *)

(** [THREAD_COUNT = 0 if THREAD_COUNT < 0 else (THREAD_COUNT - 1)] *)
Definition decrement (THREAD_COUNT : Z) : Z :=
  if THREAD_COUNT <? 0 then 0 else THREAD_COUNT - 1.

Definition decrement_THREAD_COUNT : M unit :=
  fun s => (Return tt, set_THREAD_COUNT (decrement (THREAD_COUNT s)) s).

(** The name a directory entry is compared under:
    [os.fsdecode(os.path.splitext(os.path.basename(file))[0]).lower().strip()] *)
Definition collision_name (file : string) : string :=
  Py.strip (Py.lower (fst (os_path.splitext (os_path.basename file)))).

(** [set(in_files).isdisjoint(out_files)] *)
Definition isdisjoint (in_files out_files : list string) : bool :=
  forallb (fun f => negb (existsb (String.eqb f) in_files)) out_files.

(** The [match img_extension:] of the loop: the keyword arguments of
    [img.save] (and the extra log line of the first case). *)
Definition save_image (img : Image) (img_output_path img_extension : string) : M unit :=
  if String.eqb img_extension ".spi" then
    insert_log "[FILE] Spider!" ;;
    let kwargs := [("format", KStr "SPIDER")] in
    call (Image_save W img img_output_path kwargs) ;;
    put_file img_output_path (ImageFile img kwargs)
  else if existsb (String.eqb img_extension)
                  [".png"; ".gif"; ".mpo"; ".pdf"; ".tiff"; ".webp"] then
    let kwargs := [("save_all", KBool (advanced_all_frames o));
                   ("interlace", KBool (advanced_interlace_gif o));
                   ("optimize", KBool (advanced_optimize o));
                   ("lossless", KBool (advanced_lossless_webp o));
                   ("quality", KInt (advanced_webp_quality o))] in
    call (Image_save W img img_output_path kwargs) ;;
    put_file img_output_path (ImageFile img kwargs)
  else
    let kwargs := [("blp_version", KStr (if advanced_blp1 o then "BLP1" else "BLP2"));
                   ("optimize", KBool (advanced_optimize o));
                   ("progressive", KBool (advanced_progressive_jpeg o));
                   ("quality", KInt (advanced_jpg_quality o))] in
    call (Image_save W img img_output_path kwargs) ;;
    put_file img_output_path (ImageFile img kwargs).

(** The [try] block of the loop over the source directory. *)
Definition process_file (in_directory OUTPUT_PATH file : string) : M unit :=
  let img_path := os_path.join in_directory file in
  opened <- call (Image_open W img_path) ;;
  result <- process opened ;;
  let '(img, img_name, img_extension, img_stats) := result in
  let img_output_path := os_path.join OUTPUT_PATH (img_name ++ img_extension) in
  (* extension-specific options *)
  save_image img img_output_path img_extension ;;
  insert_log "[FILE] Applied extension-specific options." ;;
  insert_log ("[FILE] Saved image: " ++ img_output_path) ;;
  (* store statistics in text file *)
  (if negb (String.eqb img_stats EmptyString) then
     let img_stats_output_path := os_path.join OUTPUT_PATH (img_name ++ ".txt") in
     call (file_write W img_stats_output_path img_stats) ;;
     put_file img_stats_output_path (TextFile img_stats) ;;
     insert_log ("[FILE] Saved statistics: " ++ img_stats_output_path ++ ".")
   else ret tt) ;;
  incr_IMG_COUNT.

(** One turn of the loop: the [try] block and its [except]. *)
Definition loop_body (in_directory OUTPUT_PATH file : string) : M unit :=
  try_except (process_file in_directory OUTPUT_PATH file)
    (fun e => insert_log ("[ERROR] " ++ e) ;; incr_ERR_COUNT).

(** [for file in listing: body(file)] *)
Fixpoint for_each (listing : list string) (body : string -> M unit) : M unit :=
  match listing with
  | [] => ret tt
  | file :: rest => body file ;; for_each rest body
  end.

(** The [except] branches and the declined confirmation: one log line,
    the counter of running jobs goes down, [return]. *)
Definition abort (msg : string) : M unit :=
  insert_log msg ;; decrement_THREAD_COUNT.

(** [messagebox.askokcancel(title, message)]: one more dialog shown. *)
Definition askokcancel (title message : string) : M bool :=
  fun s => (Return (messagebox_askokcancel W title message),
            set_prompts (S (prompts s)) s).

(** [start_processing()] *)
Definition start_processing : M unit :=
  let INPUT_PATH := general_input_entry o in
  let OUTPUT_PATH := general_output_entry o in
  (fun s => (Return tt, set_ERR_COUNT 0 (set_IMG_COUNT 0 s))) ;;
  try_except
    (in_directory <- call (os_fsencode W INPUT_PATH) ;;
     out_directory <- call (os_fsencode W OUTPUT_PATH) ;;
     ret (Some (in_directory, out_directory)))
    (fun e => abort ("[ERROR] " ++ e) ;; ret None) >>= fun directories =>
  match directories with
  | None => ret tt
  | Some (in_directory, out_directory) =>
      insert_log "[INFO] Started processing job." ;;
      (* create directories if they do not exist *)
      try_except
        ((if negb (os_path_exists W in_directory)
          then call (os_makedirs W in_directory) else ret tt) ;;
         (if negb (os_path_exists W out_directory)
          then call (os_makedirs W out_directory) else ret tt) ;;
         ret true)
        (fun e => abort ("[ERROR] " ++ e) ;; ret false) >>= fun created =>
      if negb created then ret tt
      else
        (* check if any file has the same name *)
        in_listing <- call (os_listdir W in_directory) ;;
        let in_files := map collision_name in_listing in
        out_listing <- call (os_listdir W out_directory) ;;
        let out_files := map collision_name out_listing in
        (if negb (isdisjoint in_files out_files) && negb (general_overwrite o)
         then askokcancel "Overwrite Images?"
                ("At least one image has the same name in the output directory."
                 ++ newline ++ "Are you sure you want to overwrite these files?")
         else ret true) >>= fun proceed =>
        if negb proceed then abort "[INFO] Aborted processing job."
        else
          (* try opening each file in directory as image *)
          listing <- call (os_listdir W in_directory) ;;
          for_each listing (loop_body in_directory OUTPUT_PATH) ;;
          (fun s => insert_log ("[INFO] Finished processing " ++ Py.str (IMG_COUNT s)
                                ++ " images with " ++ Py.str (ERR_COUNT s)
                                ++ " error(s).") s) ;;
          decrement_THREAD_COUNT
  end.

End Program.

(* ===================================================================== *)
(** * The order of the pipeline                                          *)
(* ===================================================================== *)

(** The operations of the two tabs, one per check box. *)
Inductive operation : Type :=
| op_resize | op_transpose | op_crop | op_scale | op_expand
| op_flip | op_mirror | op_equalize | op_grayscale | op_invert
| op_posterize | op_solarize
| op_blur | op_contour | op_detail | op_edge_enhance | op_edge_enhance_more
| op_emboss | op_find_edges | op_sharpen | op_smooth | op_smooth_more
| op_color | op_contrast | op_brightness | op_sharpness
| op_convert_filetype | op_convert_mode.

(** The operations of the "Transform" tab, top to bottom and left to
    right, and those of the "Advanced" tab. *)
Definition TRANSFORM_TAB : list operation :=
  [op_resize; op_transpose; op_crop; op_scale; op_expand;
   op_flip; op_mirror; op_equalize; op_grayscale; op_invert;
   op_posterize; op_solarize;
   op_blur; op_contour; op_detail; op_edge_enhance; op_edge_enhance_more;
   op_emboss; op_find_edges; op_sharpen; op_smooth; op_smooth_more;
   op_color; op_contrast; op_brightness; op_sharpness].

Definition ADVANCED_TAB : list operation := [op_convert_filetype; op_convert_mode].

(** The one order in which the operations are consulted. *)
Definition ORDER : list operation := TRANSFORM_TAB ++ ADVANCED_TAB.

Section Pipeline.

Variable W : World.
Variable o : Options.

(** The check box of an operation. *)
Definition enabled (op : operation) : bool :=
  match op with
  | op_resize => transform_resize o
  | op_transpose => transform_transpose o
  | op_crop => transform_crop o
  | op_scale => transform_scale o
  | op_expand => transform_expand o
  | op_flip => transform_flip o
  | op_mirror => transform_mirror o
  | op_equalize => transform_equalize o
  | op_grayscale => transform_grayscale o
  | op_invert => transform_invert o
  | op_posterize => transform_posterize o
  | op_solarize => transform_solarize o
  | op_blur => transform_blur o
  | op_contour => transform_contour o
  | op_detail => transform_detail o
  | op_edge_enhance => transform_edge_enhance o
  | op_edge_enhance_more => transform_edge_enhance_more o
  | op_emboss => transform_emboss o
  | op_find_edges => transform_find_edges o
  | op_sharpen => transform_sharpen o
  | op_smooth => transform_smooth o
  | op_smooth_more => transform_smooth_more o
  | op_color => transform_color o
  | op_contrast => transform_contrast o
  | op_brightness => transform_brightness o
  | op_sharpness => transform_sharpness o
  | op_convert_filetype => advanced_convert_filetype o
  | op_convert_mode => advanced_convert_modes o
  end.

(** What [process] carries from one operation to the next: the image and
    the extension of the file to write. *)
Definition carried : Type := (Image * string)%type.

Definition on_image (func : Image -> M Image) (v : carried) : M carried :=
  img <- func (fst v) ;; ret (img, snd v).

Definition on_extension (func : string -> M string) (v : carried) : M carried :=
  img_extension <- func (snd v) ;; ret (fst v, img_extension).

(** The function [process] hands to [check] for an operation. *)
Definition transform_of (op : operation) : carried -> M carried :=
  match op with
  | op_resize => on_image (func_transform_resize W o)
  | op_transpose => on_image (func_transform_transpose W o)
  | op_crop => on_image (func_transform_crop W o)
  | op_scale => on_image (func_transform_scale W o)
  | op_expand => on_image (func_transform_expand W o)
  | op_flip => on_image (func_transform_flip W)
  | op_mirror => on_image (func_transform_mirror W)
  | op_equalize => on_image (func_transform_equalize W)
  | op_grayscale => on_image (func_transform_grayscale W)
  | op_invert => on_image (func_transform_invert W)
  | op_posterize => on_image (func_transform_posterize W o)
  | op_solarize => on_image (func_transform_solarize W o)
  | op_blur => on_image (func_transform_blur W)
  | op_contour => on_image (func_transform_contour W)
  | op_detail => on_image (func_transform_detail W)
  | op_edge_enhance => on_image (func_transform_edge_enhance W)
  | op_edge_enhance_more => on_image (func_transform_edge_enhance_more W)
  | op_emboss => on_image (func_transform_emboss W)
  | op_find_edges => on_image (func_transform_find_edges W)
  | op_sharpen => on_image (func_transform_sharpen W)
  | op_smooth => on_image (func_transform_smooth W)
  | op_smooth_more => on_image (func_transform_smooth_more W)
  | op_color => on_image (func_transform_color W o)
  | op_contrast => on_image (func_transform_contrast W o)
  | op_brightness => on_image (func_transform_brightness W o)
  | op_sharpness => on_image (func_transform_sharpness W o)
  | op_convert_filetype => on_extension (func_advanced_convert_filetype o)
  | op_convert_mode => on_image (func_advanced_convert_mode W o)
  end.

(** One operation under the isolation wrapper. *)
Definition consult (op : operation) (v : carried) : M carried :=
  check (enabled op) (transform_of op) v.

(** The operations of a list, one after the other. *)
Fixpoint run_ops (ops : list operation) (v : carried) : M carried :=
  match ops with
  | [] => ret v
  | op :: rest => v' <- consult op v ;; run_ops rest v'
  end.

(** [process] written over the list [ORDER]. *)
Definition process_in_order (img : Image) : M (Image * string * string * string) :=
  let img_name := fst (os_path.splitext (os_path.basename (filename img))) in
  let img_extension := snd (os_path.splitext (filename img)) in
  let img_name_full := os_path.basename (filename img) in
  insert_log ("[FILE] Processing " ++ img_name_full ++ " (" ++ format img ++ ", "
              ++ Py.str (width img) ++ "x" ++ Py.str (height img) ++ ", "
              ++ mode img ++ ")...") ;;
  v <- run_ops ORDER (img, img_extension) ;;
  img_stats <- call (statistics W o (fst v) EmptyString) ;;
  insert_log ("[FILE] Successfully processed " ++ img_name_full ++ ".") ;;
  ret (fst v, img_name, snd v, img_stats).

End Pipeline.

(* ===================================================================== *)
(** * The job dispatcher                                                 *)
(* ===================================================================== *)

(** [start_processing_threads()] starts the worker thread and then adds
    one to [THREAD_COUNT]; the worker subtracts at the end of
    [start_processing].  The dispatcher is the counter, the number of
    workers that were started and have not finished, and whether the
    launcher stands between [worker_thread.start()] and
    [THREAD_COUNT += 1]. *)
Module Dispatcher.

Record t : Type := mk {
  count : Z;
  running : nat;
  launching : bool
}.

Inductive event : Type :=
| Start     (* worker_thread.start() *)
| Count     (* THREAD_COUNT += 1 *)
| Finish.   (* a worker reaches the decrement of start_processing *)

Definition initial : t := mk 0 0 false.

Definition step (e : event) (st : t) : option t :=
  match e with
  | Start => if launching st then None
             else Some (mk (count st) (S (running st)) true)
  | Count => if launching st then Some (mk (count st + 1) (running st) false)
             else None
  | Finish => match running st with
              | O => None
              | S n => Some (mk (decrement (count st)) n (launching st))
              end
  end.

Fixpoint run (trace : list event) (st : t) : option t :=
  match trace with
  | [] => Some st
  | e :: rest => match step e st with
                 | Some st' => run rest st'
                 | None => None
                 end
  end.

End Dispatcher.

(* ===================================================================== *)
(** * A small world for examples                                         *)
(* ===================================================================== *)

Module Sample.

(** The values the widgets hold at start-up, with the few the examples
    vary as arguments: an entry that is [Some] text is ticked. *)
Definition options (resize crop filetype modes : option string)
    (invert stats count mean overwrite : bool) : Options :=
  let ticked (x : option string) := match x with Some _ => true | None => false end in
  let text (default : string) (x : option string) :=
    match x with Some v => v | None => default end in
  {| general_input_entry := "input";
     general_output_entry := "output";
     general_overwrite := overwrite;
     FILL_COLOR := "#000000";
     transform_resize := ticked resize;
     transform_resize_entry := text "100%" resize;
     transform_resize_resample := "BICUBIC";
     transform_resize_type := 0;
     transform_transpose := false;
     transform_transpose_mode := "FLIP_LEFT_RIGHT";
     transform_crop := ticked crop;
     transform_crop_entry := text "0%,0%,0%,0%" crop;
     transform_scale := false;
     transform_scale_entry := "1.0";
     transform_scale_resample := "BICUBIC";
     transform_expand := false;
     transform_expand_entry := "0";
     transform_flip := false;
     transform_mirror := false;
     transform_equalize := false;
     transform_grayscale := false;
     transform_invert := invert;
     transform_posterize := false;
     transform_posterize_entry := "8";
     transform_solarize := false;
     transform_solarize_entry := "256";
     transform_blur := false;
     transform_contour := false;
     transform_detail := false;
     transform_edge_enhance := false;
     transform_edge_enhance_more := false;
     transform_emboss := false;
     transform_find_edges := false;
     transform_sharpen := false;
     transform_smooth := false;
     transform_smooth_more := false;
     transform_color := false;
     transform_color_entry := "1.0";
     transform_contrast := false;
     transform_contrast_entry := "1.0";
     transform_brightness := false;
     transform_brightness_entry := "1.0";
     transform_sharpness := false;
     transform_sharpness_entry := "1.0";
     advanced_convert_filetype := ticked filetype;
     advanced_convert_filetype_option := text "BLP" filetype;
     advanced_convert_modes := ticked modes;
     advanced_convert_modes_option := text "1" modes;
     advanced_blp1 := false;
     advanced_all_frames := false;
     advanced_interlace_gif := false;
     advanced_optimize := false;
     advanced_progressive_jpeg := false;
     advanced_lossless_webp := false;
     advanced_jpg_quality := 75;
     advanced_webp_quality := 80;
     advanced_stats := stats;
     advanced_extrema := false;
     advanced_count := count;
     advanced_sum := false;
     advanced_sum2 := false;
     advanced_mean := mean;
     advanced_median := false;
     advanced_rms := false;
     advanced_var := false;
     advanced_stddev := false |}.

Definition startup : Options :=
  options None None None None false false false false false.

Definition resized (img : Image) (size : Z * Z) : Image :=
  mkImage (filename img) (format img) (fst size) (snd size) (mode img) (pixels img).

Definition converted (img : Image) (new_mode : string) : Image :=
  mkImage (filename img) (format img) (width img) (height img) new_mode (pixels img).

(** A world with two directories, [input] and [output], whose listings
    are given, and an operator who answers [answer].  A [.png] file is a
    300x100 RGB image, a [.gif] file a 150x150 palette image, a [.tga]
    file a 100x100 RGBA image; nothing else decodes.  Resizing gives the
    requested size, cropping the size of the box; inverting works on RGB
    and L only; of the statistics of a palette image only the pixel count
    can be computed. *)
Definition world (in_listing out_listing : list string) (answer : bool) : World :=
  {| float_literal := fun s => if String.eqb s "1.0"
                               then Some (Py.float_of_Z 1) else None;
     Image_open := fun path =>
       let ext := snd (os_path.splitext path) in
       if String.eqb ext ".png" then Return (mkImage path "PNG" 300 100 "RGB" [])
       else if String.eqb ext ".gif" then Return (mkImage path "GIF" 150 150 "P" [])
       else if String.eqb ext ".tga" then Return (mkImage path "TGA" 100 100 "RGBA" [])
       else Raise ("cannot identify image file '" ++ path ++ "'");
     ImageOps_contain := fun img size _ => Return (resized img size);
     ImageOps_cover := fun img size _ => Return (resized img size);
     ImageOps_fit := fun img size _ => Return (resized img size);
     ImageOps_pad := fun img size _ => Return (resized img size);
     Image_transpose := fun img method =>
       if (method =? 2) || (method =? 4)
       then Return (resized img (height img, width img)) else Return img;
     Image_crop := fun img box =>
       let '(x0, y0, x1, y1) := box in
       if x1 <? x0 then Raise "Coordinate 'right' is less than 'left'"
       else if y1 <? y0 then Raise "Coordinate 'lower' is less than 'upper'"
       else Return (resized img (x1 - x0, y1 - y0));
     ImageOps_scale := fun img _ _ => Return img;
     ImageOps_expand := fun img border _ =>
       Return (resized img (width img + 2 * border, height img + 2 * border));
     ImageOps_flip := fun img => Return img;
     ImageOps_mirror := fun img => Return img;
     ImageOps_equalize := fun img => Return img;
     ImageOps_grayscale := fun img => Return (converted img "L");
     ImageOps_invert := fun img =>
       if String.eqb (mode img) "RGB" || String.eqb (mode img) "L" then Return img
       else if String.eqb (mode img) "P" then Raise "mode P support coming soon"
       else Raise ("not supported for mode " ++ mode img);
     ImageOps_posterize := fun img _ => Return img;
     ImageOps_solarize := fun img _ => Return img;
     Image_filter := fun img _ => Return img;
     ImageEnhance_enhance := fun _ img _ => Return img;
     Image_convert := fun img new_mode => Return (converted img new_mode);
     Image_getextrema := fun img => Return "(0, 255)";
     ImageStat_Stat := fun attr img =>
       match attr with
       | stat_count => Return ("[" ++ Py.str (width img * height img) ++ "]")
       | _ => if String.eqb (mode img) "P" then Raise "unsupported image mode"
              else Return "[0.0]"
       end;
     Image_save := fun _ _ _ => Return tt;
     file_write := fun _ _ => Return tt;
     os_fsencode := fun path => Return path;
     os_path_exists := fun _ => true;
     os_makedirs := fun _ => Return tt;
     os_listdir := fun path =>
       if String.eqb path "input" then Return in_listing
       else if String.eqb path "output" then Return out_listing
       else Raise ("No such file or directory: '" ++ path ++ "'");
     messagebox_askokcancel := fun _ _ => answer |}.

(** [n] times the character [c]. *)
Fixpoint replicate (n : nat) (c : ascii) : string :=
  match n with
  | O => EmptyString
  | S k => String c (replicate k c)
  end.

(** A number of 310 digits: beyond the largest double. *)
Definition nines : string := replicate 310 "9".

Definition fresh : State := mkState [] 0 0 0 [] 0.

(** The state in which a worker finds the globals when it was launched
    from the fresh state. *)
Definition launched : State := mkState [] 0 0 1 [] 0.

Definition png : Image := mkImage "input/a.png" "PNG" 300 100 "RGB" [].
Definition gif : Image := mkImage "input/b.gif" "GIF" 150 150 "P" [].
Definition tga : Image := mkImage "input/c.tga" "TGA" 100 100 "RGBA" [].

End Sample.

(* ===================================================================== *)
(** * The vocabulary of the statements                                   *)
(* ===================================================================== *)

(** The log line of a caught exception. *)
Definition error_line (e : string) : string := "[ERROR] " ++ e.

(** The state [check] leaves when the wrapped function raised [e] and
    left the globals as [s]: one more [ERROR] line, one more error. *)
Definition caught (e : string) (s : State) : State :=
  mkState (log s ++ [error_line e]) (ERR_COUNT s + 1) (IMG_COUNT s)
          (THREAD_COUNT s) (files s) (prompts s).

(** [m] leaves the globals alone when it raises. *)
Definition raises_clean {A} (m : M A) : Prop :=
  forall s e s', m s = (Raise e, s') -> s' = s.

(** [m] does not change the part [proj] of the globals. *)
Definition preserves {A X} (proj : State -> X) (m : M A) : Prop :=
  forall s, proj (snd (m s)) = proj s.

(** [m] never lowers the error counter. *)
Definition counts_up {A} (m : M A) : Prop :=
  forall s, ERR_COUNT s <= ERR_COUNT (snd (m s)).

Definition is_image_file (f : string * content) : bool :=
  match snd f with ImageFile _ _ => true | TextFile _ => false end.

(** The number of images among the files written. *)
Definition images_written (s : State) : Z := len (filter is_image_file (files s)).

(** The globals after the first log line of [process]. *)
Definition announced (img : Image) (s : State) : State :=
  set_log (log s ++ ["[FILE] Processing " ++ os_path.basename (filename img)
                     ++ " (" ++ format img ++ ", " ++ Py.str (width img) ++ "x"
                     ++ Py.str (height img) ++ ", " ++ mode img ++ ")..."]) s.

(** The directories of a batch resolve, exist or can be made, and list
    [in_listing] and [out_listing]. *)
Record directories_ready (W : World) (o : Options) (in_directory out_directory : string)
    (in_listing out_listing : list string) : Prop := {
  ready_in : os_fsencode W (general_input_entry o) = Return in_directory;
  ready_out : os_fsencode W (general_output_entry o) = Return out_directory;
  ready_in_exists :
    os_path_exists W in_directory = true \/ os_makedirs W in_directory = Return tt;
  ready_out_exists :
    os_path_exists W out_directory = true \/ os_makedirs W out_directory = Return tt;
  ready_in_listing : os_listdir W in_directory = Return in_listing;
  ready_out_listing : os_listdir W out_directory = Return out_listing
}.

(** Some entry of the source and some entry of the destination have the
    same name once the extension is cut off, the case is lowered and the
    white space around it is dropped. *)
Definition collide (in_listing out_listing : list string) : Prop :=
  exists name, In name (map collision_name in_listing)
               /\ In name (map collision_name out_listing).

(** The test under which [start_processing] shows the dialog. *)
Definition asks (o : Options) (in_listing out_listing : list string) : bool :=
  negb (isdisjoint (map collision_name in_listing) (map collision_name out_listing))
  && negb (general_overwrite o).

Definition overwrite_title : string := "Overwrite Images?".
Definition overwrite_message : string :=
  "At least one image has the same name in the output directory."
  ++ newline ++ "Are you sure you want to overwrite these files?".

(** The globals when the loop over the source directory begins. *)
Definition started (asked : bool) (s : State) : State :=
  mkState (log s ++ ["[INFO] Started processing job."]) 0 0 (THREAD_COUNT s)
          (files s) (if asked then S (prompts s) else prompts s).

(** The summary line of a batch. *)
Definition summary (processed errors : Z) : string :=
  "[INFO] Finished processing " ++ Py.str processed ++ " images with "
  ++ Py.str errors ++ " error(s).".

(** The globals after the summary line and the decrement. *)
Definition finished (s : State) : State :=
  mkState (log s ++ [summary (IMG_COUNT s) (ERR_COUNT s)]) (ERR_COUNT s)
          (IMG_COUNT s) (decrement (THREAD_COUNT s)) (files s) (prompts s).





(** The lines of the statistics block in the order of [process]: the
    check box, the label and the value of each. *)
Definition metrics (W : World) (o : Options) (img : Image)
  : list (bool * string * outcome string) :=
  [(advanced_extrema o, "extrema", Image_getextrema W img);
   (advanced_count o, "count", ImageStat_Stat W stat_count img);
   (advanced_sum o, "sum", ImageStat_Stat W stat_sum img);
   (advanced_sum2 o, "sum2", ImageStat_Stat W stat_sum2 img);
   (advanced_mean o, "mean", ImageStat_Stat W stat_mean img);
   (advanced_median o, "median", ImageStat_Stat W stat_median img);
   (advanced_rms o, "rms", ImageStat_Stat W stat_rms img);
   (advanced_var o, "var", ImageStat_Stat W stat_var img);
   (advanced_stddev o, "stddev", ImageStat_Stat W stat_stddev img)].

(** The computation of some selected metric raises on [img]. *)
Definition metric_fails (W : World) (o : Options) (img : Image) : bool :=
  existsb (fun m => fst (fst m) && is_raise (snd m)) (metrics W o img).

(** The statistics block over a list of lines. *)
Fixpoint stat_lines (ms : list (bool * string * outcome string)) (img_stats : string)
  : outcome string :=
  match ms with
  | [] => Return img_stats
  | (flag, label, value) :: rest =>
      obind (stat_line flag label value img_stats) (stat_lines rest)
  end.

(** The value of a string of digits. *)
Fixpoint decimal_from (acc : Z) (s : string) : Z :=
  match s with
  | EmptyString => acc
  | String c r => decimal_from (10 * acc + Py.digit_value c) r
  end.

Definition decimal (s : string) : Z := decimal_from 0 s.

(** [int(float(n) / 100.0 * size)] for the integer [n]: the percentage
    [n] of [size] as the program computes it, in binary64 and cut off
    toward zero. *)
Definition percent_of (n size : Z) : outcome Z :=
  obind (Py.fdiv (Py.float_of_Z n) (Py.float_of_Z 100)) (fun q =>
  obind (Py.float_of_int size) (fun k =>
  Py.int_of_float (Py.fmul q k))).

(** One field of a size or of a crop box: the digits of [N], and whether
    a percent sign follows them. *)
Record field : Type := mkField {
  digits : string;
  percent : bool
}.

Definition field_str (f : field) : string :=
  digits f ++ (if percent f then "%" else EmptyString).

Definition field_ok (f : field) : Prop := Py.isnumeric (digits f) = true.

(** What a field stands for along a dimension of [size] pixels. *)
Definition resolve (f : field) (size : Z) : outcome Z :=
  if percent f then percent_of (decimal (digits f)) size
  else Return (decimal (digits f)).

(** The sizes the resize validator accepts: [N%] for both dimensions, or
    one field for the width and one for the height. *)
Inductive SIZE : Type :=
| Percentage (n : string)
| Dimensions (w h : field).



(** The size a [SIZE] asks for, for an image. *)
Definition target (z : SIZE) (img : Image) : outcome (Z * Z) :=
  match z with
  | Percentage n =>
      obind (percent_of (decimal n) (width img)) (fun a =>
      obind (percent_of (decimal n) (height img)) (fun b => Return (a, b)))
  | Dimensions w h =>
      obind (resolve w (width img)) (fun a =>
      obind (resolve h (height img)) (fun b => Return (a, b)))
  end.

(** A percentage for the right or the lower edge is measured from the
    far side. *)
Definition resolve_far (f : field) (size : Z) : outcome Z :=
  if percent f then obind (percent_of (decimal (digits f)) size)
                          (fun r => Return (size - r))
  else Return (decimal (digits f)).

(** The box four fields stand for, for an image. *)
Definition box_of (f_left f_upper f_right f_lower : field) (img : Image)
  : outcome (Z * Z * Z * Z) :=
  obind (resolve f_left (width img)) (fun left' =>
  obind (resolve f_upper (height img)) (fun upper' =>
  obind (resolve_far f_right (width img)) (fun right' =>
  obind (resolve_far f_lower (height img)) (fun lower' =>
  Return (left', upper', right', lower'))))).

(** The characters of a size: digits, the percent sign and the [x]. *)
Definition size_char (c : ascii) : bool :=
  Py.isdigit c || Ascii.eqb c "%" || Ascii.eqb c "x".

(** The characters of a field: digits and the percent sign. *)
Definition field_char (c : ascii) : bool := Py.isdigit c || Ascii.eqb c "%".

Definition nonspace (c : ascii) : bool := negb (Py.isspace c).


(** The globals after one more log line. *)
Definition logged (msg : string) (s : State) : State := set_log (log s ++ [msg]) s.



(** A crop entry: four fields, commas between them, white space after a
    comma, and what [$] lets follow ([tail] is empty or a newline). *)
Definition crop_str (f1 : field) (w2 : string) (f2 : field) (w3 : string) (f3 : field)
    (w4 : string) (f4 : field) (tail : string) : string :=
  field_str f1 ++ "," ++ w2 ++ field_str f2 ++ "," ++ w3 ++ field_str f3
  ++ "," ++ w4 ++ field_str f4 ++ tail.

(** The box passes the test of [func_transform_crop]. *)
Definition box_valid (box : Z * Z * Z * Z) : Prop :=
  let '(left', upper', right', lower') := box in
  left' < right' /\ upper' < lower' /\ right' <> 0 /\ lower' <> 0.



(* ===================================================================== *)
(** * More of the program, and the vocabulary of its properties          *)
(* ===================================================================== *)





(** A function that returns has logged exactly one line and changed
    nothing else. *)
Definition logs_one_line {A} (m : M A) : Prop :=
  forall s a s', m s = (Return a, s') -> exists line, s' = logged line s.


(** The world [W] with other directories: which paths exist, which can
    be made and what they list. *)
Definition with_directories (W : World) (path_exists : string -> bool)
    (makedirs : string -> outcome unit) (listdir : string -> outcome (list string))
  : World :=
  {| float_literal := float_literal W;
     Image_open := Image_open W;
     ImageOps_contain := ImageOps_contain W;
     ImageOps_cover := ImageOps_cover W;
     ImageOps_fit := ImageOps_fit W;
     ImageOps_pad := ImageOps_pad W;
     Image_transpose := Image_transpose W;
     Image_crop := Image_crop W;
     ImageOps_scale := ImageOps_scale W;
     ImageOps_expand := ImageOps_expand W;
     ImageOps_flip := ImageOps_flip W;
     ImageOps_mirror := ImageOps_mirror W;
     ImageOps_equalize := ImageOps_equalize W;
     ImageOps_grayscale := ImageOps_grayscale W;
     ImageOps_invert := ImageOps_invert W;
     ImageOps_posterize := ImageOps_posterize W;
     ImageOps_solarize := ImageOps_solarize W;
     Image_filter := Image_filter W;
     ImageEnhance_enhance := ImageEnhance_enhance W;
     Image_convert := Image_convert W;
     Image_getextrema := Image_getextrema W;
     ImageStat_Stat := ImageStat_Stat W;
     Image_save := Image_save W;
     file_write := file_write W;
     os_fsencode := os_fsencode W;
     os_path_exists := path_exists;
     os_makedirs := makedirs;
     os_listdir := listdir;
     messagebox_askokcancel := messagebox_askokcancel W |}.

(** The directory [d] is there or can be made. *)
Definition can_make (W : World) (d : string) : Prop :=
  os_path_exists W d = true \/ os_makedirs W d = Return tt.

(** One of the two directories is missing and making it raises [e]. *)
Definition cannot_make (W : World) (in_directory out_directory e : string) : Prop :=
  (os_path_exists W in_directory = false /\ os_makedirs W in_directory = Raise e)
  \/ (can_make W in_directory
      /\ os_path_exists W out_directory = false
      /\ os_makedirs W out_directory = Raise e).

(** Listing one of the two directories raises [e]. *)
Definition cannot_list (W : World) (in_directory out_directory e : string) : Prop :=
  os_listdir W in_directory = Raise e
  \/ ((exists in_listing, os_listdir W in_directory = Return in_listing)
      /\ os_listdir W out_directory = Raise e).

(** The globals of a batch that stopped after the line of its start:
    the counters of the batch at 0, the counter of running jobs at [n]. *)
Definition stopped (lines : list string) (n : Z) (s : State) : State :=
  mkState (log s ++ lines) 0 0 n (files s) (prompts s).

(** The name under which the image of the file [img] is written: the
    base name of the file, or its root with the extension of the chosen
    filetype when the conversion is ticked. *)
Definition output_name (o : Options) (img : Image) : string :=
  if advanced_convert_filetype o
  then fst (os_path.splitext (os_path.basename (filename img)))
       ++ "." ++ Py.lower (advanced_convert_filetype_option o)
  else os_path.basename (filename img).

(** The name of the statistics file of [img]. *)
Definition statistics_name (img : Image) : string :=
  fst (os_path.splitext (os_path.basename (filename img))) ++ ".txt".

(** The text of a statistics block: the label, a colon, the value and a
    newline for every ticked metric. *)
Fixpoint stats_text (ms : list (bool * string * outcome string)) : string :=
  match ms with
  | [] => EmptyString
  | (flag, label, value) :: rest =>
      match flag, value with
      | true, Return v => label ++ ":" ++ v ++ newline ++ stats_text rest
      | _, _ => stats_text rest
      end
  end.

(* ===================================================================== *)
(** * Lemmas and theorems                                                *)
(* ===================================================================== *)

(** ** The monad *)

Lemma bind_Return {A B} (m : M A) (f : A -> M B) (s s' : State) (a : A) :
  m s = (Return a, s') -> bind m f s = f a s'.
Proof. intros H. unfold bind. now rewrite H. Qed.

Lemma bind_Raise {A B} (m : M A) (f : A -> M B) (s s' : State) (e : string) :
  m s = (Raise e, s') -> bind m f s = (Raise e, s').
Proof. intros H. unfold bind. now rewrite H. Qed.

Lemma bind_assoc {A B C} (m : M A) (f : A -> M B) (g : B -> M C) (s : State) :
  bind (bind m f) g s = bind m (fun a => bind (f a) g) s.
Proof. unfold bind. destruct (m s) as [[a|e] s']; reflexivity. Qed.

Lemma bind_ext {A B} (m : M A) (f g : A -> M B) (s : State) :
  (forall a s', f a s' = g a s') -> bind m f s = bind m g s.
Proof. intros H. unfold bind. destruct (m s) as [[a|e] s']; [apply H|reflexivity]. Qed.

Lemma check_disabled {A} (func : A -> M A) (img : A) (s : State) :
  check false func img s = (Return img, s).
Proof. reflexivity. Qed.

Lemma check_Return {A} (func : A -> M A) (img img' : A) (s s' : State) :
  func img s = (Return img', s') -> check true func img s = (Return img', s').
Proof. intros H. unfold check, try_except. now rewrite H. Qed.

Lemma check_Raise {A} (func : A -> M A) (img : A) (e : string) (s s' : State) :
  func img s = (Raise e, s') -> check true func img s = (Return img, caught e s').
Proof. intros H. unfold check, try_except. now rewrite H. Qed.

(** [check] never raises. *)
Lemma check_returns {A} (val : bool) (func : A -> M A) (img : A) (s : State) :
  exists img' s', check val func img s = (Return img', s').
Proof.
  destruct val; [|eexists; eexists; reflexivity].
  destruct (func img s) as [[img'|e] s'] eqn:E.
  - exists img', s'. now apply check_Return.
  - exists img, (caught e s'). now apply check_Raise.
Qed.

(** ** A transform that raises has logged nothing *)

Lemma raises_clean_ret {A} (a : A) : raises_clean (ret a).
Proof. intros s e s' H. discriminate H. Qed.

Lemma raises_clean_log_ret {A} (msg : string) (a : A) :
  raises_clean (insert_log msg ;; ret a).
Proof. intros s e s' H. discriminate H. Qed.

Lemma raises_clean_call {A B} (r : outcome A) (f : A -> M B) :
  (forall a, raises_clean (f a)) -> raises_clean (a <- call r ;; f a).
Proof.
  intros Hf s e s' H. unfold bind, call in H. destruct r as [a|e0].
  - now apply (Hf a s e s').
  - now inversion H.
Qed.

Lemma raises_clean_apply_and_log (r : outcome Image) (msg : string) :
  raises_clean (apply_and_log r msg).
Proof. apply raises_clean_call. intros a. apply raises_clean_log_ret. Qed.

Ltac raises_clean :=
  repeat first
    [ apply raises_clean_ret
    | apply raises_clean_log_ret
    | apply raises_clean_apply_and_log
    | apply raises_clean_call; intros ?
    | match goal with
      | |- raises_clean (if ?b then _ else _) => destruct b
      | |- raises_clean (match ?x with _ => _ end) => destruct x
      end ].

Section Transforms.
Variable W : World.
Variable o : Options.

Lemma raises_clean_resize_apply img size : raises_clean (resize_apply W o img size).
Proof. unfold resize_apply. raises_clean. Qed.

Lemma raises_clean_resize_bounded above bound img size :
  raises_clean (resize_bounded W o above bound img size).
Proof.
  unfold resize_bounded.
  repeat first
    [ apply raises_clean_resize_apply
    | apply raises_clean_log_ret
    | apply raises_clean_call; intros ?
    | match goal with
      | |- raises_clean (if ?b then _ else _) => destruct b
      end ].
Qed.

Lemma raises_clean_resize img : raises_clean (func_transform_resize W o img).
Proof.
  unfold func_transform_resize.
  repeat first
    [ apply raises_clean_resize_apply
    | apply raises_clean_resize_bounded
    | apply raises_clean_log_ret
    | apply raises_clean_call; intros ?
    | match goal with
      | |- raises_clean (if ?b then _ else _) => destruct b
      end ].
Qed.

Lemma raises_clean_enhance which what factor img :
  raises_clean (enhance W which what factor img).
Proof. unfold enhance. raises_clean. Qed.

Lemma raises_clean_on_image (func : Image -> M Image) (v : carried) :
  raises_clean (func (fst v)) -> raises_clean (on_image func v).
Proof.
  intros H s e s' E. unfold on_image, bind in E.
  destruct (func (fst v) s) as [[img|e0] s0] eqn:F.
  - discriminate E.
  - inversion E; subst. now apply (H s e s').
Qed.

Lemma raises_clean_transform_of (op : operation) (v : carried) :
  raises_clean (transform_of W o op v).
Proof.
  destruct op; cbn [transform_of];
    try (apply raises_clean_on_image);
    try apply raises_clean_resize;
    try apply raises_clean_enhance;
    try apply raises_clean_apply_and_log.
  all: try (unfold func_transform_transpose, func_transform_crop,
            func_transform_scale, func_transform_expand,
            func_transform_posterize, func_transform_solarize,
            func_advanced_convert_mode; raises_clean).
Qed.

End Transforms.

Section Order.
Variable W : World.
Variable o : Options.

Lemma run_ops_app (l1 l2 : list operation) (v : carried) (s : State) :
  run_ops W o (l1 ++ l2) v s = (v' <- run_ops W o l1 v ;; run_ops W o l2 v') s.
Proof.
  revert v s. induction l1 as [|op l1 IH]; intros v s; [reflexivity|].
  cbn [app run_ops]. rewrite bind_assoc. apply bind_ext. intros v' s'. apply IH.
Qed.

(** The pipeline itself never raises. *)
Lemma run_ops_returns (ops : list operation) (v : carried) (s : State) :
  exists v' s', run_ops W o ops v s = (Return v', s').
Proof.
  revert v s. induction ops as [|op ops IH]; intros v s.
  - exists v, s. reflexivity.
  - destruct (check_returns (enabled o op) (transform_of W o op) v s) as [v1 [s1 E]].
    destruct (IH v1 s1) as [v2 [s2 E2]].
    exists v2, s2. cbn [run_ops]. unfold consult. now rewrite (bind_Return _ _ _ _ _ E).
Qed.

Lemma step_on_image {B} (val : bool) (func : Image -> M Image) (img : Image)
    (ext : string) (k : carried -> M B) (s : State) :
  bind (check val (on_image func) (img, ext)) k s
  = bind (check val func img) (fun img' => k (img', ext)) s.
Proof.
  destruct val; [|reflexivity].
  unfold check, try_except, on_image, bind; cbn [fst snd].
  destruct (func img s) as [[img'|e] s']; reflexivity.
Qed.

Lemma step_on_extension {B} (val : bool) (func : string -> M string) (img : Image)
    (ext : string) (k : carried -> M B) (s : State) :
  bind (check val (on_extension func) (img, ext)) k s
  = bind (check val func ext) (fun ext' => k (img, ext')) s.
Proof.
  destruct val; [|reflexivity].
  unfold check, try_except, on_extension, bind; cbn [fst snd].
  destruct (func ext s) as [[ext'|e] s']; reflexivity.
Qed.

(** [process] consults the operations in the order of the list [ORDER]. *)
Lemma process_eq_in_order (img : Image) (s : State) :
  process W o img s = process_in_order W o img s.
Proof.
  unfold process, process_in_order, ORDER, TRANSFORM_TAB, ADVANCED_TAB.
  apply bind_ext. intros _ s0. cbn [app].
  do 26 (cbn [run_ops]; rewrite bind_assoc; unfold consult at 1;
         cbn [enabled transform_of]; rewrite step_on_image;
         apply bind_ext; clear s0; intros ? s0).
  cbn [run_ops]; rewrite bind_assoc; unfold consult at 1;
    cbn [enabled transform_of]; rewrite step_on_extension;
    apply bind_ext; clear s0; intros ? s0.
  cbn [run_ops]; rewrite bind_assoc; unfold consult at 1;
    cbn [enabled transform_of]; rewrite step_on_image;
    apply bind_ext; clear s0; intros ? s0.
  reflexivity.
Qed.

End Order.

(** ** What the pipeline leaves alone *)

Section Preserves.
Context {X : Type} (proj : State -> X).
Hypothesis proj_log : forall l s, proj (set_log l s) = proj s.
Hypothesis proj_ERR_COUNT : forall n s, proj (set_ERR_COUNT n s) = proj s.

Lemma preserves_ret {A} (a : A) : preserves proj (ret a).
Proof. intros s. reflexivity. Qed.

Lemma preserves_call {A} (r : outcome A) : preserves proj (call r).
Proof. intros s. reflexivity. Qed.

Lemma preserves_insert_log (msg : string) : preserves proj (insert_log msg).
Proof. intros s. apply proj_log. Qed.

Lemma preserves_incr_ERR_COUNT : preserves proj incr_ERR_COUNT.
Proof. intros s. apply proj_ERR_COUNT. Qed.

Lemma preserves_bind {A B} (m : M A) (f : A -> M B) :
  preserves proj m -> (forall a, preserves proj (f a)) -> preserves proj (bind m f).
Proof.
  intros Hm Hf s. unfold bind. specialize (Hm s).
  destruct (m s) as [[a|e] s']; cbn [snd] in *.
  - now rewrite (Hf a s').
  - exact Hm.
Qed.

Lemma preserves_try_except {A} (m : M A) (h : string -> M A) :
  preserves proj m -> (forall e, preserves proj (h e)) -> preserves proj (try_except m h).
Proof.
  intros Hm Hh s. unfold try_except. specialize (Hm s).
  destruct (m s) as [[a|e] s']; cbn [snd] in *.
  - exact Hm.
  - now rewrite (Hh e s').
Qed.

Lemma preserves_check {A} (val : bool) (func : A -> M A) (img : A) :
  preserves proj (func img) -> preserves proj (check val func img).
Proof.
  intros H. destruct val; [|apply preserves_ret].
  apply preserves_try_except; [exact H|]. intros e.
  apply preserves_bind; [apply preserves_insert_log|]. intros _.
  apply preserves_bind; [apply preserves_incr_ERR_COUNT|]. intros _.
  apply preserves_ret.
Qed.

Ltac preserves :=
  repeat first
    [ apply preserves_ret
    | apply preserves_call
    | apply preserves_insert_log
    | apply preserves_incr_ERR_COUNT
    | apply preserves_bind; [|intros ?]
    | match goal with
      | |- preserves _ (if ?b then _ else _) => destruct b
      | |- preserves _ (match ?x with _ => _ end) => destruct x
      end ].

Variable W : World.
Variable o : Options.

Lemma preserves_resize img : preserves proj (func_transform_resize W o img).
Proof.
  unfold func_transform_resize, resize_bounded, resize_apply. preserves.
Qed.

Lemma preserves_transform_of (op : operation) (v : carried) :
  preserves proj (transform_of W o op v).
Proof.
  destruct op; cbn [transform_of]; unfold on_image, on_extension;
    (apply preserves_bind; [|intros ?; apply preserves_ret]).
  1: apply preserves_resize.
  all: unfold func_transform_transpose, func_transform_crop,
         func_transform_scale, func_transform_expand, func_transform_flip,
         func_transform_mirror, func_transform_equalize,
         func_transform_grayscale, func_transform_invert,
         func_transform_posterize, func_transform_solarize,
         func_transform_blur, func_transform_contour, func_transform_detail,
         func_transform_edge_enhance, func_transform_edge_enhance_more,
         func_transform_emboss, func_transform_find_edges,
         func_transform_sharpen, func_transform_smooth,
         func_transform_smooth_more, func_transform_color,
         func_transform_contrast, func_transform_brightness,
         func_transform_sharpness, func_advanced_convert_filetype,
         func_advanced_convert_mode, enhance, apply_and_log; preserves.
Qed.

Lemma preserves_run_ops (ops : list operation) (v : carried) :
  preserves proj (run_ops W o ops v).
Proof.
  revert v. induction ops as [|op ops IH]; intros v; [apply preserves_ret|].
  cbn [run_ops]. apply preserves_bind; [|exact IH].
  apply preserves_check, preserves_transform_of.
Qed.

Lemma preserves_process (img : Image) : preserves proj (process W o img).
Proof.
  intros s. rewrite process_eq_in_order. revert s.
  unfold process_in_order.
  apply preserves_bind; [apply preserves_insert_log|]. intros _.
  apply preserves_bind; [apply preserves_run_ops|]. intros v.
  apply preserves_bind; [apply preserves_call|]. intros st.
  apply preserves_bind; [apply preserves_insert_log|]. intros _.
  apply preserves_ret.
Qed.

End Preserves.

(** ** The isolation wrapper *)

(** C1. When the transform of an enabled operation raises, [check]
    catches the exception: the log gets exactly one more line, an [ERROR]
    line with the text of the exception, the error counter goes up by
    one, nothing else changes, the image and the extension that went in
    come out, and the operations that follow in the pipeline run on them. *)
Theorem check_isolates_failure :
  forall (W : World) (o : Options) (op : operation) (v : carried)
         (e : string) (s s1 : State),
    enabled o op = true ->
    transform_of W o op v s = (Raise e, s1) ->
    check (enabled o op) (transform_of W o op) v s = (Return v, caught e s)
    /\ log (caught e s) = (log s ++ [error_line e])%list
    /\ ERR_COUNT (caught e s) = ERR_COUNT s + 1
    /\ forall rest : list operation,
         run_ops W o (op :: rest) v s = run_ops W o rest v (caught e s).
Proof.
  intros W o op v e s s1 Hen Hraise.
  assert (s1 = s) by (eapply raises_clean_transform_of; eassumption). subst s1.
  assert (Hcheck : check (enabled o op) (transform_of W o op) v s
                   = (Return v, caught e s)).
  { rewrite Hen. now apply check_Raise. }
  repeat split; trivial.
  intros rest. cbn [run_ops]. unfold consult.
  now rewrite (bind_Return _ _ _ _ _ Hcheck).
Qed.

(** The theorem above, at an example of the sample world. *)
Lemma check_isolates_failure_witness :
  let W := Sample.world ["c.tga"] [] true in
  let o := Sample.options None None None None true false false false false in
  let e := "not supported for mode RGBA" in
  check (enabled o op_invert) (transform_of W o op_invert) (Sample.tga, ".tga") Sample.fresh
  = (Return (Sample.tga, ".tga"), caught e Sample.fresh)
  /\ log (caught e Sample.fresh) = (log Sample.fresh ++ [error_line e])%list
  /\ ERR_COUNT (caught e Sample.fresh) = ERR_COUNT Sample.fresh + 1
  /\ forall rest : list operation,
       run_ops W o (op_invert :: rest) (Sample.tga, ".tga") Sample.fresh
       = run_ops W o rest (Sample.tga, ".tga") (caught e Sample.fresh).
Proof.
  intros W o e.
  apply (check_isolates_failure W o op_invert (Sample.tga, ".tga") e
           Sample.fresh Sample.fresh); reflexivity.
Defined.

(** ** The order of the operations *)

(** The operations on the image leave the extension as it is. *)
Lemma run_ops_keeps_extension (W : World) (o : Options) (ops : list operation) :
  Forall (fun op => op <> op_convert_filetype) ops ->
  forall v s v' s', run_ops W o ops v s = (Return v', s') -> snd v' = snd v.
Proof.
  induction 1 as [|op ops Hop _ IH]; intros v s v' s' E.
  - inversion E. reflexivity.
  - cbn [run_ops] in E. unfold bind in E.
    destruct (consult W o op v s) as [[v1|e1] s1] eqn:C; [|discriminate E].
    rewrite (IH _ _ _ _ E). clear E IH.
    unfold consult, check in C. destruct (enabled o op).
    + unfold try_except in C.
      destruct (transform_of W o op v s) as [[v2|e2] s2] eqn:T.
      * inversion C; subst. clear C.
        destruct op; try congruence; cbn [transform_of] in T;
          unfold on_image, bind in T;
          match type of T with
          | context [?f (fst v) s] => destruct (f (fst v) s) as [[?|?] ?]
          end; inversion T; reflexivity.
      * inversion C. reflexivity.
    + inversion C. reflexivity.
Qed.

(** C2. [process] consults the operations in the order of the one list
    [ORDER], whatever the image and the options.  With filetype and mode
    conversion both ticked, the new extension is set, and logged, before
    the image is converted, and the statistics are taken from the image
    that the mode conversion returned, after every stage before it. *)
Theorem process_order_is_fixed :
  forall (W : World) (o : Options) (img : Image) (s : State),
    process W o img s = process_in_order W o img s
    /\ (advanced_convert_filetype o = true ->
        advanced_convert_modes o = true ->
        exists (img1 : Image) (s1 : State),
          run_ops W o TRANSFORM_TAB (img, snd (os_path.splitext (filename img)))
                  (announced img s)
          = (Return (img1, snd (os_path.splitext (filename img))), s1)
          /\ forall img2 : Image,
               Image_convert W img1 (advanced_convert_modes_option o) = Return img2 ->
               let new_type := advanced_convert_filetype_option o in
               let s2 := set_log (log s1
                           ++ ["[ADVANCED] Converted image to filetype " ++ new_type ++ ".";
                               "[ADVANCED] Converted image to mode "
                               ++ advanced_convert_modes_option o ++ "."]) s1 in
               process W o img s
               = match statistics W o img2 EmptyString with
                 | Return img_stats =>
                     (Return (img2,
                              fst (os_path.splitext (os_path.basename (filename img))),
                              "." ++ Py.lower new_type, img_stats),
                      set_log (log s2 ++ ["[FILE] Successfully processed "
                                          ++ os_path.basename (filename img) ++ "."]) s2)
                 | Raise e => (Raise e, s2)
                 end).
Proof.
  intros W o img s. split; [apply process_eq_in_order|].
  intros Hft Hmode.
  set (ext := snd (os_path.splitext (filename img))).
  destruct (run_ops_returns W o TRANSFORM_TAB (img, ext) (announced img s))
    as [[img1 ext1] [s1 Hrun]].
  assert (ext1 = ext) as ->.
  { apply (run_ops_keeps_extension W o TRANSFORM_TAB) in Hrun; [exact Hrun|].
    unfold TRANSFORM_TAB. repeat constructor; discriminate. }
  exists img1, s1. split; [exact Hrun|].
  intros img2 Hconv new_type s2.
  rewrite process_eq_in_order. unfold process_in_order, ORDER.
  fold ext. unfold bind at 1. change (insert_log _ s) with (Return tt, announced img s).
  cbv iota beta. unfold bind at 1. rewrite run_ops_app.
  rewrite (bind_Return _ _ _ _ _ Hrun).
  unfold ADVANCED_TAB. cbn [run_ops]. unfold consult. cbn [enabled transform_of].
  rewrite Hft, Hmode.
  unfold check, try_except, on_extension, on_image, func_advanced_convert_filetype,
    func_advanced_convert_mode, bind, call, ret, insert_log. cbn [fst snd].
  rewrite Hconv. cbn [fst snd].
  subst s2 new_type. unfold set_log. cbn [log ERR_COUNT IMG_COUNT THREAD_COUNT files prompts].
  destruct (statistics W o img2 EmptyString) as [img_stats|e];
    cbn [log ERR_COUNT IMG_COUNT THREAD_COUNT files prompts];
    rewrite <- ?app_assoc; reflexivity.
Qed.

(** The theorem above, at an example of the sample world. *)
Lemma process_order_is_fixed_witness :
  let W := Sample.world ["b.gif"] [] true in
  let o := Sample.options None None (Some "PNG") (Some "L") false true true true false in
  process W o Sample.gif Sample.fresh
  = (Return (Sample.converted Sample.gif "L", "b", ".png",
             "count:[22500]" ++ newline ++ "mean:[0.0]" ++ newline),
     mkState ["[FILE] Processing b.gif (GIF, 150x150, P)...";
              "[ADVANCED] Converted image to filetype PNG.";
              "[ADVANCED] Converted image to mode L.";
              "[FILE] Successfully processed b.gif."] 0 0 0 [] 0).
Proof.
  intros W o.
  destruct (process_order_is_fixed W o Sample.gif Sample.fresh) as [_ H].
  destruct (H eq_refl eq_refl) as [img1 [s1 [Hrun Hconv]]].
  vm_compute in Hrun. inversion Hrun; subst img1 s1.
  exact (Hconv (Sample.converted Sample.gif "L") eq_refl).
Defined.

(** ** The batch runner *)

Section Batch.
Variable W : World.
Variable o : Options.

Lemma isdisjoint_false_iff (in_files out_files : list string) :
  isdisjoint in_files out_files = false
  <-> exists name, In name in_files /\ In name out_files.
Proof.
  unfold isdisjoint. split.
  - intros H. induction out_files as [|f out IH]; [discriminate H|].
    cbn [forallb] in H. apply andb_false_iff in H. destruct H as [H|H].
    + apply negb_false_iff, existsb_exists in H. destruct H as [x [Hin Heq]].
      apply String.eqb_eq in Heq. subst x. exists f. split; [exact Hin|now left].
    + destruct (IH H) as [name [Hi Ho]]. exists name. split; [exact Hi|now right].
  - intros [name [Hi Ho]]. induction out_files as [|f out IH]; [destruct Ho|].
    cbn [forallb]. apply andb_false_iff. destruct Ho as [->|Ho].
    + left. apply negb_false_iff, existsb_exists. exists name.
      split; [exact Hi|apply String.eqb_refl].
    + right. now apply IH.
Qed.

(** The dialog is shown when the names collide and overwriting is not
    ticked, and only then. *)
Lemma asks_iff (in_listing out_listing : list string) :
  asks o in_listing out_listing = true
  <-> collide in_listing out_listing /\ general_overwrite o = false.
Proof.
  unfold asks, collide. rewrite andb_true_iff, !negb_true_iff.
  now rewrite isdisjoint_false_iff.
Qed.

Lemma for_each_returns (listing : list string) (in_directory OUTPUT_PATH : string)
    (s : State) :
  exists s', for_each listing (loop_body W o in_directory OUTPUT_PATH) s = (Return tt, s').
Proof.
  revert s. induction listing as [|file rest IH]; intros s.
  - exists s. reflexivity.
  - cbn [for_each]. unfold bind at 1.
    assert (exists s1, loop_body W o in_directory OUTPUT_PATH file s = (Return tt, s1))
      as [s1 ->].
    { unfold loop_body, try_except.
      destruct (process_file W o in_directory OUTPUT_PATH file s) as [[[]|e] s1].
      - now exists s1.
      - eexists. reflexivity. }
    apply IH.
Qed.

(** A batch whose directories are ready and that is not declined runs the
    loop over the source directory from the state [started] and ends in
    the state [finished]. *)
Lemma start_processing_runs (in_directory out_directory : string)
    (in_listing out_listing : list string) (s : State) :
  directories_ready W o in_directory out_directory in_listing out_listing ->
  asks o in_listing out_listing = false
  \/ messagebox_askokcancel W overwrite_title overwrite_message = true ->
  forall s',
    for_each in_listing (loop_body W o in_directory (general_output_entry o))
             (started (asks o in_listing out_listing) s) = (Return tt, s') ->
    start_processing W o s = (Return tt, finished s').
Proof.
  intros [Hin Hout Hie Hoe Hil Hol] Hgo s' Hloop.
  unfold start_processing, bind, try_except, call, ret. rewrite Hin, Hout.
  cbn [insert_log].
  assert (Hmk : forall d, os_path_exists W d = true \/ os_makedirs W d = Return tt ->
                forall s0 : State,
                  (if negb (os_path_exists W d)
                   then fun s : State => (os_makedirs W d, s)
                   else fun s : State => (Return tt, s)) s0 = (Return tt, s0)).
  { intros d [->| ->] s0; [reflexivity|]. now destruct (os_path_exists W d). }
  rewrite (Hmk _ Hie), (Hmk _ Hoe). cbn [negb].
  rewrite Hil, Hol. fold (asks o in_listing out_listing).
  fold overwrite_title overwrite_message.
  destruct (asks o in_listing out_listing) eqn:Ha.
  - destruct Hgo as [Hgo|Hgo]; [discriminate Hgo|].
    unfold askokcancel. rewrite Hgo. cbn [negb].
    unfold started in Hloop. unfold set_prompts, set_log, set_ERR_COUNT, set_IMG_COUNT.
    cbn [log ERR_COUNT IMG_COUNT THREAD_COUNT files prompts].
    rewrite Hloop. reflexivity.
  - cbn [negb]. unfold started in Hloop.
    unfold set_prompts, set_log, set_ERR_COUNT, set_IMG_COUNT.
    cbn [log ERR_COUNT IMG_COUNT THREAD_COUNT files prompts].
    rewrite Hloop. reflexivity.
Qed.


End Batch.

(** ** One turn of the loop *)

Section Loop.
Variable W : World.
Variable o : Options.


Lemma images_written_app (s : State) (l : list (string * content)) :
  images_written (set_files (files s ++ l) s)
  = images_written s + len (filter is_image_file l).
Proof.
  unfold images_written, len. cbn [files set_files].
  rewrite filter_app, length_app. lia.
Qed.

(** What [img.save] leaves behind when it returns: the image file, and
    nothing else but log lines. *)
Lemma save_image_Return (img : Image) (path ext : string) (s s' : State) :
  save_image W o img path ext s = (Return tt, s') ->
  exists (kwargs : list (string * kwarg)) (lines : list string),
    s' = mkState (log s ++ lines) (ERR_COUNT s) (IMG_COUNT s) (THREAD_COUNT s)
                 (files s ++ [(path, ImageFile img kwargs)]) (prompts s).
Proof.
  unfold save_image.
  destruct (String.eqb ext ".spi");
    [|destruct (existsb (String.eqb ext) _)];
    unfold bind, call, insert_log, put_file; cbn [log ERR_COUNT IMG_COUNT THREAD_COUNT files prompts set_log set_files];
    match goal with
    | |- context [Image_save W img path ?kw] =>
        destruct (Image_save W img path kw) as [[]|e]; intros H; inversion H;
        exists kw
    end.
  - exists ["[FILE] Spider!"]. reflexivity.
  - exists []. now rewrite app_nil_r.
  - exists []. now rewrite app_nil_r.
Qed.

(** An [img.save] that raises leaves no file. *)
Lemma save_image_Raise (img : Image) (path ext e : string) (s s' : State) :
  save_image W o img path ext s = (Raise e, s') ->
  files s' = files s /\ IMG_COUNT s' = IMG_COUNT s /\ ERR_COUNT s' = ERR_COUNT s.
Proof.
  unfold save_image.
  destruct (String.eqb ext ".spi");
    [|destruct (existsb (String.eqb ext) _)];
    unfold bind, call, insert_log, put_file; cbn [log ERR_COUNT IMG_COUNT THREAD_COUNT files prompts set_log set_files];
    match goal with
    | |- context [Image_save W img path ?kw] =>
        destruct (Image_save W img path kw) as [[]|e']; intros H; inversion H
    end; repeat split; reflexivity.
Qed.

(** A turn of the loop whose [try] block returns has counted one more
    image and written one more image file. *)
Lemma process_file_Return (in_directory OUTPUT_PATH file : string) (s s' : State) :
  process_file W o in_directory OUTPUT_PATH file s = (Return tt, s') ->
  IMG_COUNT s' = IMG_COUNT s + 1 /\ images_written s' = images_written s + 1.
Proof.
  unfold process_file. unfold bind at 1. unfold call at 1.
  destruct (Image_open W _) as [opened|e]; [|discriminate].
  unfold bind at 1.
  pose proof (preserves_process IMG_COUNT (fun _ _ => eq_refl) (fun _ _ => eq_refl)
                W o opened s) as HI.
  pose proof (preserves_process files (fun _ _ => eq_refl) (fun _ _ => eq_refl)
                W o opened s) as HF.
  destruct (process W o opened s) as [[[[[img name] ext] stats]|e] s1]; [|discriminate].
  cbn [snd] in HI, HF. unfold bind at 1.
  destruct (save_image W o img _ ext s1) as [[[]|e] s2] eqn:Sv; [|discriminate].
  apply save_image_Return in Sv. destruct Sv as [kwargs [lines ->]].
  unfold bind, insert_log, incr_IMG_COUNT, call, put_file, ret.
  destruct (negb (String.eqb stats EmptyString)).
  - destruct (file_write W _ stats) as [[]|e]; [|discriminate].
    intros H. inversion H. subst s'. clear H.
    unfold images_written.
    cbn [log ERR_COUNT IMG_COUNT THREAD_COUNT files prompts set_log set_files set_IMG_COUNT].
    rewrite HI, HF. split; [reflexivity|].
    rewrite !filter_app. unfold len. rewrite !length_app. cbn. lia.
  - intros H. inversion H. subst s'. clear H.
    unfold images_written.
    cbn [log ERR_COUNT IMG_COUNT THREAD_COUNT files prompts set_log set_files set_IMG_COUNT].
    rewrite HI, HF. split; [reflexivity|].
    rewrite !filter_app. unfold len. rewrite !length_app. cbn. lia.
Qed.


End Loop.



(** ** What the loop leaves alone *)

Section PreservesLoop.
Context {X : Type} (proj : State -> X).
Hypothesis proj_log : forall l s, proj (set_log l s) = proj s.
Hypothesis proj_ERR_COUNT : forall n s, proj (set_ERR_COUNT n s) = proj s.
Hypothesis proj_IMG_COUNT : forall n s, proj (set_IMG_COUNT n s) = proj s.
Hypothesis proj_files : forall l s, proj (set_files l s) = proj s.
Variable W : World.
Variable o : Options.

Lemma preserves_put_file (path : string) (c : content) : preserves proj (put_file path c).
Proof. intros s. apply proj_files. Qed.

Lemma preserves_incr_IMG_COUNT : preserves proj incr_IMG_COUNT.
Proof. intros s. apply proj_IMG_COUNT. Qed.

Lemma preserves_loop_body (in_directory OUTPUT_PATH file : string) :
  preserves proj (loop_body W o in_directory OUTPUT_PATH file).
Proof.
  unfold loop_body, process_file, save_image.
  apply preserves_try_except.
  - apply preserves_bind; [apply preserves_call|]. intros opened.
    apply preserves_bind; [now apply preserves_process|].
    intros [[[img name] ext] stats].
    repeat first
      [ apply preserves_ret
      | apply preserves_call
      | apply preserves_insert_log; exact proj_log
      | apply preserves_put_file
      | apply preserves_put_file
      | apply preserves_incr_IMG_COUNT
      | apply preserves_bind; [|intros ?]
      | match goal with
        | |- preserves _ (if ?b then _ else _) => destruct b
        end ].
  - intros e.
    apply preserves_bind; [now apply preserves_insert_log|]. intros _.
    now apply preserves_incr_ERR_COUNT.
Qed.

Lemma preserves_for_each (in_directory OUTPUT_PATH : string) (listing : list string) :
  preserves proj (for_each listing (loop_body W o in_directory OUTPUT_PATH)).
Proof.
  induction listing as [|file rest IH]; [apply preserves_ret|].
  cbn [for_each]. apply preserves_bind; [apply preserves_loop_body|]. intros _. exact IH.
Qed.

End PreservesLoop.

(** ** The confirmation *)



(** ** A file that is both an error and processed *)

Section OneFailure.
Variable W : World.
Variable o : Options.

Lemma consult_disabled (op : operation) (v : carried) (s : State) :
  enabled o op = false -> consult W o op v s = (Return v, s).
Proof. intros H. unfold consult. now rewrite H. Qed.

(** When one operation is ticked, and its transform raises, the pipeline
    hands on what it received and the failure is counted once. *)
Lemma run_ops_one_failure (op : operation) (v : carried) (e : string) (s : State) :
  enabled o op = true ->
  (forall op', op' <> op -> enabled o op' = false) ->
  (forall s0, fst (transform_of W o op v s0) = Raise e) ->
  run_ops W o ORDER v s = (Return v, caught e s).
Proof.
  intros Hen Hoff Hraise.
  assert (Hc : forall s0, consult W o op v s0 = (Return v, caught e s0)).
  { intros s0. unfold consult. rewrite Hen. apply check_Raise.
    specialize (Hraise s0).
    destruct (transform_of W o op v s0) as [r s1] eqn:T. cbn [fst] in Hraise. subst r.
    f_equal. eapply raises_clean_transform_of. exact T. }
  unfold ORDER, TRANSFORM_TAB, ADVANCED_TAB. cbn [app run_ops].
  destruct op;
    repeat (unfold bind at 1;
            first [ rewrite Hc | rewrite consult_disabled by (apply Hoff; discriminate) ]);
    reflexivity.
Qed.

End OneFailure.

(** C10. A batch over one file that decodes, with one operation ticked
    whose transform raises on it, and a save that works: the file is
    counted as an error and as processed, so the two numbers of the
    summary add up to more than the number of entries of the source
    directory. *)
Theorem one_file_error_and_processed :
  forall (W : World) (o : Options) (in_directory out_directory file : string)
         (out_listing : list string) (s : State)
         (img : Image) (op : operation) (e : string),
    directories_ready W o in_directory out_directory [file] out_listing ->
    asks o [file] out_listing = false
    \/ messagebox_askokcancel W overwrite_title overwrite_message = true ->
    Image_open W (os_path.join in_directory file) = Return img ->
    enabled o op = true ->
    (forall op', op' <> op -> enabled o op' = false) ->
    advanced_stats o = false ->
    (forall s0, fst (transform_of W o op (img, snd (os_path.splitext (filename img))) s0)
                = Raise e) ->
    (forall path kwargs, Image_save W img path kwargs = Return tt) ->
    exists s',
      start_processing W o s = (Return tt, s')
      /\ IMG_COUNT s' = 1
      /\ ERR_COUNT s' = 1
      /\ IMG_COUNT s' + ERR_COUNT s' > len [file]
      /\ images_written s' = images_written s + 1
      /\ In (error_line e) (log s')
      /\ last (log s') EmptyString = summary 1 1.
Proof.
  intros W o in_directory out_directory file out_listing s img op e
         Hready Hgo Hopen Hen Hoff Hstats Hraise Hsave.
  set (s0 := started (asks o [file] out_listing) s).
  assert (Hfile : exists s1,
             process_file W o in_directory (general_output_entry o) file s0 = (Return tt, s1)
             /\ ERR_COUNT s1 = ERR_COUNT s0 + 1
             /\ In (error_line e) (log s1)).
  { unfold process_file. unfold bind at 1. unfold call at 1. rewrite Hopen.
    unfold bind at 1. rewrite process_eq_in_order. unfold process_in_order.
    unfold bind at 1. cbn [insert_log]. unfold bind at 1.
    rewrite (run_ops_one_failure W o op _ e _ Hen Hoff Hraise).
    unfold statistics. rewrite Hstats.
    unfold bind at 1. unfold call at 1. unfold bind at 1. cbn [insert_log].
    unfold ret at 1. cbn [fst snd].
    unfold save_image.
    destruct (String.eqb _ ".spi");
      [|destruct (existsb _ _)];
      unfold bind, call, insert_log, put_file, incr_IMG_COUNT, ret;
      rewrite Hsave; cbn [String.eqb negb];
      eexists; (split; [reflexivity|]);
      cbn [log ERR_COUNT IMG_COUNT THREAD_COUNT files prompts set_log set_files
           set_IMG_COUNT caught];
      (split; [reflexivity|]);
      rewrite ?in_app_iff; cbn [In]; tauto. }
  destruct Hfile as [s1 [Hp [HE Hin]]].
  destruct (process_file_Return W o _ _ _ _ _ Hp) as [HI HW].
  exists (finished s1). split.
  { apply (start_processing_runs W o in_directory out_directory [file] out_listing);
      [exact Hready|exact Hgo|].
    fold s0. cbn [for_each]. unfold bind at 1, loop_body, try_except. rewrite Hp.
    reflexivity. }
  subst s0. unfold images_written, len in *.
  cbn [finished started IMG_COUNT ERR_COUNT files log length] in *.
  split; [lia|]. split; [lia|]. split; [lia|]. split; [lia|]. split.
  - rewrite in_app_iff. now left.
  - rewrite last_last, HI, HE. reflexivity.
Qed.

(** The theorem above, at an example of the sample world. *)
Lemma one_file_error_and_processed_witness :
  let W := Sample.world ["c.tga"] [] true in
  let o := Sample.options None None None None true false false false false in
  exists s',
    start_processing W o Sample.launched = (Return tt, s')
    /\ IMG_COUNT s' = 1
    /\ ERR_COUNT s' = 1
    /\ IMG_COUNT s' + ERR_COUNT s' > len ["c.tga"]
    /\ images_written s' = images_written Sample.launched + 1
    /\ In (error_line "not supported for mode RGBA") (log s')
    /\ last (log s') EmptyString = summary 1 1.
Proof.
  intros W o.
  apply (one_file_error_and_processed W o "input" "output" "c.tga" [] Sample.launched
           Sample.tga op_invert "not supported for mode RGBA").
  - constructor; try reflexivity; left; reflexivity.
  - left. reflexivity.
  - reflexivity.
  - reflexivity.
  - intros op' H. destruct op'; try reflexivity. now destruct H.
  - reflexivity.
  - intros s0. reflexivity.
  - intros path kwargs. reflexivity.
Defined.

(** ** A metric that raises *)

Lemma obind_ext {A B} (r : outcome A) (f g : A -> outcome B) :
  (forall a, f a = g a) -> obind r f = obind r g.
Proof. intros H. destruct r; [apply H|reflexivity]. Qed.

Lemma obind_Return {A} (r : outcome A) : obind r Return = r.
Proof. now destruct r. Qed.

Lemma statistics_stat_lines (W : World) (o : Options) (img : Image) (img_stats : string) :
  statistics W o img img_stats
  = if advanced_stats o then stat_lines (metrics W o img) img_stats else Return img_stats.
Proof.
  unfold statistics, metrics. destruct (advanced_stats o); [|reflexivity].
  cbn [stat_lines].
  repeat (apply obind_ext; intros ?).
  symmetry. apply obind_Return.
Qed.





(** ** The counter of running jobs *)

(** The decrement is safe from 1 upward. *)
Lemma decrement_nonnegative (n : Z) : 1 <= n -> 0 <= decrement n.
Proof. intros H. unfold decrement. destruct (n <? 0) eqn:E; lia. Qed.

(** Every batch that returns has applied the decrement once. *)
Lemma start_processing_decrements (W : World) (o : Options) (s s' : State) :
  start_processing W o s = (Return tt, s') ->
  THREAD_COUNT s' = decrement (THREAD_COUNT s).
Proof.
  unfold start_processing, bind, try_except, call, ret, abort, bind, insert_log,
    decrement_THREAD_COUNT, askokcancel.
  cbn [log ERR_COUNT IMG_COUNT THREAD_COUNT files prompts set_log set_ERR_COUNT
       set_IMG_COUNT set_THREAD_COUNT set_prompts].
  destruct (os_fsencode W (general_input_entry o)) as [in_directory|e];
    [|intros H; inversion H; reflexivity].
  destruct (os_fsencode W (general_output_entry o)) as [out_directory|e];
    [|intros H; inversion H; reflexivity].
  cbn [log ERR_COUNT IMG_COUNT THREAD_COUNT files prompts set_log set_ERR_COUNT
       set_IMG_COUNT set_THREAD_COUNT set_prompts].
  destruct (negb (os_path_exists W in_directory));
    [destruct (os_makedirs W in_directory) as [[]|e];
     [|intros H; inversion H; reflexivity]|];
    (destruct (negb (os_path_exists W out_directory));
     [destruct (os_makedirs W out_directory) as [[]|e];
      [|intros H; inversion H; reflexivity]|]);
    cbn [negb];
    (destruct (os_listdir W in_directory) as [in_listing|e]; [|discriminate]);
    (destruct (os_listdir W out_directory) as [out_listing|e]; [|discriminate]);
    (destruct (negb (isdisjoint _ _) && negb (general_overwrite o)));
    cbn [log ERR_COUNT IMG_COUNT THREAD_COUNT files prompts set_log set_ERR_COUNT
         set_IMG_COUNT set_THREAD_COUNT set_prompts];
    try (destruct (messagebox_askokcancel W _ _); cbn [negb];
         [|intros H; inversion H; reflexivity]);
    cbn [negb]; cbv beta;
    match goal with
    | |- context [for_each ?l ?b ?s0] =>
        pose proof (preserves_for_each THREAD_COUNT (fun _ _ => eq_refl)
                      (fun _ _ => eq_refl) (fun _ _ => eq_refl) (fun _ _ => eq_refl)
                      W o in_directory (general_output_entry o) l s0) as Hp;
        destruct (for_each l b s0) as [[[]|e] s1]; [|discriminate];
        cbn [snd THREAD_COUNT set_log set_ERR_COUNT set_IMG_COUNT set_prompts] in Hp;
        intros H; inversion H;
        cbn [log ERR_COUNT IMG_COUNT THREAD_COUNT files prompts set_log set_ERR_COUNT
             set_IMG_COUNT set_THREAD_COUNT set_prompts];
        now rewrite Hp
    end.
Qed.

(** C9 fails on the program.  The test of the decrement is
    [THREAD_COUNT < 0], so from 0 it goes to -1.  The counter is 0 at the
    decrement when the worker is done before the launcher has counted it,
    which the launcher allows: it starts the thread first and adds one
    afterwards.  A batch entered with the counter at 0 leaves it at -1. *)
Theorem thread_count_goes_negative :
  decrement 0 = -1
  /\ Dispatcher.run [Dispatcher.Start; Dispatcher.Finish] Dispatcher.initial
     = Some (Dispatcher.mk (-1) 0 true)
  /\ THREAD_COUNT (snd (start_processing (Sample.world [] [] true) Sample.startup
                                         Sample.fresh)) = -1.
Proof. repeat split. Qed.

(** ** Strings *)

Lemma append_assoc (a b c : string) : (a ++ b) ++ c = a ++ (b ++ c).
Proof. induction a as [|x a IH]; cbn; [reflexivity|now rewrite IH]. Qed.

Lemma append_nil_r (a : string) : a ++ EmptyString = a.
Proof. induction a as [|x a IH]; cbn; [reflexivity|now rewrite IH]. Qed.

Lemma contains_app (c : ascii) (a b : string) :
  Py.contains c (a ++ b) = Py.contains c a || Py.contains c b.
Proof.
  induction a as [|x a IH]; cbn; [reflexivity|]. now rewrite IH, orb_assoc.
Qed.

Lemma all_chars_app (p : ascii -> bool) (a b : string) :
  Py.all_chars p (a ++ b) = Py.all_chars p a && Py.all_chars p b.
Proof.
  induction a as [|x a IH]; cbn; [reflexivity|]. now rewrite IH, andb_assoc.
Qed.

Lemma all_chars_weaken (p q : ascii -> bool) (s : string) :
  (forall c, p c = true -> q c = true) ->
  Py.all_chars p s = true -> Py.all_chars q s = true.
Proof.
  intros H. induction s as [|x s IH]; cbn; [reflexivity|].
  rewrite !andb_true_iff. intros [Hx Hs]. split; [now apply H|now apply IH].
Qed.

(** A character outside a class is not in a string of the class. *)
Lemma all_chars_without (p : ascii -> bool) (c : ascii) (s : string) :
  p c = false -> Py.all_chars p s = true -> Py.contains c s = false.
Proof.
  intros Hc. induction s as [|x s IH]; cbn; [reflexivity|].
  rewrite andb_true_iff. intros [Hx Hs]. rewrite (IH Hs), orb_false_r.
  destruct (Ascii.eqb_spec x c) as [->|]; [congruence|reflexivity].
Qed.

Lemma split_without (sep : ascii) (s : string) :
  Py.contains sep s = false -> Py.split sep s = [s].
Proof.
  induction s as [|x s IH]; cbn; [reflexivity|].
  rewrite orb_false_iff. intros [Hx Hs]. now rewrite Hx, (IH Hs).
Qed.

Lemma split_app (sep : ascii) (a b : string) :
  Py.contains sep a = false ->
  Py.split sep (a ++ String sep b) = a :: Py.split sep b.
Proof.
  induction a as [|x a IH]; cbn.
  - intros _. now rewrite Ascii.eqb_refl.
  - rewrite orb_false_iff. intros [Hx Ha]. now rewrite Hx, (IH Ha).
Qed.

Lemma isnumeric_inv (s : string) :
  Py.isnumeric s = true -> s <> EmptyString /\ Py.all_chars Py.isdigit s = true.
Proof. destruct s; [discriminate|]. intros H. split; [discriminate|exact H]. Qed.

Lemma isnumeric_intro (s : string) :
  s <> EmptyString -> Py.all_chars Py.isdigit s = true -> Py.isnumeric s = true.
Proof. destruct s; [congruence|]. intros _ H. exact H. Qed.

(** ** Classes of characters *)

Lemma digit_field_char (c : ascii) : Py.isdigit c = true -> field_char c = true.
Proof. intros H. unfold field_char. now rewrite H. Qed.

Lemma field_size_char (c : ascii) : field_char c = true -> size_char c = true.
Proof. unfold field_char, size_char. intros ->. reflexivity. Qed.

Lemma size_char_nonspace (c : ascii) : size_char c = true -> nonspace c = true.
Proof.
  destruct c as [[] [] [] [] [] [] [] []]; intros H; try discriminate H; reflexivity.
Qed.

Lemma field_char_nonspace (c : ascii) : field_char c = true -> nonspace c = true.
Proof. intros H. now apply size_char_nonspace, field_size_char. Qed.

Lemma digit_not_percent (c : ascii) :
  Py.isdigit c = true -> Ascii.eqb c "%" = false.
Proof.
  destruct c as [[] [] [] [] [] [] [] []]; intros H; try discriminate H; reflexivity.
Qed.

Lemma field_str_chars (f : field) :
  field_ok f -> Py.all_chars field_char (field_str f) = true.
Proof.
  intros H. apply isnumeric_inv in H. destruct H as [_ H].
  unfold field_str. rewrite all_chars_app.
  rewrite (all_chars_weaken _ _ _ digit_field_char H).
  now destruct (percent f).
Qed.

Lemma field_str_nonempty (f : field) : field_ok f -> field_str f <> EmptyString.
Proof.
  intros H. apply isnumeric_inv in H. destruct H as [H _].
  unfold field_str. destruct (digits f); [congruence|discriminate].
Qed.

Lemma field_str_percent (f : field) :
  field_ok f -> Py.contains "%" (field_str f) = percent f.
Proof.
  intros H. apply isnumeric_inv in H. destruct H as [_ H].
  unfold field_str. rewrite contains_app.
  rewrite (all_chars_without Py.isdigit "%" _ eq_refl H).
  now destruct (percent f).
Qed.


(** ** White space *)

Lemma lstrip_space (w s : string) :
  Py.all_chars Py.isspace w = true -> Py.lstrip (w ++ s) = Py.lstrip s.
Proof.
  induction w as [|x w IH]; cbn; [reflexivity|].
  rewrite andb_true_iff. intros [Hx Hw]. rewrite Hx. now apply IH.
Qed.

Lemma lstrip_nonspace (s : string) :
  Py.all_chars nonspace s = true -> Py.lstrip s = s.
Proof.
  destruct s as [|x s]; cbn; [reflexivity|].
  rewrite andb_true_iff. unfold nonspace at 1. intros [Hx _].
  apply negb_true_iff in Hx. now rewrite Hx.
Qed.

Lemma rstrip_space (w : string) :
  Py.all_chars Py.isspace w = true -> Py.rstrip w = EmptyString.
Proof.
  induction w as [|x w IH]; cbn; [reflexivity|].
  rewrite andb_true_iff. intros [Hx Hw]. now rewrite (IH Hw), Hx.
Qed.

Lemma rstrip_app_space (s w : string) :
  Py.all_chars Py.isspace w = true -> Py.rstrip (s ++ w) = Py.rstrip s.
Proof.
  intros Hw. induction s as [|x s IH]; cbn.
  - now apply rstrip_space.
  - now rewrite IH.
Qed.

Lemma rstrip_nonspace (s : string) :
  Py.all_chars nonspace s = true -> Py.rstrip s = s.
Proof.
  induction s as [|x s IH]; cbn; [reflexivity|].
  rewrite andb_true_iff. unfold nonspace at 1. intros [Hx Hs].
  apply negb_true_iff in Hx. rewrite (IH Hs), Hx. now destruct s.
Qed.

(** A string of the field characters, with white space around it, strips
    to itself. *)
Lemma strip_around (w1 s w2 : string) :
  Py.all_chars Py.isspace w1 = true ->
  Py.all_chars nonspace s = true ->
  Py.all_chars Py.isspace w2 = true ->
  Py.strip (w1 ++ s ++ w2) = s.
Proof.
  intros H1 Hs H2. unfold Py.strip. rewrite (lstrip_space _ _ H1).
  destruct s as [|x s].
  - cbn [append]. rewrite <- (append_nil_r w2). now rewrite (lstrip_space _ _ H2).
  - assert (Hl : Py.lstrip (String x s ++ w2) = String x s ++ w2).
    { cbn. cbn in Hs. apply andb_true_iff in Hs. destruct Hs as [Hx _].
      unfold nonspace in Hx. apply negb_true_iff in Hx. now rewrite Hx. }
    rewrite Hl, (rstrip_app_space _ _ H2). now apply rstrip_nonspace.
Qed.

(** ** Integers and floats written in digits *)

Lemma int_digits_decimal (s : string) :
  Py.all_chars Py.isdigit s = true ->
  forall acc after_digit,
    s <> EmptyString \/ after_digit = true ->
    Py.int_digits acc after_digit s = Some (decimal_from acc s).
Proof.
  induction s as [|x s IH]; intros Hs acc after_digit Hne.
  - destruct Hne as [Hne| ->]; [congruence|reflexivity].
  - cbn in Hs. apply andb_true_iff in Hs. destruct Hs as [Hx Hs].
    cbn [Py.int_digits decimal_from]. rewrite Hx. apply IH; [exact Hs|now right].
Qed.

Lemma strip_digits (s : string) :
  Py.all_chars Py.isdigit s = true -> Py.strip s = s.
Proof.
  intros H. rewrite <- (append_nil_r s) at 1.
  change (s ++ EmptyString) with (EmptyString ++ s ++ EmptyString).
  apply strip_around; try reflexivity.
  apply (all_chars_weaken Py.isdigit); [|exact H].
  intros c Hc. now apply field_char_nonspace, digit_field_char.
Qed.

Lemma int_literal_digits (s : string) :
  Py.isnumeric s = true -> Py.int_literal s = Some (false, decimal s).
Proof.
  intros H. apply isnumeric_inv in H. destruct H as [Hne Hs].
  unfold Py.int_literal. rewrite (strip_digits _ Hs).
  pose proof (int_digits_decimal s Hs 0 false (or_introl Hne)) as Hd.
  destruct s as [|x s]; [congruence|].
  cbn in Hs. apply andb_true_iff in Hs. destruct Hs as [Hx _].
  destruct x as [[] [] [] [] [] [] [] []]; try discriminate Hx;
    rewrite Hd; reflexivity.
Qed.

Lemma int_digits_value (s : string) :
  Py.isnumeric s = true -> Py.int s = Return (decimal s).
Proof. intros H. unfold Py.int. now rewrite (int_literal_digits _ H). Qed.

Lemma float_digits (W : World) (s : string) :
  Py.isnumeric s = true -> float W s = Return (Py.float_of_Z (decimal s)).
Proof.
  intros H. unfold float. rewrite (int_literal_digits _ H).
  now destruct (decimal s).
Qed.

Lemma format_size_1d_percent (W : World) (n : string) (size : Z) :
  Py.isnumeric n = true ->
  format_size_1d W (n ++ "%") size = percent_of (decimal n) size.
Proof.
  intros H. unfold format_size_1d.
  rewrite contains_app. cbn [Py.contains Ascii.eqb Bool.eqb orb]. rewrite orb_true_r.
  destruct (isnumeric_inv _ H) as [_ Hd].
  change (n ++ "%") with (n ++ String "%" EmptyString).
  rewrite (split_app "%" n EmptyString (all_chars_without Py.isdigit "%" _ eq_refl Hd)).
  cbn [item nth]. rewrite (float_digits W _ H). reflexivity.
Qed.

Lemma format_size_1d_digits (W : World) (n : string) (size : Z) :
  Py.isnumeric n = true -> format_size_1d W n size = Return (decimal n).
Proof.
  intros H. unfold format_size_1d.
  destruct (isnumeric_inv _ H) as [_ Hd].
  rewrite (all_chars_without Py.isdigit "%" _ eq_refl Hd).
  now apply int_digits_value.
Qed.

Lemma format_size_1d_field (W : World) (f : field) (size : Z) :
  field_ok f -> format_size_1d W (field_str f) size = resolve f size.
Proof.
  intros H. unfold field_str, resolve. destruct (percent f).
  - now apply format_size_1d_percent.
  - rewrite append_nil_r. now apply format_size_1d_digits.
Qed.

(** ** Regular expressions: the matcher decides the language *)

Lemma append_eq_nil (a b : string) : a ++ b = EmptyString -> a = EmptyString /\ b = EmptyString.
Proof. destruct a; cbn; [now split|discriminate]. Qed.

Lemma nullable_lang (r : regex) : nullable r = true <-> lang r EmptyString.
Proof.
  split.
  - induction r; cbn; intros H; try discriminate H.
    + constructor.
    + apply andb_true_iff in H. destruct H as [H1 H2].
      change EmptyString with (EmptyString ++ EmptyString). constructor; auto.
    + apply orb_true_iff in H. destruct H as [H|H];
        [apply lang_alt_l|apply lang_alt_r]; auto.
    + constructor.
  - intros H. remember EmptyString as s eqn:E. induction H; cbn; try reflexivity;
      try discriminate E.
    + apply append_eq_nil in E. destruct E as [-> ->].
      rewrite IHlang1, IHlang2; reflexivity.
    + rewrite IHlang; [reflexivity|exact E].
    + rewrite IHlang; [apply orb_true_r|exact E].
Qed.

Lemma deriv_sound (c : ascii) (r : regex) (s : string) :
  lang (deriv c r) s -> lang r (String c s).
Proof.
  revert s. induction r as [| |p|r1 IH1 r2 IH2|r1 IH1 r2 IH2|r1 IH1];
    intros s H; cbn in H.
  - inversion H.
  - inversion H.
  - destruct (p c) eqn:E; inversion H; subst. now constructor.
  - destruct (nullable r1) eqn:N.
    + inversion H as [| | | ? ? ? H1 | ? ? ? H1 | |]; subst.
      * inversion H1; subst.
        change (String c (s1 ++ s2)) with (String c s1 ++ s2). constructor; auto.
      * change (String c s) with (EmptyString ++ String c s). constructor; auto.
        now apply nullable_lang.
    + inversion H; subst.
      change (String c (s1 ++ s2)) with (String c s1 ++ s2). constructor; auto.
  - inversion H; subst; [apply lang_alt_l|apply lang_alt_r]; auto.
  - inversion H; subst.
    change (String c (s1 ++ s2)) with (String c s1 ++ s2). constructor; auto.
Qed.

Lemma deriv_complete (c : ascii) (r : regex) (s : string) :
  lang r (String c s) -> lang (deriv c r) s.
Proof.
  intros H. remember (String c s) as s0 eqn:E. revert c s E.
  induction H as [|p x Hp|r1 r2 s1 s2 H1 IH1 H2 IH2|r1 r2 s0 H IH|r1 r2 s0 H IH
                  |r|r s1 s2 H1 IH1 H2 IH2];
    intros c s E; cbn [deriv].
  - discriminate E.
  - inversion E; subst. rewrite Hp. constructor.
  - destruct s1 as [|y s1]; cbn in E.
    + subst s2. apply nullable_lang in H1. rewrite H1. apply lang_alt_r. now apply IH2.
    + inversion E; subst.
      assert (lang (Cat (deriv c r1) r2) (s1 ++ s2)) by (constructor; auto).
      destruct (nullable r1); [now apply lang_alt_l|assumption].
  - apply lang_alt_l. now apply IH.
  - apply lang_alt_r. now apply IH.
  - discriminate E.
  - destruct s1 as [|y s1]; cbn in E.
    + now apply IH2.
    + inversion E; subst. constructor; auto.
Qed.

Lemma fullmatch_lang (r : regex) (s : string) : fullmatch r s = true <-> lang r s.
Proof.
  revert r. induction s as [|c s IH]; intros r; cbn [fullmatch].
  - apply nullable_lang.
  - rewrite IH. split; [apply deriv_sound|apply deriv_complete].
Qed.

(** Every string of a pattern is made of the characters of its classes. *)
Lemma lang_chars (q : ascii -> bool) (r : regex) (s : string) :
  classes_within q r -> lang r s -> Py.all_chars q s = true.
Proof.
  intros Hq H. induction H; cbn in Hq |- *; try reflexivity.
  - rewrite (Hq c H). reflexivity.
  - destruct Hq as [Hq1 Hq2]. rewrite all_chars_app, IHlang1, IHlang2; auto.
  - destruct Hq as [Hq1 Hq2]. auto.
  - destruct Hq as [Hq1 Hq2]. auto.
  - rewrite all_chars_app, IHlang1, IHlang2; auto.
Qed.




(** ** The pieces of the two patterns *)

Lemma lang_class_inv (p : ascii -> bool) (s : string) :
  lang (Class p) s -> exists c, s = String c EmptyString /\ p c = true.
Proof. intros H. inversion H; subst. eauto. Qed.

Lemma lang_chr (c : ascii) (s : string) : lang (Chr c) s <-> s = String c EmptyString.
Proof.
  split.
  - intros H. apply lang_class_inv in H. destruct H as [x [-> Hx]].
    apply Ascii.eqb_eq in Hx. now subst.
  - intros ->. constructor. apply Ascii.eqb_refl.
Qed.

Lemma lang_star_class (p : ascii -> bool) (s : string) :
  lang (Star (Class p)) s <-> Py.all_chars p s = true.
Proof.
  split.
  - intros H. apply (lang_chars p) in H; [exact H|]. cbn. auto.
  - induction s as [|c s IH]; cbn; intros H; [constructor|].
    apply andb_true_iff in H. destruct H as [Hc Hs].
    change (String c s) with (String c EmptyString ++ s).
    constructor; [now constructor|now apply IH].
Qed.

Lemma lang_plus_digits (s : string) : lang (Plus d) s <-> Py.isnumeric s = true.
Proof.
  unfold Plus, d. split.
  - intros H. inversion H as [| |? ? s1 s2 H1 H2| | | |]; subst.
    apply lang_class_inv in H1. destruct H1 as [c [-> Hc]].
    apply lang_star_class in H2. cbn. now rewrite Hc, H2.
  - intros H. destruct s as [|c s]; [discriminate|].
    cbn in H. apply andb_true_iff in H. destruct H as [Hc Hs].
    change (String c s) with (String c EmptyString ++ s).
    constructor; [now constructor|now apply lang_star_class].
Qed.

Lemma lang_opt_percent (s : string) :
  lang (Opt (Chr "%")) s <-> s = EmptyString \/ s = "%".
Proof.
  unfold Opt. split.
  - intros H. inversion H; subst.
    + right. now apply lang_chr.
    + left. match goal with H0 : lang Eps _ |- _ => now inversion H0 end.
  - intros [->| ->]; [apply lang_alt_r; constructor|apply lang_alt_l; now apply lang_chr].
Qed.

(** [\d+%?] is the pattern of a field. *)
Lemma lang_field (s : string) :
  lang (Cat (Plus d) (Opt (Chr "%"))) s <-> exists f, field_ok f /\ s = field_str f.
Proof.
  split.
  - intros H. inversion H as [| |? ? s1 s2 H1 H2| | | |]; subst.
    apply lang_plus_digits in H1. apply lang_opt_percent in H2.
    destruct H2 as [->| ->].
    + exists (mkField s1 false). split; [exact H1|reflexivity].
    + exists (mkField s1 true). split; [exact H1|reflexivity].
  - intros [f [Hf ->]]. unfold field_str. constructor.
    + now apply lang_plus_digits.
    + apply lang_opt_percent. destruct (percent f); auto.
Qed.

(** ** The resize pattern *)




(** ** Resizing *)

Section Resize.
Variable W : World.
Variable o : Options.








End Resize.







(** The examples of the specification: [50%] on an image of 200x100
    asks for 100x50; [30%>200x200] on an image of 150x150 resizes nothing
    and logs the skip notice. *)
Example resize_fifty_percent :
  target (Percentage "50") (mkImage "input/e.png" "PNG" 200 100 "RGB" []) = Return (100, 50).
Proof. reflexivity. Qed.

Example resize_thirty_percent_skipped :
  func_transform_resize (Sample.world [] [] true)
    (Sample.options (Some "30%>200x200") None None None false false false false false)
    Sample.gif Sample.fresh
  = (Return Sample.gif,
     logged "[INFO] Image dimension(s) less than 200x200. Skipping." Sample.fresh).
Proof. reflexivity. Qed.

(** ** Cropping *)



Lemma space_no_comma (w : string) :
  Py.all_chars Py.isspace w = true -> Py.contains "," w = false.
Proof. apply all_chars_without. reflexivity. Qed.

Lemma field_no_comma (f : field) :
  field_ok f -> Py.contains "," (field_str f) = false.
Proof.
  intros H. apply (all_chars_without field_char); [reflexivity|].
  now apply field_str_chars.
Qed.

Lemma strip_field (w : string) (f : field) (tail : string) :
  field_ok f ->
  Py.all_chars Py.isspace w = true -> Py.all_chars Py.isspace tail = true ->
  Py.strip (w ++ field_str f ++ tail) = field_str f.
Proof.
  intros Hf Hw Ht. apply strip_around; try assumption.
  apply (all_chars_weaken field_char); [exact field_char_nonspace|].
  now apply field_str_chars.
Qed.

(** The fields of a crop entry, as [func_transform_crop] cuts them out. *)
Lemma crop_str_fields (f1 : field) (w2 : string) (f2 : field) (w3 : string) (f3 : field)
    (w4 : string) (f4 : field) (tail : string) :
  field_ok f1 -> field_ok f2 -> field_ok f3 -> field_ok f4 ->
  Py.all_chars Py.isspace w2 = true ->
  Py.all_chars Py.isspace w3 = true ->
  Py.all_chars Py.isspace w4 = true ->
  tail = EmptyString \/ tail = newline ->
  map Py.strip (Py.split "," (crop_str f1 w2 f2 w3 f3 w4 f4 tail))
  = [field_str f1; field_str f2; field_str f3; field_str f4].
Proof.
  intros Hf1 Hf2 Hf3 Hf4 Hw2 Hw3 Hw4 Htail.
  assert (Ht : Py.all_chars Py.isspace tail = true) by (destruct Htail; now subst).
  assert (Hp : forall w f, Py.all_chars Py.isspace w = true -> field_ok f ->
                 Py.contains "," (w ++ field_str f) = false).
  { intros w f Hw Hf. now rewrite contains_app, space_no_comma, field_no_comma. }
  unfold crop_str.
  change (field_str f1 ++ "," ++ ?r) with (field_str f1 ++ String "," r).
  rewrite (split_app "," _ _ (field_no_comma f1 Hf1)).
  rewrite <- (append_assoc w2).
  change ((w2 ++ field_str f2) ++ "," ++ ?r) with ((w2 ++ field_str f2) ++ String "," r).
  rewrite (split_app "," _ _ (Hp w2 f2 Hw2 Hf2)).
  rewrite <- (append_assoc w3).
  change ((w3 ++ field_str f3) ++ "," ++ ?r) with ((w3 ++ field_str f3) ++ String "," r).
  rewrite (split_app "," _ _ (Hp w3 f3 Hw3 Hf3)).
  rewrite split_without.
  2:{ rewrite !contains_app, space_no_comma, field_no_comma, space_no_comma by assumption.
      reflexivity. }
  cbn [map].
  rewrite <- (append_nil_r (field_str f1)) at 1.
  change (field_str f1 ++ EmptyString) with (EmptyString ++ field_str f1 ++ EmptyString).
  rewrite (strip_field EmptyString f1 EmptyString Hf1 eq_refl eq_refl).
  rewrite <- (append_nil_r (field_str f2)) at 1.
  rewrite (strip_field w2 f2 EmptyString Hf2 Hw2 eq_refl).
  rewrite <- (append_nil_r (field_str f3)) at 1.
  rewrite (strip_field w3 f3 EmptyString Hf3 Hw3 eq_refl).
  rewrite (strip_field w4 f4 tail Hf4 Hw4 Ht).
  reflexivity.
Qed.

Section Crop.
Variable W : World.

Lemma crop_field_near (f : field) (size : Z) :
  field_ok f ->
  (if Py.contains "%" (field_str f) then format_size_1d W (field_str f) size
   else Py.int (field_str f)) = resolve f size.
Proof.
  intros Hf. rewrite (field_str_percent f Hf). unfold resolve.
  destruct (percent f) eqn:P.
  - rewrite (format_size_1d_field W f size Hf). unfold resolve. now rewrite P.
  - unfold field_str. rewrite P, append_nil_r. now apply int_digits_value.
Qed.

Lemma crop_field_far (f : field) (size : Z) :
  field_ok f ->
  (if Py.contains "%" (field_str f)
   then obind (format_size_1d W (field_str f) size) (fun r => Return (size - r))
   else Py.int (field_str f)) = resolve_far f size.
Proof.
  intros Hf. rewrite (field_str_percent f Hf). unfold resolve_far.
  destruct (percent f) eqn:P.
  - rewrite (format_size_1d_field W f size Hf). unfold resolve. now rewrite P.
  - unfold field_str. rewrite P, append_nil_r. now apply int_digits_value.
Qed.

(** The box of a crop entry is the box of its fields. *)
Lemma crop_box_of_fields (img : Image) (entry : string) (f1 f2 f3 f4 : field) :
  field_ok f1 -> field_ok f2 -> field_ok f3 -> field_ok f4 ->
  map Py.strip (Py.split "," entry)
  = [field_str f1; field_str f2; field_str f3; field_str f4] ->
  crop_box W img entry = box_of f1 f2 f3 f4 img.
Proof.
  intros Hf1 Hf2 Hf3 Hf4 E. unfold crop_box. rewrite E.
  rewrite (crop_field_near f1 _ Hf1), (crop_field_near f2 _ Hf2),
    (crop_field_far f3 _ Hf3), (crop_field_far f4 _ Hf4).
  reflexivity.
Qed.

End Crop.

Lemma crop_box_ok_valid (box : Z * Z * Z * Z) :
  crop_box_ok box = true <-> box_valid box.
Proof.
  destruct box as [[[l u] r] b]. unfold crop_box_ok, box_valid.
  rewrite !andb_true_iff, !negb_true_iff, !Z.ltb_lt, !Z.eqb_neq. tauto.
Qed.




(** The example of the specification: the entry [10%,10%,10%,10%] on an
    image of 100x100 gives the region (10, 10, 90, 90) and an image of
    80x80. *)
Example crop_ten_percent :
  func_transform_crop (Sample.world [] [] true)
    (Sample.options None (Some "10%,10%,10%,10%") None None false false false false false)
    Sample.tga Sample.fresh
  = (Return (Sample.resized Sample.tga (80, 80)),
     logged "[TRANSFORM] Cropped image region (10, 10, 90, 90)." Sample.fresh).
Proof. reflexivity. Qed.

(** The percentage is computed in binary64 and cut off: 29 percent of
    100 are 28. *)
Example percent_of_29 : percent_of 29 100 = Return 28.
Proof. reflexivity. Qed.


(* ===================================================================== *)
(** * Further properties of the program                                  *)
(* ===================================================================== *)

(** ** The two patterns, exactly *)

Lemma chop_newline_app (t : string) : chop_newline (t ++ newline) = Some t.
Proof.
  induction t as [|c t IH]; [reflexivity|].
  cbn [append chop_newline]. rewrite IH.
  destruct t; reflexivity.
Qed.

Lemma re_match_newline (r : regex) (t : string) :
  fullmatch r t = true -> re_match r (t ++ newline) = true.
Proof.
  intros H. unfold re_match. rewrite chop_newline_app, H. apply orb_true_r.
Qed.



Lemma lang_crop_piece_intro (w : string) (f : field) :
  Py.all_chars Py.isspace w = true -> field_ok f ->
  lang (Cat (Chr ",") (Cat (Star s_) (Cat (Plus d) (Opt (Chr "%")))))
       ("," ++ w ++ field_str f).
Proof.
  intros Hw Hf. change ("," ++ w ++ field_str f) with (String "," EmptyString ++ (w ++ field_str f)).
  constructor; [now apply lang_chr|].
  constructor; [now apply lang_star_class|].
  apply lang_field. now exists f.
Qed.

Lemma lang_crop_str (f1 : field) (w2 : string) (f2 : field) (w3 : string) (f3 : field)
    (w4 : string) (f4 : field) :
  field_ok f1 -> field_ok f2 -> field_ok f3 -> field_ok f4 ->
  Py.all_chars Py.isspace w2 = true ->
  Py.all_chars Py.isspace w3 = true ->
  Py.all_chars Py.isspace w4 = true ->
  lang CROP_REGEX (crop_str f1 w2 f2 w3 f3 w4 f4 EmptyString).
Proof.
  intros Hf1 Hf2 Hf3 Hf4 Hw2 Hw3 Hw4.
  unfold CROP_REGEX, crop_str. cbn [Times].
  constructor; [apply lang_field; now exists f1|].
  replace ("," ++ w2 ++ field_str f2 ++ "," ++ w3 ++ field_str f3 ++ ","
           ++ w4 ++ field_str f4 ++ EmptyString)
    with (("," ++ w2 ++ field_str f2)
          ++ (("," ++ w3 ++ field_str f3)
              ++ (("," ++ w4 ++ field_str f4) ++ EmptyString))).
  2:{ rewrite !append_assoc. reflexivity. }
  constructor; [now apply lang_crop_piece_intro|].
  constructor; [now apply lang_crop_piece_intro|].
  constructor; [now apply lang_crop_piece_intro|].
  constructor.
Qed.

Lemma crop_str_tail (f1 : field) (w2 : string) (f2 : field) (w3 : string) (f3 : field)
    (w4 : string) (f4 : field) (tail : string) :
  crop_str f1 w2 f2 w3 f3 w4 f4 tail
  = crop_str f1 w2 f2 w3 f3 w4 f4 EmptyString ++ tail.
Proof.
  unfold crop_str. rewrite !append_assoc. reflexivity.
Qed.

Lemma CROP_REGEX_accepts (f1 : field) (w2 : string) (f2 : field) (w3 : string)
    (f3 : field) (w4 : string) (f4 : field) (tail : string) :
  field_ok f1 -> field_ok f2 -> field_ok f3 -> field_ok f4 ->
  Py.all_chars Py.isspace w2 = true ->
  Py.all_chars Py.isspace w3 = true ->
  Py.all_chars Py.isspace w4 = true ->
  tail = EmptyString \/ tail = newline ->
  re_match CROP_REGEX (crop_str f1 w2 f2 w3 f3 w4 f4 tail) = true.
Proof.
  intros Hf1 Hf2 Hf3 Hf4 Hw2 Hw3 Hw4 Htail.
  pose proof (lang_crop_str f1 w2 f2 w3 f3 w4 f4 Hf1 Hf2 Hf3 Hf4 Hw2 Hw3 Hw4) as L.
  apply fullmatch_lang in L. rewrite crop_str_tail.
  destruct Htail as [->| ->].
  - rewrite append_nil_r. unfold re_match. now rewrite L.
  - now apply re_match_newline.
Qed.




(** ** One log line for every ticked operation *)

Lemma logs_one_line_log_ret {A} (msg : string) (a : A) :
  logs_one_line (insert_log msg ;; ret a).
Proof. intros s x s' H. inversion H. now exists msg. Qed.

Lemma logs_one_line_call {A B} (r : outcome A) (f : A -> M B) :
  (forall a, logs_one_line (f a)) -> logs_one_line (a <- call r ;; f a).
Proof.
  intros Hf s x s' H. unfold bind, call in H. destruct r as [a|e].
  - now apply (Hf a s x s').
  - discriminate H.
Qed.

Ltac logs_one_line :=
  repeat first
    [ apply logs_one_line_log_ret
    | apply logs_one_line_call; intros ?
    | match goal with
      | |- logs_one_line (if ?b then _ else _) => destruct b
      | |- logs_one_line (match ?x with _ => _ end) => destruct x
      end ].

Lemma logs_one_line_on_image (func : Image -> M Image) (v : carried) :
  logs_one_line (func (fst v)) -> logs_one_line (on_image func v).
Proof.
  intros H s x s' E. unfold on_image, bind in E.
  destruct (func (fst v) s) as [[img|e] s0] eqn:F; [|discriminate E].
  inversion E; subst. now apply (H s img s').
Qed.

Lemma logs_one_line_transform_of (W : World) (o : Options) (op : operation) (v : carried) :
  logs_one_line (transform_of W o op v).
Proof.
  destruct op; cbn [transform_of];
    try (apply logs_one_line_on_image;
         unfold func_transform_resize, resize_bounded, resize_apply,
           func_transform_transpose, func_transform_crop,
           func_transform_scale, func_transform_expand, func_transform_flip,
           func_transform_mirror, func_transform_equalize,
           func_transform_grayscale, func_transform_invert,
           func_transform_posterize, func_transform_solarize,
           func_transform_blur, func_transform_contour, func_transform_detail,
           func_transform_edge_enhance, func_transform_edge_enhance_more,
           func_transform_emboss, func_transform_find_edges,
           func_transform_sharpen, func_transform_smooth,
           func_transform_smooth_more, func_transform_color,
           func_transform_contrast, func_transform_brightness,
           func_transform_sharpness, func_advanced_convert_mode,
           enhance, apply_and_log;
         logs_one_line).
  intros s x s' E. inversion E. eexists. reflexivity.
Qed.

(** X3. Every transform function, on every path on which it returns, has
    added exactly one line to the log and changed nothing else; on every
    path on which it raises, it has changed nothing at all. *)
Theorem transform_logs_one_line :
  forall (W : World) (o : Options) (op : operation) (v : carried) (s s' : State),
    (forall v', transform_of W o op v s = (Return v', s') ->
                exists line, s' = logged line s)
    /\ (forall e, transform_of W o op v s = (Raise e, s') -> s' = s).
Proof.
  intros W o op v s s'. split.
  - intros v' H. now apply (logs_one_line_transform_of W o op v s v' s').
  - intros e H. now apply (raises_clean_transform_of W o op v s e s').
Qed.

(** The theorem above, at two entries of the crop box of the sample
    world: one that is cropped and one that overflows. *)
Lemma transform_logs_one_line_witness :
  let W := Sample.world [] [] true in
  (exists line,
      logged "[TRANSFORM] Cropped image region (10, 10, 90, 90)." Sample.fresh
      = logged line Sample.fresh)
  /\ Sample.fresh = Sample.fresh.
Proof.
  intros W. split.
  - apply (proj1 (transform_logs_one_line W
                    (Sample.options None (Some "10%,10%,10%,10%") None None
                       false false false false false)
                    op_crop (Sample.tga, ".tga") Sample.fresh
                    (logged "[TRANSFORM] Cropped image region (10, 10, 90, 90)."
                            Sample.fresh))
                 (Sample.resized Sample.tga (80, 80), ".tga")).
    reflexivity.
  - apply (proj2 (transform_logs_one_line W
                    (Sample.options None (Some (Sample.nines ++ "%,0,10,10")) None None
                       false false false false false)
                    op_crop (Sample.tga, ".tga") Sample.fresh Sample.fresh)
                 "cannot convert float infinity to integer").
    vm_compute. reflexivity.
Defined.





Section Lines.
Variable W : World.
Variable o : Options.



End Lines.



(** X5. With no operation ticked and the statistics off, [process] hands
    back the image it was given, under the name and the extension of its
    file, with no statistics, after its two log lines and nothing else. *)
Theorem process_with_nothing_ticked :
  forall (W : World) (o : Options) (img : Image) (s : State),
    (forall op, enabled o op = false) ->
    advanced_stats o = false ->
    process W o img s
    = (Return (img, fst (os_path.splitext (os_path.basename (filename img))),
               snd (os_path.splitext (filename img)), EmptyString),
       logged ("[FILE] Successfully processed " ++ os_path.basename (filename img) ++ ".")
              (announced img s)).
Proof.
  intros W o img s Hoff Hstats. rewrite process_eq_in_order.
  unfold process_in_order. unfold bind at 1. cbn [insert_log]. unfold bind at 1.
  assert (R : forall ops v s0, run_ops W o ops v s0 = (Return v, s0)).
  { induction ops as [|op ops IH]; intros v s0; [reflexivity|].
    cbn [run_ops]. unfold bind. rewrite (consult_disabled W o op v s0 (Hoff op)).
    apply IH. }
  rewrite R. unfold statistics. rewrite Hstats. reflexivity.
Qed.

(** The theorem above, at the start-up options. *)
Lemma process_with_nothing_ticked_witness :
  process (Sample.world [] [] true) Sample.startup Sample.png Sample.fresh
  = (Return (Sample.png, "a", ".png", EmptyString),
     logged "[FILE] Successfully processed a.png." (announced Sample.png Sample.fresh)).
Proof.
  apply (process_with_nothing_ticked (Sample.world [] [] true) Sample.startup
           Sample.png Sample.fresh).
  - intros op. destruct op; reflexivity.
  - reflexivity.
Defined.

(** ** Paths *)

Lemma length_append (a b : string) :
  String.length (a ++ b) = (String.length a + String.length b)%nat.
Proof. induction a as [|x a IH]; cbn; [reflexivity|now rewrite IH]. Qed.

Lemma substring_all (s : string) : String.substring 0 (String.length s) s = s.
Proof. induction s as [|x s IH]; cbn; [reflexivity|now rewrite IH]. Qed.

Lemma substring_prefix (a b : string) :
  String.substring 0 (String.length a) (a ++ b) = a.
Proof.
  induction a as [|x a IH]; cbn; [now destruct b|now rewrite IH].
Qed.

Lemma substring_skip (a b : string) (n m : nat) :
  String.substring (String.length a + n) m (a ++ b) = String.substring n m b.
Proof. induction a as [|x a IH]; cbn; [reflexivity|exact IH]. Qed.

Lemma slice_from_app (a b : string) :
  os_path.slice_from (a ++ b) (Z.of_nat (String.length a)) = b.
Proof.
  unfold os_path.slice_from, os_path.slice. rewrite Nat2Z.id, length_append.
  replace (Z.to_nat (Z.of_nat (String.length a + String.length b)
                     - Z.of_nat (String.length a)))
    with (String.length b) by lia.
  rewrite <- (Nat.add_0_r (String.length a)) at 1.
  rewrite substring_skip. apply substring_all.
Qed.

Lemma slice_prefix (a b : string) :
  os_path.slice (a ++ b) 0 (Z.of_nat (String.length a)) = a.
Proof.
  unfold os_path.slice. rewrite Z.sub_0_r, Nat2Z.id. apply substring_prefix.
Qed.

Lemma slice_middle (a m b : string) :
  os_path.slice (a ++ m ++ b) (Z.of_nat (String.length a))
                (Z.of_nat (String.length a) + Z.of_nat (String.length m)) = m.
Proof.
  unfold os_path.slice. rewrite Nat2Z.id.
  replace (Z.to_nat (Z.of_nat (String.length a) + Z.of_nat (String.length m)
                     - Z.of_nat (String.length a)))
    with (String.length m) by lia.
  rewrite <- (Nat.add_0_r (String.length a)) at 1.
  rewrite substring_skip. apply substring_prefix.
Qed.

Lemma rfind_from_none (c : ascii) (s : string) (i : Z) :
  Py.contains c s = false -> os_path.rfind_from c i s = -1.
Proof.
  revert i. induction s as [|x s IH]; intros i; cbn; [reflexivity|].
  rewrite orb_false_iff. intros [Hx Hs]. now rewrite (IH _ Hs), Hx.
Qed.

Lemma rfind_from_last (c : ascii) (a b : string) (i : Z) :
  0 <= i -> Py.contains c b = false ->
  os_path.rfind_from c i (a ++ String c b) = i + Z.of_nat (String.length a).
Proof.
  intros Hi Hb. revert i Hi. induction a as [|x a IH]; intros i Hi.
  - cbn. rewrite (rfind_from_none c b _ Hb), Ascii.eqb_refl. cbn. lia.
  - cbn [append os_path.rfind_from]. rewrite IH by lia.
    destruct (i + 1 + Z.of_nat (String.length a) >=? 0) eqn:E.
    + cbn [String.length]. lia.
    + rewrite Z.geb_leb in E. apply Z.leb_gt in E. lia.
Qed.

Lemma rfind_last (c : ascii) (a b : string) :
  Py.contains c b = false ->
  os_path.rfind c (a ++ String c b) = Z.of_nat (String.length a).
Proof. intros H. unfold os_path.rfind. now rewrite rfind_from_last. Qed.

Lemma rfind_none (c : ascii) (s : string) :
  Py.contains c s = false -> os_path.rfind c s = -1.
Proof. apply rfind_from_none. Qed.

(** A string that holds [c] splits at its last [c]. *)
Lemma contains_last (c : ascii) (s : string) :
  Py.contains c s = true ->
  exists a b, s = a ++ String c b /\ Py.contains c b = false.
Proof.
  induction s as [|x s IH]; cbn; [discriminate|].
  destruct (Py.contains c s) eqn:Hs.
  - intros _. destruct (IH eq_refl) as [a [b [-> Hb]]].
    now exists (String x a), b.
  - rewrite orb_false_r. intros Hx. apply Ascii.eqb_eq in Hx. subst x.
    now exists EmptyString, s.
Qed.

Lemma basename_plain (p : string) :
  Py.contains "/" p = false -> os_path.basename p = p.
Proof.
  intros H. unfold os_path.basename. rewrite (rfind_none _ _ H).
  exact (slice_from_app EmptyString p).
Qed.

Lemma basename_dir (a b : string) :
  Py.contains "/" b = false -> os_path.basename (a ++ String "/" b) = b.
Proof.
  intros H. unfold os_path.basename. rewrite (rfind_last _ a b H).
  change (a ++ String "/" b) with (a ++ "/" ++ b). rewrite <- append_assoc.
  replace (Z.of_nat (String.length a) + 1)
    with (Z.of_nat (String.length (a ++ "/"))).
  - apply slice_from_app.
  - rewrite length_append. cbn [String.length]. lia.
Qed.

(** The base name of a path holds no separator. *)
Lemma basename_has_no_separator :
  forall p : string, Py.contains "/" (os_path.basename p) = false.
Proof.
  intros p. destruct (Py.contains "/" p) eqn:H.
  - destruct (contains_last _ _ H) as [a [b [-> Hb]]]. now rewrite basename_dir.
  - now rewrite basename_plain.
Qed.

(** [splitext] on one component: no separator in it. *)
Lemma splitext_plain_no_dot (b : string) :
  Py.contains "/" b = false -> Py.contains "." b = false ->
  os_path.splitext b = (b, EmptyString).
Proof.
  intros Hs Hd. unfold os_path.splitext; cbv zeta.
  now rewrite (rfind_none _ _ Hs), (rfind_none _ _ Hd).
Qed.

Lemma splitext_plain_dot (r e : string) :
  Py.contains "/" (r ++ String "." e) = false -> Py.contains "." e = false ->
  os_path.splitext (r ++ String "." e)
  = if Py.all_chars (Ascii.eqb ".") r then (r ++ String "." e, EmptyString)
    else (r, String "." e).
Proof.
  intros Hs Hd. unfold os_path.splitext; cbv zeta.
  rewrite (rfind_none _ _ Hs), (rfind_last _ r e Hd).
  replace (Z.of_nat (String.length r) >? -1) with true
    by (symmetry; rewrite Z.gtb_ltb; apply Z.ltb_lt; lia).
  cbn [andb]. change (-1 + 1) with 0.
  rewrite slice_prefix.
  destruct (Py.all_chars (Ascii.eqb ".") r); cbn [negb]; [reflexivity|].
  now rewrite slice_from_app.
Qed.

(** [splitext] looks at the last component only. *)
Lemma splitext_dir (a b : string) :
  Py.contains "/" b = false ->
  os_path.splitext (a ++ String "/" b)
  = (a ++ String "/" (fst (os_path.splitext b)), snd (os_path.splitext b)).
Proof.
  intros Hs. destruct (Py.contains "." b) eqn:Hd.
  - destruct (contains_last _ _ Hd) as [r [e [-> He]]].
    rewrite (splitext_plain_dot r e Hs He).
    unfold os_path.splitext; cbv zeta. rewrite (rfind_last "/" a _ Hs).
    replace (a ++ String "/" (r ++ String "." e))
      with ((a ++ String "/" r) ++ String "." e)
      by (rewrite append_assoc; reflexivity).
    rewrite (rfind_last "." _ e He).
    rewrite length_append. cbn [String.length].
    replace (Z.of_nat (String.length a + S (String.length r)) >? Z.of_nat (String.length a))
      with true by (symmetry; rewrite Z.gtb_ltb; apply Z.ltb_lt; lia).
    cbn [andb].
    assert (Hmid : os_path.slice ((a ++ String "/" r) ++ String "." e)
                     (Z.of_nat (String.length a) + 1)
                     (Z.of_nat (String.length a + S (String.length r))) = r).
    { replace ((a ++ String "/" r) ++ String "." e)
        with ((a ++ "/") ++ r ++ String "." e)
        by (rewrite !append_assoc; reflexivity).
      replace (Z.of_nat (String.length a) + 1)
        with (Z.of_nat (String.length (a ++ "/")))
        by (rewrite length_append; cbn [String.length]; lia).
      replace (Z.of_nat (String.length a + S (String.length r)))
        with (Z.of_nat (String.length (a ++ "/")) + Z.of_nat (String.length r))
        by (rewrite length_append; cbn [String.length]; lia).
      apply slice_middle. }
    rewrite Hmid.
    destruct (Py.all_chars (Ascii.eqb ".") r); cbn [negb fst snd];
      [rewrite append_assoc; reflexivity|].
    replace (Z.of_nat (String.length a + S (String.length r)))
      with (Z.of_nat (String.length (a ++ String "/" r)))
      by (rewrite length_append; reflexivity).
    now rewrite slice_prefix, slice_from_app.
  - rewrite (splitext_plain_no_dot b Hs Hd). cbn [fst snd].
    unfold os_path.splitext; cbv zeta. rewrite (rfind_last "/" a _ Hs).
    assert (Hdot : os_path.rfind "." (a ++ String "/" b) < Z.of_nat (String.length a)).
    { destruct (Py.contains "." a) eqn:Ha.
      - destruct (contains_last _ _ Ha) as [a1 [a2 [-> Ha2]]].
        rewrite append_assoc. cbn [append].
        rewrite rfind_last.
        + rewrite length_append. cbn [String.length]. lia.
        + rewrite contains_app, Ha2. cbn. exact Hd.
      - rewrite rfind_none; [lia|].
        rewrite contains_app, Ha. cbn. exact Hd. }
    replace (os_path.rfind "." (a ++ String "/" b) >? Z.of_nat (String.length a))
      with false by (symmetry; rewrite Z.gtb_ltb; apply Z.ltb_ge; lia).
    reflexivity.
Qed.

(** [splitext] cuts a path in two: the root and the extension put
    together again are the path. *)
Lemma splitext_cuts_in_two :
  forall p : string,
    fst (os_path.splitext p) ++ snd (os_path.splitext p) = p.
Proof.
  assert (Hplain : forall b, Py.contains "/" b = false ->
            fst (os_path.splitext b) ++ snd (os_path.splitext b) = b).
  { intros b Hs. destruct (Py.contains "." b) eqn:Hd.
    - destruct (contains_last _ _ Hd) as [r [e [-> He]]].
      rewrite (splitext_plain_dot r e Hs He).
      destruct (Py.all_chars (Ascii.eqb ".") r); cbn [fst snd];
        [apply append_nil_r|reflexivity].
    - rewrite (splitext_plain_no_dot b Hs Hd). apply append_nil_r. }
  intros p. destruct (Py.contains "/" p) eqn:H.
  - destruct (contains_last _ _ H) as [a [b [-> Hb]]].
    rewrite (splitext_dir a b Hb). cbn [fst snd].
    rewrite append_assoc. cbn [append]. now rewrite (Hplain b Hb).
  - now apply Hplain.
Qed.

(** The root of the base name and the extension of the whole path, put
    together, are the base name. *)
Lemma root_and_extension_of_basename (p : string) :
  fst (os_path.splitext (os_path.basename p)) ++ snd (os_path.splitext p)
  = os_path.basename p.
Proof.
  destruct (Py.contains "/" p) eqn:H.
  - destruct (contains_last _ _ H) as [a [b [-> Hb]]].
    rewrite (basename_dir a b Hb), (splitext_dir a b Hb). cbn [snd].
    destruct (Py.contains "." b) eqn:Hd.
    + destruct (contains_last _ _ Hd) as [r [e [-> He]]].
      rewrite (splitext_plain_dot r e Hb He).
      destruct (Py.all_chars (Ascii.eqb ".") r); cbn [fst snd];
        [apply append_nil_r|reflexivity].
    + rewrite (splitext_plain_no_dot b Hb Hd). apply append_nil_r.
  - rewrite (basename_plain p H).
    destruct (Py.contains "." p) eqn:Hd.
    + destruct (contains_last _ _ Hd) as [r [e [-> He]]].
      rewrite (splitext_plain_dot r e H He).
      destruct (Py.all_chars (Ascii.eqb ".") r); cbn [fst snd];
        [apply append_nil_r|reflexivity].
    + rewrite (splitext_plain_no_dot p H Hd). apply append_nil_r.
Qed.

(** The extension [splitext] returns is empty, or it is a dot followed
    by characters that are neither a dot nor a separator. *)
Lemma splitext_extension_shape :
  forall p : string,
    snd (os_path.splitext p) = EmptyString
    \/ exists e, snd (os_path.splitext p) = String "." e
                 /\ Py.contains "." e = false /\ Py.contains "/" e = false.
Proof.
  assert (Hplain : forall b, Py.contains "/" b = false ->
            snd (os_path.splitext b) = EmptyString
            \/ exists e, snd (os_path.splitext b) = String "." e
                         /\ Py.contains "." e = false /\ Py.contains "/" e = false).
  { intros b Hs. destruct (Py.contains "." b) eqn:Hd.
    - destruct (contains_last _ _ Hd) as [r [e [-> He]]].
      rewrite (splitext_plain_dot r e Hs He).
      destruct (Py.all_chars (Ascii.eqb ".") r); cbn [fst snd]; [now left|].
      right. exists e. repeat split; [exact He|].
      rewrite contains_app in Hs. apply orb_false_iff in Hs.
      destruct Hs as [_ Hs]. cbn in Hs. exact Hs.
    - rewrite (splitext_plain_no_dot b Hs Hd). now left. }
  intros p. destruct (Py.contains "/" p) eqn:H.
  - destruct (contains_last _ _ H) as [a [b [-> Hb]]].
    rewrite (splitext_dir a b Hb). cbn [snd]. now apply Hplain.
  - now apply Hplain.
Qed.

(** ** The names compared before a batch *)

Lemma lower_char_keeps_separator (x : ascii) :
  Ascii.eqb (Py.lower_char x) "/" = Ascii.eqb x "/".
Proof. destruct x as [[] [] [] [] [] [] [] []]; reflexivity. Qed.

Lemma lower_char_keeps_dot (x : ascii) :
  Ascii.eqb (Py.lower_char x) "." = Ascii.eqb x ".".
Proof. destruct x as [[] [] [] [] [] [] [] []]; reflexivity. Qed.

Lemma rfind_from_lower (c : ascii) (s : string) (i : Z) :
  (forall x, Ascii.eqb (Py.lower_char x) c = Ascii.eqb x c) ->
  os_path.rfind_from c i (Py.lower s) = os_path.rfind_from c i s.
Proof.
  intros Hc. revert i. induction s as [|x s IH]; intros i; cbn; [reflexivity|].
  now rewrite IH, Hc.
Qed.

Lemma length_lower (s : string) : String.length (Py.lower s) = String.length s.
Proof. induction s as [|x s IH]; cbn; [reflexivity|now rewrite IH]. Qed.

Lemma substring_lower (s : string) (n m : nat) :
  String.substring n m (Py.lower s) = Py.lower (String.substring n m s).
Proof.
  revert n m. induction s as [|x s IH]; intros [|n] [|m]; cbn;
    try reflexivity; try apply IH.
  now rewrite IH.
Qed.

Lemma slice_lower (s : string) (i j : Z) :
  os_path.slice (Py.lower s) i j = Py.lower (os_path.slice s i j).
Proof. apply substring_lower. Qed.

Lemma slice_from_lower (s : string) (i : Z) :
  os_path.slice_from (Py.lower s) i = Py.lower (os_path.slice_from s i).
Proof. unfold os_path.slice_from. now rewrite length_lower, slice_lower. Qed.

Lemma all_dots_lower (s : string) :
  Py.all_chars (Ascii.eqb ".") (Py.lower s) = Py.all_chars (Ascii.eqb ".") s.
Proof.
  induction s as [|x s IH]; cbn [Py.lower Py.all_chars]; [reflexivity|].
  rewrite IH. f_equal.
  destruct x as [[] [] [] [] [] [] [] []]; reflexivity.
Qed.

Lemma basename_lower (p : string) :
  os_path.basename (Py.lower p) = Py.lower (os_path.basename p).
Proof.
  unfold os_path.basename, os_path.rfind.
  now rewrite (rfind_from_lower _ _ _ lower_char_keeps_separator), slice_from_lower.
Qed.

Lemma splitext_lower (p : string) :
  os_path.splitext (Py.lower p)
  = (Py.lower (fst (os_path.splitext p)), Py.lower (snd (os_path.splitext p))).
Proof.
  unfold os_path.splitext, os_path.rfind; cbv zeta.
  rewrite (rfind_from_lower _ _ _ lower_char_keeps_separator),
    (rfind_from_lower _ _ _ lower_char_keeps_dot), slice_lower, all_dots_lower.
  destruct (_ && _); cbn [fst snd]; [|reflexivity].
  now rewrite slice_lower, slice_from_lower.
Qed.

(** The name a directory entry is compared under, read off the entry
    in lower case. *)
Lemma collision_name_lower (file : string) :
  collision_name file
  = Py.strip (fst (os_path.splitext (os_path.basename (Py.lower file)))).
Proof.
  unfold collision_name. now rewrite basename_lower, splitext_lower.
Qed.

(** X6. Two directory entries that differ only in the case of their
    letters are compared under the same name, so that they count as a
    collision. *)
Theorem collision_ignores_case :
  forall f g : string,
    Py.lower f = Py.lower g -> collision_name f = collision_name g.
Proof.
  intros f g H. now rewrite (collision_name_lower f), (collision_name_lower g), H.
Qed.

(** The theorem above, at two spellings of one file name. *)
Lemma collision_ignores_case_witness :
  collision_name "Holiday.PNG" = collision_name "holiday.png".
Proof. apply collision_ignores_case. reflexivity. Defined.

(** A file name [r.e] (no separator in it, [r] not made of dots only, no
    dot in [e]) is compared under [r], in lower case and without the white
    space around it. *)
Lemma collision_name_root (r e : string) :
  Py.contains "/" r = false ->
  Py.all_chars (Ascii.eqb ".") r = false ->
  Py.contains "/" e = false ->
  Py.contains "." e = false ->
  collision_name (r ++ String "." e) = Py.strip (Py.lower r).
Proof.
  intros Hr Hdots He Hd. unfold collision_name.
  assert (Hs : Py.contains "/" (r ++ String "." e) = false).
  { rewrite contains_app, Hr. cbn. exact He. }
  rewrite (basename_plain _ Hs), (splitext_plain_dot r e Hs Hd), Hdots.
  reflexivity.
Qed.



(** ** The counters of a batch, whatever fails *)

Section Accounting.
Variable W : World.
Variable o : Options.




End Accounting.



(** ** A batch that cannot run *)

Lemma makedirs_step (W : World) (d : string) (s0 : State) :
  can_make W d ->
  (if negb (os_path_exists W d)
   then fun s : State => (os_makedirs W d, s)
   else fun s : State => (Return tt, s)) s0 = (Return tt, s0).
Proof. intros [->| ->]; [reflexivity|]. now destruct (os_path_exists W d). Qed.

(** X9. When a directory of the batch is missing and cannot be made,
    [start_processing] returns after two log lines, the start and the
    error: no summary line follows, the error is not counted, nothing is
    written or asked, and the counter of running jobs is decremented. *)
Theorem batch_stops_when_directory_cannot_be_made :
  forall (W : World) (o : Options) (in_directory out_directory e : string) (s : State),
    os_fsencode W (general_input_entry o) = Return in_directory ->
    os_fsencode W (general_output_entry o) = Return out_directory ->
    cannot_make W in_directory out_directory e ->
    start_processing W o s
    = (Return tt,
       stopped ["[INFO] Started processing job."; error_line e]
               (decrement (THREAD_COUNT s)) s).
Proof.
  intros W o in_directory out_directory e s.
  intros Hin Hout Hmk.
  unfold start_processing, bind, try_except, call, ret. rewrite Hin, Hout.
  cbn [insert_log].
  destruct Hmk as [[Hex Hmk]|[Hok [Hex Hmk]]].
  - rewrite Hex, Hmk. cbn [negb].
    unfold abort, bind, insert_log, decrement_THREAD_COUNT, stopped, error_line,
      set_log, set_ERR_COUNT, set_IMG_COUNT, set_THREAD_COUNT.
    cbn [log ERR_COUNT IMG_COUNT THREAD_COUNT files prompts negb].
    rewrite <- app_assoc. reflexivity.
  - rewrite (makedirs_step W _ _ Hok), Hex, Hmk. cbn [negb].
    unfold abort, bind, insert_log, decrement_THREAD_COUNT, stopped, error_line,
      set_log, set_ERR_COUNT, set_IMG_COUNT, set_THREAD_COUNT.
    cbn [log ERR_COUNT IMG_COUNT THREAD_COUNT files prompts negb].
    rewrite <- app_assoc. reflexivity.
Qed.

(** The theorem above, at a world without directories where none can be
    made. *)
Lemma batch_stops_when_directory_cannot_be_made_witness :
  let W := with_directories (Sample.world [] [] true) (fun _ => false)
             (fun d => Raise ("[Errno 13] Permission denied: '" ++ d ++ "'"))
             (fun _ => Return []) in
  start_processing W Sample.startup Sample.launched
  = (Return tt,
     stopped ["[INFO] Started processing job.";
              "[ERROR] [Errno 13] Permission denied: 'input'"] 0 Sample.launched).
Proof.
  intros W.
  apply (batch_stops_when_directory_cannot_be_made W Sample.startup "input" "output"
           "[Errno 13] Permission denied: 'input'" Sample.launched).
  - reflexivity.
  - reflexivity.
  - left. split; reflexivity.
Defined.

(** X10. When the directories are there and one of them cannot be
    listed, the exception leaves [start_processing]: the log has the line
    of the start only, and the counter of running jobs is not decremented. *)
Theorem unlistable_directory_ends_the_job_uncounted :
  forall (W : World) (o : Options) (in_directory out_directory e : string) (s : State),
    os_fsencode W (general_input_entry o) = Return in_directory ->
    os_fsencode W (general_output_entry o) = Return out_directory ->
    can_make W in_directory -> can_make W out_directory ->
    cannot_list W in_directory out_directory e ->
    start_processing W o s
    = (Raise e, stopped ["[INFO] Started processing job."] (THREAD_COUNT s) s).
Proof.
  intros W o in_directory out_directory e s.
  intros Hin Hout Hie Hoe Hl.
  unfold start_processing, bind, try_except, call, ret. rewrite Hin, Hout.
  cbn [insert_log].
  rewrite (makedirs_step W _ _ Hie), (makedirs_step W _ _ Hoe). cbn [negb].
  destruct Hl as [Hl|[[in_listing Hil] Hl]].
  - rewrite Hl. reflexivity.
  - rewrite Hil, Hl. reflexivity.
Qed.

(** The theorem above, at a world whose source path is a file. *)
Lemma unlistable_directory_ends_the_job_uncounted_witness :
  let W := with_directories (Sample.world [] [] true) (fun _ => true)
             (fun _ => Return tt)
             (fun d => if String.eqb d "input"
                       then Raise "[Errno 20] Not a directory: 'input'"
                       else Return []) in
  start_processing W Sample.startup Sample.launched
  = (Raise "[Errno 20] Not a directory: 'input'",
     stopped ["[INFO] Started processing job."] 1 Sample.launched).
Proof.
  intros W.
  apply (unlistable_directory_ends_the_job_uncounted W Sample.startup "input" "output"
           "[Errno 20] Not a directory: 'input'" Sample.launched).
  - reflexivity.
  - reflexivity.
  - left. reflexivity.
  - left. reflexivity.
  - left. reflexivity.
Defined.

(** X11. An exception leaves [start_processing] only when a listing
    raised it: whatever else fails is logged.  The globals are then those
    of a batch that has only logged its start. *)
Theorem batch_raises_only_when_listing_fails :
  forall (W : World) (o : Options) (s s' : State) (e : string),
    start_processing W o s = (Raise e, s') ->
    (exists d, os_listdir W d = Raise e)
    /\ s' = stopped ["[INFO] Started processing job."] (THREAD_COUNT s) s.
Proof.
  intros W o s s' e.
  unfold start_processing, bind, try_except, call, ret, abort, bind, insert_log,
    decrement_THREAD_COUNT, askokcancel.
  cbn [log ERR_COUNT IMG_COUNT THREAD_COUNT files prompts set_log set_ERR_COUNT
       set_IMG_COUNT set_THREAD_COUNT set_prompts].
  destruct (os_fsencode W (general_input_entry o)) as [in_directory|e0];
    [|discriminate].
  destruct (os_fsencode W (general_output_entry o)) as [out_directory|e0];
    [|discriminate].
  cbn [log ERR_COUNT IMG_COUNT THREAD_COUNT files prompts set_log set_ERR_COUNT
       set_IMG_COUNT set_THREAD_COUNT set_prompts].
  destruct (negb (os_path_exists W in_directory));
    [destruct (os_makedirs W in_directory) as [[]|e0]; [|discriminate]|];
    (destruct (negb (os_path_exists W out_directory));
     [destruct (os_makedirs W out_directory) as [[]|e0]; [|discriminate]|]);
    cbn [negb];
    (destruct (os_listdir W in_directory) as [in_listing|e0] eqn:Hil;
     [|intros H; inversion H; subst; split; [now exists in_directory|reflexivity]]);
    (destruct (os_listdir W out_directory) as [out_listing|e0] eqn:Hol;
     [|intros H; inversion H; subst; split; [now exists out_directory|reflexivity]]);
    (destruct (negb (isdisjoint _ _) && negb (general_overwrite o)));
    cbn [log ERR_COUNT IMG_COUNT THREAD_COUNT files prompts set_log set_ERR_COUNT
         set_IMG_COUNT set_THREAD_COUNT set_prompts];
    try (destruct (messagebox_askokcancel W _ _); cbn [negb]; [|discriminate]);
    cbn [negb]; cbv beta;
    match goal with
    | |- context [for_each ?l ?b ?s0] =>
        destruct (for_each_returns W o l in_directory (general_output_entry o) s0)
          as [s1 ->]; discriminate
    end.
Qed.

(** The theorem above, at a world whose destination path is a file. *)
Lemma batch_raises_only_when_listing_fails_witness :
  let W := with_directories (Sample.world [] [] true) (fun _ => true)
             (fun _ => Return tt)
             (fun d => if String.eqb d "output"
                       then Raise "[Errno 20] Not a directory: 'output'"
                       else Return ["a.png"]) in
  (exists d, os_listdir W d = Raise "[Errno 20] Not a directory: 'output'")
  /\ snd (start_processing W Sample.startup Sample.launched)
     = stopped ["[INFO] Started processing job."] 1 Sample.launched.
Proof.
  intros W.
  apply (batch_raises_only_when_listing_fails W Sample.startup Sample.launched).
  reflexivity.
Defined.

(** X12. With overwriting ticked a batch shows no dialog, whatever the
    directories hold and whatever fails. *)
Theorem overwrite_ticked_never_asks :
  forall (W : World) (o : Options) (s : State),
    general_overwrite o = true ->
    prompts (snd (start_processing W o s)) = prompts s.
Proof.
  intros W o s Hov.
  unfold start_processing, bind, try_except, call, ret, abort, bind, insert_log,
    decrement_THREAD_COUNT.
  rewrite Hov.
  cbn [log ERR_COUNT IMG_COUNT THREAD_COUNT files prompts set_log set_ERR_COUNT
       set_IMG_COUNT set_THREAD_COUNT set_prompts].
  destruct (os_fsencode W (general_input_entry o)) as [in_directory|e0];
    [|reflexivity].
  destruct (os_fsencode W (general_output_entry o)) as [out_directory|e0];
    [|reflexivity].
  cbn [log ERR_COUNT IMG_COUNT THREAD_COUNT files prompts set_log set_ERR_COUNT
       set_IMG_COUNT set_THREAD_COUNT set_prompts].
  destruct (negb (os_path_exists W in_directory));
    [destruct (os_makedirs W in_directory) as [[]|e0]; [|reflexivity]|];
    (destruct (negb (os_path_exists W out_directory));
     [destruct (os_makedirs W out_directory) as [[]|e0]; [|reflexivity]|]);
    cbn [negb];
    (destruct (os_listdir W in_directory) as [in_listing|e0]; [|reflexivity]);
    (destruct (os_listdir W out_directory) as [out_listing|e0]; [|reflexivity]);
    rewrite andb_false_r; cbn [negb]; cbv beta;
    match goal with
    | |- context [for_each ?l ?b ?s0] =>
        pose proof (preserves_for_each prompts (fun _ _ => eq_refl)
                      (fun _ _ => eq_refl) (fun _ _ => eq_refl) (fun _ _ => eq_refl)
                      W o in_directory (general_output_entry o) l s0) as Hp;
        destruct (for_each l b s0) as [[[]|e] s1];
        cbn [snd prompts set_log set_ERR_COUNT set_IMG_COUNT set_THREAD_COUNT] in *;
        exact Hp
    end.
Qed.

(** The theorem above, at two directories of the sample world that hold
    the same name. *)
Lemma overwrite_ticked_never_asks_witness :
  let W := Sample.world ["a.png"] ["A.jpg"] false in
  let o := Sample.options None None None None false false false false true in
  collision_name "a.png" = collision_name "A.jpg"
  /\ prompts (snd (start_processing W o Sample.launched)) = prompts Sample.launched.
Proof.
  intros W o. split; [reflexivity|].
  apply (overwrite_ticked_never_asks W o Sample.launched). reflexivity.
Defined.

(** ** The counter of running jobs *)

(** One step of the dispatcher keeps the counter at the number of
    workers that run, less one while a launch is under way. *)
Lemma step_keeps_count (e : Dispatcher.event) (st st' : Dispatcher.t) :
  Dispatcher.count st
  = Z.of_nat (Dispatcher.running st) - (if Dispatcher.launching st then 1 else 0) ->
  Dispatcher.step e st = Some st' ->
  Dispatcher.count st'
  = Z.of_nat (Dispatcher.running st') - (if Dispatcher.launching st' then 1 else 0).
Proof.
  destruct st as [c r l]. cbn [Dispatcher.count Dispatcher.running Dispatcher.launching].
  intros I. destruct e; cbn [Dispatcher.step Dispatcher.count Dispatcher.running
                             Dispatcher.launching].
  - destruct l; [discriminate|]. intros H. inversion H.
    cbn [Dispatcher.count Dispatcher.running Dispatcher.launching]. lia.
  - destruct l; [|discriminate]. intros H. inversion H.
    cbn [Dispatcher.count Dispatcher.running Dispatcher.launching]. lia.
  - destruct r as [|n]; [discriminate|]. intros H. inversion H.
    cbn [Dispatcher.count Dispatcher.running Dispatcher.launching].
    unfold decrement. destruct (c <? 0) eqn:E.
    + apply Z.ltb_lt in E. destruct l; lia.
    + destruct l; lia.
Qed.

(** X13. With the steps of the launcher and of the workers as the
    dispatcher has them (a thread is started, then counted; a started
    worker decrements once), the counter of running jobs is at every
    moment the number of workers that run, less one while a launch is
    under way.  So it is never below -1, and the branch of the decrement
    for a negative counter is never taken. *)
Theorem dispatcher_count_follows_the_workers :
  forall (trace : list Dispatcher.event) (st : Dispatcher.t),
    Dispatcher.run trace Dispatcher.initial = Some st ->
    Dispatcher.count st
    = Z.of_nat (Dispatcher.running st) - (if Dispatcher.launching st then 1 else 0)
    /\ -1 <= Dispatcher.count st
    /\ (forall st', Dispatcher.step Dispatcher.Finish st = Some st' ->
                    Dispatcher.count st' = Dispatcher.count st - 1).
Proof.
  intros trace st R.
  assert (I : Dispatcher.count st
              = Z.of_nat (Dispatcher.running st)
                - (if Dispatcher.launching st then 1 else 0));
    [|split; [exact I|split;
       [destruct (Dispatcher.launching st); lia
       |intros st'; cbn [Dispatcher.step];
        destruct (Dispatcher.running st) as [|n]; [discriminate|];
        intros H; inversion H; cbn [Dispatcher.count]; unfold decrement;
        destruct (Dispatcher.count st <? 0) eqn:E; [|reflexivity];
        apply Z.ltb_lt in E; destruct (Dispatcher.launching st); lia]]].
  revert st R.
  assert (G : forall st0 st,
             Dispatcher.count st0
             = Z.of_nat (Dispatcher.running st0)
               - (if Dispatcher.launching st0 then 1 else 0) ->
             Dispatcher.run trace st0 = Some st ->
             Dispatcher.count st
             = Z.of_nat (Dispatcher.running st)
               - (if Dispatcher.launching st then 1 else 0)).
  { induction trace as [|e rest IH]; intros st0 st I R.
    - inversion R. now subst.
    - cbn [Dispatcher.run] in R.
      destruct (Dispatcher.step e st0) as [st1|] eqn:S1; [|discriminate].
      exact (IH st1 st (step_keeps_count e st0 st1 I S1) R). }
  intros st. apply G. reflexivity.
Qed.

(** The theorem above, at two launches, the second of which is overtaken
    by a worker. *)
Lemma dispatcher_count_follows_the_workers_witness :
  let st := Dispatcher.mk 0 1 true in
  Dispatcher.count st = Z.of_nat 1 - 1
  /\ -1 <= Dispatcher.count st
  /\ (forall st', Dispatcher.step Dispatcher.Finish st = Some st' ->
                  Dispatcher.count st' = Dispatcher.count st - 1).
Proof.
  intros st.
  apply (dispatcher_count_follows_the_workers
           [Dispatcher.Start; Dispatcher.Count; Dispatcher.Start; Dispatcher.Finish]).
  reflexivity.
Defined.

(** ** The validators of posterize and solarize *)






(** ** Doubles that come from integers *)

Section NotNaN.
Variable prec emax : Z.

Lemma shr_1_nonneg (mrs : shr_record) : 0 <= shr_m mrs -> 0 <= shr_m (shr_1 mrs).
Proof.
  destruct mrs as [m r s]. cbn [shr_m]. intros H.
  destruct m as [|p|p]; [|destruct p|lia]; cbn; lia.
Qed.

Lemma iter_shr_1_nonneg (p : positive) (mrs : shr_record) :
  0 <= shr_m mrs -> 0 <= shr_m (iter_pos shr_1 p mrs).
Proof.
  revert mrs. induction p as [p IH|p IH|]; intros mrs H; cbn [iter_pos].
  - apply IH, IH, shr_1_nonneg, H.
  - apply IH, IH, H.
  - apply shr_1_nonneg, H.
Qed.

Lemma shr_fexp_nonneg (m e : Z) (l : location) :
  0 <= m -> 0 <= shr_m (fst (shr_fexp prec emax m e l)).
Proof.
  intros H. unfold shr_fexp, shr.
  assert (H0 : 0 <= shr_m (shr_record_of_loc m l)) by (destruct l as [|[]]; exact H).
  destruct (fexp prec emax (Zdigits2 m + e) - e); cbn [fst]; try exact H0.
  now apply iter_shr_1_nonneg.
Qed.

Lemma round_nearest_even_nonneg (mx : Z) (lx : location) :
  0 <= mx -> 0 <= round_nearest_even mx lx.
Proof.
  intros H. destruct lx as [|[]]; cbn [round_nearest_even]; try lia.
  destruct (Z.even mx); lia.
Qed.

Lemma binary_round_aux_not_nan (sx : bool) (mx ex : Z) (lx : location) :
  0 <= mx -> binary_round_aux prec emax sx mx ex lx <> S754_nan.
Proof.
  intros H. unfold binary_round_aux.
  pose proof (shr_fexp_nonneg mx ex lx H) as H1.
  destruct (shr_fexp prec emax mx ex lx) as [mrs' e']. cbn [fst] in H1.
  pose proof (shr_fexp_nonneg _ e' loc_Exact
                (round_nearest_even_nonneg _ (loc_of_shr_record mrs') H1)) as H2.
  destruct (shr_fexp prec emax _ e' loc_Exact) as [mrs'' e'']. cbn [fst] in H2.
  destruct (shr_m mrs'') as [|m|m]; [discriminate| |lia].
  destruct (e'' <=? emax - prec); discriminate.
Qed.

Lemma binary_normalize_not_nan (m e : Z) (szero : bool) :
  binary_normalize prec emax m e szero <> S754_nan.
Proof.
  unfold binary_normalize, binary_round.
  destruct m as [|p|p]; [discriminate| |];
    destruct (shl_align _ _ _) as [mz ez]; now apply binary_round_aux_not_nan.
Qed.

End NotNaN.

(** The double of an integer is a zero or a finite number when the
    conversion does not overflow. *)
Lemma float_of_int_Return (z : Z) (k : Py.float) :
  Py.float_of_int z = Return k ->
  (exists sg, k = S754_zero sg) \/ (exists sg m e, k = S754_finite sg m e).
Proof.
  unfold Py.float_of_int.
  pose proof (binary_normalize_not_nan Py.prec Py.emax z 0 false) as N.
  fold (Py.float_of_Z z) in N.
  destruct (Py.float_of_Z z) as [sg|sg| |sg m e]; intros H; inversion H; subst.
  - left. now exists sg.
  - congruence.
  - right. now exists sg, m, e.
Qed.

(** Zero percent of a size is zero pixels. *)
Lemma percent_of_zero (size : Z) :
  is_raise (Py.float_of_int size) = false -> percent_of 0 size = Return 0.
Proof.
  intros H. unfold percent_of.
  change (Py.fdiv (Py.float_of_Z 0) (Py.float_of_Z 100)) with (Return (S754_zero false)).
  cbn [obind].
  destruct (Py.float_of_int size) as [k|e] eqn:K; [|discriminate H].
  cbn [obind].
  destruct (float_of_int_Return _ _ K) as [[sg ->]|[sg [m [e ->]]]]; reflexivity.
Qed.

(** ** Cropping by nothing *)

(** X16. A crop entry of four percentages that are all zero, such as the
    entry at start-up, asks for the whole frame: the library is called with
    the box from the origin to the width and the height of the image. *)
Theorem zero_margins_crop_the_whole_frame :
  forall (W : World) (o : Options) (img : Image) (s : State)
         (n1 n2 n3 n4 w2 w3 w4 tail : string),
    transform_crop_entry o
    = crop_str (mkField n1 true) w2 (mkField n2 true) w3 (mkField n3 true) w4
               (mkField n4 true) tail ->
    Py.isnumeric n1 = true -> Py.isnumeric n2 = true ->
    Py.isnumeric n3 = true -> Py.isnumeric n4 = true ->
    decimal n1 = 0 -> decimal n2 = 0 -> decimal n3 = 0 -> decimal n4 = 0 ->
    Py.all_chars Py.isspace w2 = true ->
    Py.all_chars Py.isspace w3 = true ->
    Py.all_chars Py.isspace w4 = true ->
    tail = EmptyString \/ tail = newline ->
    0 < width img -> 0 < height img ->
    is_raise (Py.float_of_int (width img)) = false ->
    is_raise (Py.float_of_int (height img)) = false ->
    func_transform_crop W o img s
    = apply_and_log (Image_crop W img (0, 0, width img, height img))
        ("[TRANSFORM] Cropped image region "
         ++ crop_box_str (0, 0, width img, height img) ++ ".") s.
Proof.
  intros W o img s n1 n2 n3 n4 w2 w3 w4 tail E N1 N2 N3 N4 D1 D2 D3 D4
    H2 H3 H4 Ht Hw Hh Fw Fh.
  unfold func_transform_crop. rewrite E.
  rewrite (CROP_REGEX_accepts (mkField n1 true) w2 (mkField n2 true) w3
             (mkField n3 true) w4 (mkField n4 true) tail N1 N2 N3 N4 H2 H3 H4 Ht).
  assert (B : crop_box W img
                (crop_str (mkField n1 true) w2 (mkField n2 true) w3 (mkField n3 true)
                          w4 (mkField n4 true) tail)
              = Return (0, 0, width img, height img)).
  { rewrite (crop_box_of_fields W img _ (mkField n1 true) (mkField n2 true)
               (mkField n3 true) (mkField n4 true) N1 N2 N3 N4
               (crop_str_fields (mkField n1 true) w2 (mkField n2 true) w3
                  (mkField n3 true) w4 (mkField n4 true) tail
                  N1 N2 N3 N4 H2 H3 H4 Ht)).
    unfold box_of, resolve, resolve_far. cbn [percent digits].
    rewrite D1, D2, D3, D4, !(percent_of_zero _ Fw), !(percent_of_zero _ Fh).
    cbn [obind]. now rewrite !Z.sub_0_r. }
  unfold bind at 1, call at 1. rewrite B.
  replace (crop_box_ok (0, 0, width img, height img)) with true; [reflexivity|].
  symmetry. apply crop_box_ok_valid. unfold box_valid. lia.
Qed.

(** The theorem above, at the entry of the start-up options and an image
    of the sample world. *)
Lemma zero_margins_crop_the_whole_frame_witness :
  let W := Sample.world [] [] true in
  let o := Sample.options None (Some "0%,0%,0%,0%") None None
             false false false false false in
  func_transform_crop W o Sample.png Sample.fresh
  = (Return (Sample.resized Sample.png (300, 100)),
     logged "[TRANSFORM] Cropped image region (0, 0, 300, 100)." Sample.fresh).
Proof.
  intros W o.
  apply (zero_margins_crop_the_whole_frame W o Sample.png Sample.fresh
           "0" "0" "0" "0" EmptyString EmptyString EmptyString EmptyString);
    try reflexivity.
  left. reflexivity.
Defined.

(** ** The files of a turn *)

(** The extension after the pipeline: the one of the chosen filetype
    when the conversion is ticked, the one of the file otherwise. *)
Lemma run_ops_extension (W : World) (o : Options) (v v' : carried) (s s' : State) :
  run_ops W o ORDER v s = (Return v', s') ->
  snd v' = if advanced_convert_filetype o
           then "." ++ Py.lower (advanced_convert_filetype_option o) else snd v.
Proof.
  unfold ORDER, ADVANCED_TAB. rewrite run_ops_app. unfold bind at 1.
  destruct (run_ops W o TRANSFORM_TAB v s) as [[v1|e] s1] eqn:T; [|discriminate].
  apply run_ops_keeps_extension in T;
    [|unfold TRANSFORM_TAB; repeat constructor; discriminate].
  change [op_convert_filetype; op_convert_mode]
    with ([op_convert_filetype] ++ [op_convert_mode])%list.
  rewrite run_ops_app. unfold bind at 1.
  destruct (run_ops W o [op_convert_filetype] v1 s1) as [[v2|e] s2] eqn:F; [|discriminate].
  intros M. apply run_ops_keeps_extension in M; [|repeat constructor; discriminate].
  rewrite M. cbn [run_ops] in F. unfold bind, consult, check in F.
  cbn [enabled transform_of] in F.
  destruct (advanced_convert_filetype o).
  - unfold try_except, on_extension, func_advanced_convert_filetype, bind,
      insert_log, ret in F.
    inversion F. reflexivity.
  - inversion F. subst. exact T.
Qed.

(** What [process] returns beside the image: the root of the base name,
    an extension that makes the output name with it, and the statistics of
    some image. *)
Lemma process_names (W : World) (o : Options) (img img' : Image)
    (name ext stats : string) (s s' : State) :
  process W o img s = (Return (img', name, ext, stats), s') ->
  name = fst (os_path.splitext (os_path.basename (filename img)))
  /\ name ++ ext = output_name o img.
Proof.
  rewrite process_eq_in_order. unfold process_in_order.
  unfold bind at 1. cbn [insert_log]. unfold bind at 1.
  match goal with
  | |- context [run_ops W o ORDER ?v ?s0] =>
      destruct (run_ops W o ORDER v s0) as [[v1|e] s1] eqn:R
  end; [|discriminate].
  unfold bind at 1, call at 1.
  destruct (statistics W o (fst v1) EmptyString) as [st|e]; [|discriminate].
  unfold bind, insert_log, ret. intros H. inversion H; subst.
  split; [reflexivity|].
  rewrite (run_ops_extension _ _ _ _ _ _ R). cbn [snd]. unfold output_name.
  destruct (advanced_convert_filetype o);
    [reflexivity|apply root_and_extension_of_basename].
Qed.

(** X17. One turn of the loop writes nothing, or the image alone, or the
    image and then its statistics.  The image goes to the output directory
    under the base name of the source file, or under its root with the
    extension of the chosen filetype when the conversion is ticked; the
    statistics go to the root with the extension [.txt]. *)
Theorem a_turn_writes_under_the_name_of_the_source :
  forall (W : World) (o : Options) (in_directory OUTPUT_PATH file : string) (s : State),
    let s' := snd (loop_body W o in_directory OUTPUT_PATH file s) in
    files s' = files s
    \/ exists (opened img : Image) (kwargs : list (string * kwarg)),
         Image_open W (os_path.join in_directory file) = Return opened
         /\ (files s'
             = (files s ++ [(os_path.join OUTPUT_PATH (output_name o opened),
                             ImageFile img kwargs)])%list
             \/ exists stats,
                  files s'
                  = (files s ++ [(os_path.join OUTPUT_PATH (output_name o opened),
                                  ImageFile img kwargs);
                                 (os_path.join OUTPUT_PATH (statistics_name opened),
                                  TextFile stats)])%list).
Proof.
  intros W o in_directory OUTPUT_PATH file s. cbv zeta.
  destruct (loop_body W o in_directory OUTPUT_PATH file s) as [r s'] eqn:L.
  cbn [snd]. revert L.
  unfold loop_body, try_except, process_file. unfold bind at 1. unfold call at 1.
  destruct (Image_open W (os_path.join in_directory file)) as [opened|e] eqn:O;
    [|intros L; inversion L; left; reflexivity].
  unfold bind at 1.
  pose proof (preserves_process files (fun _ _ => eq_refl) (fun _ _ => eq_refl)
                W o opened s) as HF.
  destruct (process W o opened s) as [[[[[img name] ext] stats]|e] s1] eqn:P;
    cbn [snd] in HF; [|intros L; inversion L; left; exact HF].
  apply process_names in P. destruct P as [-> Hname]. rewrite Hname.
  unfold bind at 1.
  destruct (save_image W o img _ ext s1) as [[[]|e] s2] eqn:Sv.
  2:{ apply save_image_Raise in Sv. destruct Sv as [F2 _].
      intros L. inversion L. left. cbn. now rewrite F2. }
  apply save_image_Return in Sv. destruct Sv as [kwargs [lines ->]].
  unfold bind, insert_log, incr_IMG_COUNT, incr_ERR_COUNT, call, put_file, ret.
  cbn [log ERR_COUNT IMG_COUNT THREAD_COUNT files prompts set_log set_files
       set_IMG_COUNT set_ERR_COUNT].
  destruct (negb (String.eqb stats EmptyString)).
  - destruct (file_write W _ stats) as [[]|e]; intros L; inversion L;
      right; exists opened, img, kwargs; (split; [reflexivity|]);
      cbn [log ERR_COUNT IMG_COUNT THREAD_COUNT files prompts set_log set_files
           set_IMG_COUNT set_ERR_COUNT]; rewrite HF.
    + right. exists stats. rewrite <- app_assoc. reflexivity.
    + left. reflexivity.
  - intros L; inversion L. right. exists opened, img, kwargs. split; [reflexivity|].
    cbn [log ERR_COUNT IMG_COUNT THREAD_COUNT files prompts set_log set_files
         set_IMG_COUNT set_ERR_COUNT]. rewrite HF. left. reflexivity.
Qed.

(** ** The text of the statistics *)

Lemma stat_lines_text (ms : list (bool * string * outcome string)) (acc : string) :
  existsb (fun m => fst (fst m) && is_raise (snd m)) ms = false ->
  stat_lines ms acc = Return (acc ++ stats_text ms).
Proof.
  revert acc. induction ms as [|[[flag label] value] rest IH]; intros acc.
  - intros _. cbn. now rewrite append_nil_r.
  - cbn [existsb fst snd stat_lines stats_text]. unfold stat_line.
    rewrite orb_false_iff. intros [Hm Hrest].
    destruct flag; cbn [andb obind] in *; [|now apply IH].
    destruct value as [v|e]; [|discriminate Hm]. cbn [obind].
    rewrite (IH _ Hrest). f_equal. rewrite !append_assoc. reflexivity.
Qed.

(** X18. When the statistics are ticked and no ticked metric fails on
    the image, the block is one line for every ticked metric, in the order
    extrema, count, sum, sum2, mean, median, rms, var, stddev: the label, a
    colon, the value and a newline. *)
Theorem statistics_lists_the_ticked_metrics :
  forall (W : World) (o : Options) (img : Image),
    advanced_stats o = true ->
    metric_fails W o img = false ->
    statistics W o img EmptyString = Return (stats_text (metrics W o img)).
Proof.
  intros W o img Hstats Hok.
  rewrite statistics_stat_lines, Hstats.
  exact (stat_lines_text (metrics W o img) EmptyString Hok).
Qed.

(** The theorem above, at an image of the sample world with the count
    and the mean ticked. *)
Lemma statistics_lists_the_ticked_metrics_witness :
  let W := Sample.world [] [] true in
  let o := Sample.options None None None None false true true true false in
  statistics W o Sample.png EmptyString
  = Return ("count:[30000]" ++ newline ++ "mean:[0.0]" ++ newline).
Proof.
  intros W o.
  apply (statistics_lists_the_ticked_metrics W o Sample.png); reflexivity.
Defined.

(** ** Saving the log *)



(** ** The dialog covers what a batch can overwrite *)

Lemma contains_root (c : ascii) (p : string) :
  Py.contains c p = false -> Py.contains c (fst (os_path.splitext p)) = false.
Proof.
  intros H. rewrite <- (splitext_cuts_in_two p), contains_app in H.
  now apply orb_false_iff in H.
Qed.

Lemma contains_lower (c : ascii) (s : string) :
  (forall x, Ascii.eqb (Py.lower_char x) c = Ascii.eqb x c) ->
  Py.contains c (Py.lower s) = Py.contains c s.
Proof.
  intros Hc. induction s as [|x s IH]; cbn; [reflexivity|].
  now rewrite IH, Hc.
Qed.

(** X20. With overwriting not ticked, a batch asks before it can write
    over a file of the output directory.  When an entry of the output
    directory has the name under which a turn writes the image of an entry
    of the source directory (its own name, or its root with the extension
    of the chosen filetype) or its statistics (its root with [.txt]), the
    test of the dialog holds. *)
Theorem overwriting_is_asked_for :
  forall (o : Options) (img : Image) (g : string) (in_listing out_listing : list string),
    In (os_path.basename (filename img)) in_listing ->
    In g out_listing ->
    g = output_name o img \/ g = statistics_name img ->
    Py.all_chars (Ascii.eqb ".")
      (fst (os_path.splitext (os_path.basename (filename img)))) = false ->
    Py.contains "/" (advanced_convert_filetype_option o) = false ->
    Py.contains "." (advanced_convert_filetype_option o) = false ->
    general_overwrite o = false ->
    asks o in_listing out_listing = true.
Proof.
  intros o img g in_listing out_listing Hin Hout Hg Hdots Hs Hd Hov.
  apply asks_iff. split; [|exact Hov].
  set (file := os_path.basename (filename img)) in *.
  set (root := fst (os_path.splitext file)) in *.
  assert (Hfile : Py.contains "/" file = false) by apply basename_has_no_separator.
  assert (Hroot : Py.contains "/" root = false) by now apply contains_root.
  assert (Hname : collision_name file = Py.strip (Py.lower root)).
  { unfold collision_name. now rewrite (basename_plain _ Hfile). }
  assert (E : collision_name g = collision_name file).
  { rewrite Hname. destruct Hg as [->| ->].
    - unfold output_name. fold file root.
      destruct (advanced_convert_filetype o); [|exact Hname].
      apply collision_name_root; try assumption.
      + now rewrite (contains_lower _ _ lower_char_keeps_separator).
      + now rewrite (contains_lower _ _ lower_char_keeps_dot).
    - unfold statistics_name. fold file root.
      now apply (collision_name_root root "txt"). }
  exists (collision_name file). split.
  - apply in_map. exact Hin.
  - rewrite <- E. apply in_map. exact Hout.
Qed.

(** The theorem above, at a source file of the sample world whose
    statistics file is in the output directory. *)
Lemma overwriting_is_asked_for_witness :
  asks Sample.startup ["a.png"] ["b.gif"; "a.txt"] = true.
Proof.
  apply (overwriting_is_asked_for Sample.startup Sample.png "a.txt").
  - left. reflexivity.
  - right. left. reflexivity.
  - right. reflexivity.
  - reflexivity.
  - reflexivity.
  - reflexivity.
  - reflexivity.
Defined.
